(* ===== verification/_CoqProject ===== *)
-Q . S2P
Prelude.v
PyStr.v
Frame.v
Matcher.v
Progress.v
Exporter.v
Upload.v
Records.v
Session.v
Store.v
AppFile.v
AppCookie.v
Concurrent.v
Liveness.v
CookieConcurrent.v
CookieUpload.v
CookieBrowser.v
