(* ===== verification/Prelude.v ===== *)
(** * Verification of the inventory-check web application

    The repository is a small Flask application in two variants that
    expose the same five routes:
    - [/upload] checks the uploaded file's name ([allowed_file]), saves it
      under [uploads/], reads it with [pd.read_excel] and starts a
      session with the sheet, no scanned rows and the file name;
    - [/search] strips the scanned code, compares it with [str()] of
      every cell, column by column, and appends the matching row indices
      not yet scanned;
    - [/stats] reports total, scanned, pending and the percentage;
    - [/export] returns the records with an [Estado_Revision] column and
      a summary;
    - [/reset] clears the session.
    In [src/App.py] the cookie keeps only [session_id], [has_data],
    [records_count] and [filename], and the dataset with its scanned
    indices is pickled to [data/session_<id>.pkl] by
    [save_session_data] / [load_session_data] / [cleanup_session_data].
    In [src/inventory_flask_app.py] the records, column names, scanned
    indices and file name live in Flask's signed cookie.

    ** Files, in dependency order
    - [Prelude] (this file): the scope [inv_scope], Python's [x in l]
      ([py_in]), the error kinds and the [response] type (a JSON body or
      an error status), the hint databases [inv] / [inv_rw], the tactic
      [decide_by_eval], and list lemmas every component shares.
    - [PyStr]: [str.strip], [str.lower], [str.rsplit('.', 1)], the
      substring test and [str(int)] on ASCII strings, with [strip]'s
      characterisation and idempotence.
    - [Frame]: cells, frames ([columns], [rows]) and the pandas calls the
      handlers make ([df[col].astype(str)], [== barcode], [.any()],
      [df[mask].index.tolist()], [head], [to_dict('records')],
      [pd.DataFrame(records)]), and the record round trip.
    - [Matcher]: the body of [search_barcode] shared by both variants
      ([found_indices], [record_scans], [search_core]) and its
      reference semantics (matching cells read row by row).
    - [Progress]: the body of [get_stats], with Python's double
      arithmetic as Rocq's primitive binary64 floats, [/] raising
      [ZeroDivisionError] on a zero divisor (the handler's [except]
      answers 500), and [round(x, 2)] as half-even rounding of the exact
      double, infinities and NaN returned unchanged.
    - [Exporter]: the body of [export_results].
    - [Upload]: [allowed_file], the request checks of [upload_file] and
      its reply.
    - [Records]: Flask's cookie serializer ([json.dumps] with
      [sort_keys=True]: records come back with sorted keys, and a
      record whose keys are already sorted comes back unchanged), the
      equivalence [≡] of frames with the same records as JSON objects,
      and the proofs that the search and the export respect it.
    - [Session]: the request and reply types, an abstract session
      contract ([spec_handle]: no session, or a dataset, a scanned list
      and a file name) and the equivalence of answers up to the order
      of indices and keys ([response_equiv]).
    - [Store]: [App.py]'s data files, through a class [SessionStore]
      with laws [SessionStoreLaws], and the disk instance.
    - [AppFile]: the handlers of [App.py] over any store, the request
      loop as a step relation, and the refinement of the contract.
    - [AppCookie]: the handlers of [inventory_flask_app.py], the
      request loop as a step relation, the shape of the cookie's
      session, the refinement of the contract, and the equivalence of
      the variants.
    - [Concurrent]: [App.py] under the threaded development server:
      every handler cut into the steps other threads can observe
      ([load_session_data], [open(.., 'wb')], [pickle.dump],
      [file.save], [pd.read_excel], [os.path.exists], [os.remove]),
      configurations of threads over the shared [data/] and [uploads/]
      folders, and schedules as lists of thread indices.
    - [Liveness]: the steps each thread has left (three for a search,
      five for an upload, two for a reset, one for stats or an export),
      the step relation [cstep] of a thread that has not answered yet,
      schedules that give every thread its turns, and the progress of
      one upload among any other threads ([upload_inv]).
    - [CookieConcurrent]: [inventory_flask_app.py] with several requests
      in flight: each is handled on the cookie it was sent with, its
      answer sets a cookie when the handler assigned to [session]
      ([session_modified]), and the browser keeps the last cookie it
      receives.
    - [CookieUpload]: the cookie variant's [upload_file] cut at
      [file.save], [pd.read_excel] and [os.remove] on the shared
      [uploads/] folder, its only handler that touches a file.
    - [CookieBrowser]: the two joined: one browser whose uploads run as
      the [CookieUpload] threads on the shared folder ([BWork] steps)
      while its other requests are answered at once as in
      [CookieConcurrent]; an answer is received once its handler has
      returned.

    ** What the theorems show
    - Refinement: on a data folder that accepts writes, [App.py]
      answers every sequence of requests exactly as the contract
      ([AppFile.app_file_implements_spec]); the cookie variant answers
      as the contract up to the order of the matched and new indices
      and of record keys ([AppCookie.cookie_implements_spec]); so the
      two variants agree from a fresh client
      ([AppCookie.variants_equivalent]).  The order does differ: the
      cookie variant's column loop walks the sheet's columns in sorted
      order, [App.py]'s in the sheet's order
      ([Records.match_order_differs]).
    - The cookie: what an upload writes comes back as a well-formed
      frame with the sheet's records, and as the sheet itself when its
      column names are sorted ([AppCookie.cookie_roundtrip]); in every
      state the requests reach, the session is empty or holds all four
      keys with a well-formed sheet and in-range scanned indices
      ([AppCookie.cookie_session_typed]).  [PyStr.rsplit1_join] is the
      round trip of [rsplit('.', 1)] that [allowed_file] relies on.
    - Uploads: a readable sheet of [N] rows is answered, by both
      variants, with [records_count = N] and the first [min(100, N)]
      records ([AppCookie.upload_answer_preview]).
    - The matcher: which rows are found, the scanned-list invariant
      (distinct indices of rows), found / not found, idempotence,
      single-cell scans, and what can never match (untrimmed cells,
      whole floats scanned as ints); a code sent as a JSON number is
      answered 500 by both variants ([AppCookie.search_non_string_barcode]).
    - Progress and export: pending rows, the percentage's range,
      endpoints ([Progress.progress_endpoints]: the whole [/stats] body
      at 0 and at all scanned, the guard keeping the division from
      raising) and monotonicity, Python's rounding against exact
      rounding, the export's records, summary and well-formedness, and
      a sheet's own [Estado_Revision] column overwritten
      ([Exporter.export_overwrites_status_column]).
    - [App.py] as a state machine: an invariant of every reachable
      state, isolation of sessions, the 400/500 error paths, and what
      happens when the disk refuses writes: a search still answers
      success while nothing is stored ([AppFile.search_ignores_failed_save]),
      orphaned data files, uploads left behind.
    - Interleavings: each handler's thread run alone is the atomic
      handler ([Concurrent.handler_alone], a check of the cut, not a
      property of the program); two overlapping searches lose the
      first one's scans ([Concurrent.lost_scan_update]) or fail on a
      truncated data file ([Concurrent.torn_read_load_error]); two
      overlapping uploads of same-named files read each other's sheet
      ([Concurrent.upload_clobbered]); a search overlapping a reset
      writes the removed data file back ([Concurrent.reset_resurrected]),
      and one overlapping an upload of the same client writes the old
      sheet back ([Concurrent.upload_reverted_by_search]);
      yet under every schedule each readable data file holds a well-formed
      session ([Concurrent.schedule_keeps_sessions_ok], by induction on
      the schedule with an invariant of the shared disk, the uploads
      folder and each thread's local state).
    - Termination and liveness: every interleaving that only steps
      threads still running is finite ([Liveness.interleavings_terminate],
      by the number of steps left) and a schedule giving each thread
      five turns answers every request ([Liveness.fair_schedule_answers]);
      these only count the steps of the model (no handler of the source
      loops or waits), so the property of the program is
      [Liveness.fair_schedule_completes_upload]: under such a schedule,
      whatever the other threads do, an upload of a readable sheet under
      a name no other upload uses, on a writable data folder, answers
      success and removes its copy from [uploads/].  Five is the length
      of the longest handler, [upload_file], in the step model.
    - The cookie variant's requests in flight: a browser that waits for
      each answer sees the sequential handlers
      ([CookieConcurrent.one_at_a_time]), and still does when the
      server runs each upload through its three file steps before
      answering ([CookieBrowser.browser_one_at_a_time]); these two check
      the browser model against the handlers.  Two requests sent before
      either answer arrives are computed from the same cookie and the
      answer that arrives last decides the session: two scans lose the
      first one's rows ([CookieConcurrent.cookie_lost_scan_update]), and
      a scan sent while an upload is answered puts the old sheet back
      ([CookieBrowser.scan_during_upload_keeps_old_sheet]).  Two overlapping
      uploads of the same name read each other's sheet and the second
      answers 500 while its cookie carries the new session
      ([CookieUpload.cupload_clobbered]); in the browser that error
      answer alone replaces the session with the new sheet
      ([CookieBrowser.browser_upload_clobbered]).  Still, under every
      interleaving of one browser's requests and upload steps the
      cookie keeps the shape [AppCookie.session_typed] describes
      ([CookieBrowser.browser_session_typed], by the invariant
      [CookieBrowser.bstate_ok] on the cookie, the cookies in flight
      and the files of [uploads/]).

    ** Bounds and modelling choices
    - Strings are byte strings; the whitespace of [strip] is ASCII
      (Python's [str.strip] also strips Unicode spaces, which cells
      of a sheet rarely hold).  Python's code-point order of keys is
      the byte order of their UTF-8 encodings.
    - The theorems on the percentage are checked on every pair
      [0 <= scanned <= total <= 200] ([Progress.progress_table_size]):
      the double arithmetic is evaluated once for the whole table.  200
      rows covers the inventories the page is meant for; the other
      theorems hold for every size.
    - A float cell with an integral value prints as [N.0] below [10^16]
      ([Frame.cell_wf]); pandas gives frames with unique column names
      and full rows ([Session.request_ok]).
    - [secure_filename] is a parameter, [uuid4] a field of the upload
      request, and [pd.read_excel]'s outcome (a frame or an exception)
      part of the uploaded file.

    ** Not modelled
    - Parsing of Excel files ([pd.read_excel] is a library call whose
      outcome is part of the request), [index] and its template, the
      secret key and the imports: library code and I/O without logic
      of the program.  The folders [os.makedirs] creates are the empty
      initial states [AppFile.init_server] and [AppCookie.init_cserver],
      and [app.run]'s threads are the schedules of [Concurrent],
      [CookieUpload] and [CookieBrowser].
    - The 4 KB size limit browsers put on cookies (which breaks the
      cookie variant on large sheets) and dtype re-inference by
      [pd.DataFrame(records)].
    - Several browsers of the cookie variant at once: each keeps its
      own cookie, so they share only [uploads/], whose races
      [CookieUpload] covers for any number of uploads.
*)

From stdpp Require Export base list options strings sets.
From Stdlib Require Export ZArith Lia.

Declare Scope inv_scope.
Delimit Scope inv_scope with inv.
Open Scope inv_scope.

Create HintDb inv.
Create Rewrite HintDb inv_rw.

(** ** Python's membership test on a list

    [x in l] for a Python list compares with [==], which on the values
    the application stores (ints, strings) is structural equality. *)
Definition py_in {A} `{EqDecision A} (x : A) (l : list A) : bool :=
  bool_decide (x ∈ l).

Notation "x '∈?' l" := (py_in x l) (at level 70, no associativity) : inv_scope.

Lemma py_in_true {A} `{EqDecision A} (x : A) (l : list A) :
  (x ∈? l) = true ↔ x ∈ l.
Proof. apply bool_decide_eq_true. Qed.

Lemma py_in_false {A} `{EqDecision A} (x : A) (l : list A) :
  (x ∈? l) = false ↔ x ∉ l.
Proof. apply bool_decide_eq_false. Qed.

Lemma py_in_app_snoc {A} `{EqDecision A} (x y : A) (l : list A) :
  (x ∈? l ++ [y]) = (x ∈? l) || bool_decide (x = y).
Proof.
  unfold py_in. apply Bool.eq_true_iff_eq.
  rewrite orb_true_iff, !bool_decide_eq_true, elem_of_app, list_elem_of_singleton.
  done.
Qed.

(** ** HTTP responses

    Every handler of both variants returns either a JSON body with
    status 200 or one of the error responses of the spec (section 7),
    with the status code the source writes at its [return]. *)
Inductive error_kind :=
  | ErrNoFile          (** 'No se seleccionó archivo' *)
  | ErrFileType        (** 'Tipo de archivo no permitido' *)
  | ErrProcessFile     (** 'Error al procesar archivo: ...' (exception) *)
  | ErrSaveData        (** 'Error al guardar los datos' *)
  | ErrEmptyBarcode    (** 'Código de barras vacío' *)
  | ErrNoData          (** 'No hay datos cargados' *)
  | ErrLoadData        (** 'Error al cargar los datos' *)
  | ErrSearch          (** 'Error en la búsqueda: ...' (exception) *)
  | ErrStats           (** 'Error al obtener estadísticas: ...' *)
  | ErrExport          (** 'Error al exportar: ...' *)
  | ErrReset.          (** 'Error al reiniciar: ...' *)

#[export] Instance error_kind_eq_dec : EqDecision error_kind.
Proof. solve_decision. Qed.

Inductive response (B : Type) :=
  | Ok (body : B)
  | Fail (status : Z) (kind : error_kind).
Arguments Ok {B} body.
Arguments Fail {B} status kind.

Definition is_ok {B} (r : response B) : bool :=
  match r with Ok _ => true | Fail _ _ => false end.

(** ** List lemmas shared by the components *)

Lemma NoDup_snoc {A} (l : list A) (x : A) :
  NoDup l → x ∉ l → NoDup (l ++ [x]).
Proof.
  intros Hl Hx. apply NoDup_app. split_and!; [done| |apply NoDup_singleton].
  intros y Hy ->%list_elem_of_singleton. done.
Qed.

Lemma Forall_snoc {A} (P : A → Prop) (l : list A) (x : A) :
  Forall P l → P x → Forall P (l ++ [x]).
Proof. intros. apply Forall_app. auto. Qed.

(** The entry [i] places after a prefix: how a request in flight is
    found behind the ones sent before it. *)
Lemma lookup_app_add {A} (l1 l2 : list A) (i : nat) : (l1 ++ l2) !! (length l1 + i) = l2 !! i.
Proof. rewrite lookup_app_r by lia. f_equal. lia. Qed.

(** Positions [i, i+1, ...] of the [true] entries of a boolean list:
    the [index] of a pandas Series filtered by a boolean mask, for a
    frame whose index is the default [RangeIndex]. *)
Fixpoint true_positions_from (i : nat) (m : list bool) : list nat :=
  match m with
  | [] => []
  | b :: m' => if b then i :: true_positions_from (S i) m'
               else true_positions_from (S i) m'
  end.

Lemma elem_of_true_positions_from (i j : nat) (m : list bool) :
  j ∈ true_positions_from i m ↔ ∃ k, j = i + k ∧ m !! k = Some true.
Proof.
  revert i. induction m as [|b m IH]; intros i; simpl.
  - rewrite elem_of_nil. split; [done|]. by intros (k & _ & Hk).
  - assert (Hs : (∃ k, j = S i + k ∧ m !! k = Some true) ↔
                 (∃ k, j = i + k ∧ (b :: m) !! k = Some true ∧ k ≠ 0)).
    { split.
      - intros (k & -> & Hk). exists (S k). split_and!; [lia|done|lia].
      - intros ([|k] & -> & Hk & ?); [lia|]. exists k. split; [lia|done]. }
    destruct b; rewrite ?elem_of_cons, IH, Hs.
    + split.
      * intros [->|(k & -> & Hk & _)]; [exists 0; split; [lia|done]|by exists k].
      * intros ([|k] & -> & Hk); [left; lia|right; by exists (S k)].
    + split.
      * intros (k & -> & Hk & _). by exists k.
      * intros ([|k] & -> & Hk); [done|]. by exists (S k).
Qed.

Lemma true_positions_from_bound (i j : nat) (m : list bool) :
  j ∈ true_positions_from i m → i ≤ j < i + length m.
Proof.
  rewrite elem_of_true_positions_from. intros (k & -> & Hk).
  apply lookup_lt_Some in Hk. lia.
Qed.

Lemma NoDup_true_positions_from (i : nat) (m : list bool) :
  NoDup (true_positions_from i m).
Proof.
  revert i. induction m as [|[] m IH]; intros i; simpl; [constructor| |done].
  constructor; [|done]. intros Hin%true_positions_from_bound. lia.
Qed.

Lemma length_true_positions_from (i : nat) (m : list bool) :
  length (true_positions_from i m) = length (filter (λ b, b = true) m).
Proof.
  revert i. induction m as [|[] m IH]; intros i; simpl;
    rewrite ?filter_cons; simpl; auto.
Qed.

Lemma elem_of_concat_map {A B} (f : A → list B) (l : list A) (y : B) :
  y ∈ concat (map f l) ↔ ∃ x, x ∈ l ∧ y ∈ f x.
Proof.
  induction l as [|x l IH]; simpl.
  - rewrite elem_of_nil. split; [done|]. intros (x & Hx & _). by apply elem_of_nil in Hx.
  - rewrite elem_of_app, IH. setoid_rewrite elem_of_cons. naive_solver.
Qed.

Lemma filter_keep_all {A} (P : A → Prop) `{∀ x, Decision (P x)} (l : list A) :
  (∀ x, x ∈ l → P x) → filter P l = l.
Proof.
  induction l as [|x l IH]; intros Hl; [done|].
  rewrite filter_cons, decide_True by (apply Hl; left). f_equal.
  apply IH. intros y Hy. apply Hl. by right.
Qed.

Lemma filter_drop_all {A} (P : A → Prop) `{∀ x, Decision (P x)} (l : list A) :
  (∀ x, x ∈ l → ¬ P x) → filter P l = [].
Proof.
  induction l as [|x l IH]; intros Hl; [done|].
  rewrite filter_cons, decide_False by (apply Hl; left).
  apply IH. intros y Hy. apply Hl. by right.
Qed.

Lemma length_filter_compl {A} (P : A → Prop) `{∀ x, Decision (P x)} (l : list A) :
  length (filter P l) + length (filter (λ x, ¬ P x) l) = length l.
Proof.
  induction l as [|x l IH]; [done|]. rewrite !filter_cons.
  destruct (decide (P x)); [rewrite decide_False by naive_solver|rewrite decide_True by done];
    simpl; lia.
Qed.

(** Replacing one entry of a list changes a sum over it by the
    difference of the two entries' weights. *)
Lemma sum_list_with_insert {A} (f : A → nat) (l : list A) (i : nat) (x y : A) :
  l !! i = Some x → sum_list_with f (<[i := y]> l) + f x = sum_list_with f l + f y.
Proof.
  revert i. induction l as [|z l IH]; intros [|i] Hi; simplify_eq/=; [lia|].
  specialize (IH i Hi). lia.
Qed.

#[export] Hint Resolve NoDup_snoc Forall_snoc NoDup_true_positions_from : inv.
#[export] Hint Rewrite @length_app @length_map @length_seq : inv_rw.

(** Close a decidable proposition about concrete data by evaluation. *)
Ltac decide_by_eval := apply (bool_decide_unpack _); vm_compute; exact I.

(** Case analysis on the boolean tests the models use. *)
Ltac inv_case :=
  repeat match goal with
  | |- context [bool_decide ?P] => case_bool_decide
  | H : context [bool_decide ?P] |- _ => case_bool_decide
  | |- context [(_ ∈? _)] => unfold py_in
  end.
