(* ===== verification/PyStr.v ===== *)
(** * Python string operations used by the handlers

    The handlers call [str.strip()] on the scanned barcode
    ([barcode = data.get('barcode', '').strip()]), [str.lower()] and
    [str.rsplit('.', 1)] on the uploaded file name ([allowed_file]),
    the substring test ['.' in filename], and [str()] on cell values
    ([df[col].astype(str)]).  Strings are Rocq [string]s (bytes); the
    character classes are the ASCII ones of CPython's [str.isspace] and
    [str.lower], which is what these calls do on ASCII text. *)

From S2P Require Import Prelude.
From Stdlib Require Import Ascii DecimalString.

Module PyStr.

(** Characters of a string, as a list. *)
Definition chars (s : string) : list ascii := String.list_ascii_of_string s.
Definition of_chars (l : list ascii) : string := String.string_of_list_ascii l.

(** [str.isspace] on one ASCII character: [\t \n \x0b \x0c \r]
    (9-13) and [\x1c \x1d \x1e \x1f] and space (28-32). *)
Definition is_space (c : ascii) : bool :=
  let n := nat_of_ascii c in
  ((9 <=? n) && (n <=? 13)) || ((28 <=? n) && (n <=? 32)).

(** Leading whitespace removed: the first loop of CPython's [do_strip]. *)
Fixpoint drop_spaces (l : list ascii) : list ascii :=
  match l with
  | [] => []
  | c :: l' => if is_space c then drop_spaces l' else l
  end.

(** [s.strip()]: whitespace removed at both ends.  CPython's
    [do_strip] advances [i] over leading spaces, moves [j] back over
    trailing spaces and returns [s[i:j]]; moving back over the reversed
    list is [drop_spaces] on [rev]. *)
Definition strip (s : string) : string :=
  of_chars (rev (drop_spaces (rev (drop_spaces (chars s))))).

(** [str.lower] on one ASCII character. *)
Definition ascii_lower (c : ascii) : ascii :=
  let n := nat_of_ascii c in
  if (65 <=? n) && (n <=? 90) then ascii_of_nat (n + 32) else c.

Fixpoint lower (s : string) : string :=
  match s with
  | EmptyString => EmptyString
  | String c s' => String (ascii_lower c) (lower s')
  end.

(** [needle in hay] on strings: a substring test. *)
Fixpoint contains (needle hay : string) : bool :=
  String.prefix needle hay ||
  match hay with
  | EmptyString => false
  | String _ hay' => contains needle hay'
  end.

(** The first occurrence of [sep] in a list: the part before it and the
    part after it. *)
Fixpoint break_at (sep : ascii) (l : list ascii) : option (list ascii * list ascii) :=
  match l with
  | [] => None
  | c :: l' =>
      if decide (c = sep) then Some ([], l')
      else match break_at sep l' with
           | Some (a, b) => Some (c :: a, b)
           | None => None
           end
  end.

(** [s.rsplit(sep, 1)] for a one-character separator: [[s]] when [sep]
    does not occur, otherwise the text before and after its last
    occurrence.  The last occurrence is the first one of the reversed
    string, which is how CPython's [rsplit] scans. *)
Definition rsplit1 (sep : ascii) (s : string) : list string :=
  match break_at sep (rev (chars s)) with
  | None => [s]
  | Some (rtail, rhead) => [of_chars (rev rhead); of_chars (rev rtail)]
  end.

(** [str(z)] for a Python [int]: its decimal notation, with a leading
    ['-'] when negative. *)
Definition str_int (z : Z) : string := NilEmpty.string_of_int (Z.to_int z).

(** ** Lemmas *)

Lemma chars_of_chars (l : list ascii) : chars (of_chars l) = l.
Proof. apply String.list_ascii_of_string_of_list_ascii. Qed.

Lemma of_chars_chars (s : string) : of_chars (chars s) = s.
Proof. apply String.string_of_list_ascii_of_string. Qed.

Lemma chars_inj (s1 s2 : string) : chars s1 = chars s2 → s1 = s2.
Proof. intros H. by rewrite <-(of_chars_chars s1), H, of_chars_chars. Qed.

Lemma chars_app (s1 s2 : string) : chars (s1 +:+ s2) = chars s1 ++ chars s2.
Proof. induction s1 as [|c s1 IH]; simpl; [done|]. by rewrite IH. Qed.

Lemma chars_String (c : ascii) (s : string) : chars (String c s) = c :: chars s.
Proof. done. Qed.

Lemma length_chars (s : string) : length (chars s) = String.length s.
Proof. induction s as [|c s IH]; simpl; auto. Qed.

#[export] Hint Rewrite chars_of_chars of_chars_chars chars_app chars_String : inv_rw.

Definition all_spaces (l : list ascii) : Prop := Forall (λ c, is_space c = true) l.

Lemma drop_spaces_all (w l : list ascii) :
  all_spaces w → drop_spaces (w ++ l) = drop_spaces l.
Proof. induction 1 as [|c w Hc _ IH]; simpl; [done|]. by rewrite Hc. Qed.

Lemma drop_spaces_keep (c : ascii) (l : list ascii) :
  is_space c = false → drop_spaces (c :: l) = c :: l.
Proof. simpl. by intros ->. Qed.

Lemma drop_spaces_nil_iff (l : list ascii) :
  drop_spaces l = [] ↔ all_spaces l.
Proof.
  unfold all_spaces. induction l as [|c l IH]; simpl; [split; auto|].
  destruct (is_space c) eqn:E.
  - rewrite IH. split; [by constructor|]. by inversion 1.
  - split; [done|]. inversion 1; congruence.
Qed.

(** The result of [drop_spaces] is empty or starts with a non-space. *)
Lemma drop_spaces_head (l : list ascii) :
  drop_spaces l = [] ∨ ∃ c l', drop_spaces l = c :: l' ∧ is_space c = false.
Proof.
  induction l as [|c l IH]; simpl; [by left|].
  destruct (is_space c) eqn:E; [done|]. right. eauto.
Qed.

(** A string "trimmed" on both sides: empty, or its first and last
    characters are not whitespace. *)
Definition trimmed (l : list ascii) : Prop :=
  l = [] ∨ (∃ c l', l = c :: l' ∧ is_space c = false) ∧
            (∃ c l', l = l' ++ [c] ∧ is_space c = false).

Lemma trimmed_drop (l : list ascii) : trimmed l → drop_spaces l = l.
Proof. intros [->|[(c & l' & -> & Hc) _]]; [done|]. by apply drop_spaces_keep. Qed.

Lemma trimmed_rev (l : list ascii) : trimmed l → trimmed (rev l).
Proof.
  intros [->|[(c & l1 & E1 & Hc) (d & l2 & E2 & Hd)]]; [by left|right].
  split.
  - exists d, (rev l2). by rewrite E2, rev_app_distr.
  - exists c, (rev l1). by rewrite E1.
Qed.

Lemma all_spaces_rev (l : list ascii) : all_spaces l → all_spaces (rev l).
Proof. unfold all_spaces. apply Forall_rev. Qed.

Lemma trimmed_drop_app (core l : list ascii) :
  trimmed core → core ≠ [] → drop_spaces (core ++ l) = core ++ l.
Proof.
  intros [->|[(c & l' & -> & Hc) _]] Hne; [done|]. simpl. by rewrite Hc.
Qed.

(** What [strip] computes: for a string made of whitespace [w1], a
    trimmed middle [core] and whitespace [w2], it returns [core]. *)
Lemma strip_decompose (w1 core w2 : list ascii) :
  all_spaces w1 → all_spaces w2 → trimmed core →
  strip (of_chars (w1 ++ core ++ w2)) = of_chars core.
Proof.
  intros H1 H2 Hc. unfold strip. rewrite chars_of_chars, drop_spaces_all by done.
  destruct (decide (core = [])) as [->|Hne].
  - simpl. by rewrite (proj2 (drop_spaces_nil_iff w2) H2).
  - rewrite trimmed_drop_app, rev_app_distr, drop_spaces_all by auto using all_spaces_rev.
    rewrite trimmed_drop by auto using trimmed_rev. by rewrite rev_involutive.
Qed.

(** Every string splits into leading whitespace, a trimmed middle and
    trailing whitespace. *)
Lemma decompose_spaces (l : list ascii) :
  ∃ w1 core w2, l = w1 ++ core ++ w2 ∧ all_spaces w1 ∧ all_spaces w2 ∧ trimmed core.
Proof.
  induction l as [|c l (w1 & core & w2 & -> & H1 & H2 & Hc)] using rev_ind.
  { exists [], [], []. split_and!; [done|constructor..|by left]. }
  destruct (is_space c) eqn:Ec.
  - destruct (decide (core = [])) as [->|Hne].
    + exists (w1 ++ w2 ++ [c]), [], []. split_and!.
      * by rewrite !app_nil_l, app_nil_r, app_assoc.
      * apply Forall_app; split; [done|]. apply Forall_app; split; [done|]. by repeat constructor.
      * constructor.
      * by left.
    + exists w1, core, (w2 ++ [c]). split_and!; [by rewrite !app_assoc| done | |done].
      apply Forall_app; split; [done|]. by repeat constructor.
  - destruct (decide (core = [])) as [->|Hne].
    + exists (w1 ++ w2), [c], []. split_and!.
      * simpl. by rewrite <-app_assoc.
      * by apply Forall_app.
      * constructor.
      * right. split; [by exists c, []|by exists c, []].
    + exists w1, (core ++ w2 ++ [c]), []. split_and!; [by rewrite app_nil_r, !app_assoc|done|constructor|].
      right. split.
      * destruct Hc as [->|[(d & l' & -> & Hd) _]]; [done|].
        exists d, (l' ++ w2 ++ [c]). done.
      * exists c, (core ++ w2). by rewrite <-app_assoc.
Qed.

(** [s.strip()] is empty exactly when [s] is whitespace only: the
    barcode guard [if not barcode] rejects these inputs. *)
Lemma strip_empty_iff (s : string) : strip s = "" ↔ all_spaces (chars s).
Proof.
  destruct (decompose_spaces (chars s)) as (w1 & core & w2 & E & H1 & H2 & Hc).
  rewrite <-(of_chars_chars s), E, strip_decompose by done. rewrite chars_of_chars.
  split.
  - intros Hcore. apply (f_equal chars) in Hcore. rewrite chars_of_chars in Hcore.
    subst core. unfold all_spaces. rewrite !Forall_app. done.
  - unfold all_spaces. rewrite !Forall_app. intros (_ & Hcs & _).
    destruct Hc as [->|[(c & l' & -> & Hc) _]]; [done|]. inversion Hcs; congruence.
Qed.

(** The result of [strip] has no whitespace at either end, and [strip]
    is idempotent. *)
Lemma strip_trimmed (s : string) : trimmed (chars (strip s)).
Proof.
  destruct (decompose_spaces (chars s)) as (w1 & core & w2 & E & H1 & H2 & Hc).
  rewrite <-(of_chars_chars s), E, strip_decompose by done. by rewrite chars_of_chars.
Qed.

Lemma strip_idempotent (s : string) : strip (strip s) = strip s.
Proof.
  pose proof (strip_decompose [] (chars (strip s)) []
                (List.Forall_nil _) (List.Forall_nil _) (strip_trimmed s)) as H.
  by rewrite app_nil_l, app_nil_r, of_chars_chars in H.
Qed.

(** ['.' in s] for a one-character needle is membership of the character. *)
Lemma contains_char (c : ascii) (s : string) :
  contains (String c EmptyString) s = true ↔ c ∈ chars s.
Proof.
  induction s as [|d s IH]; simpl.
  - rewrite elem_of_nil. done.
  - rewrite elem_of_cons, <-IH. destruct (ascii_dec c d) as [->|Hne]; simpl.
    + split; [by left|intros _; by destruct s].
    + split; [by right|]. intros [->|H]; [contradiction|done].
Qed.

Lemma break_at_None (sep : ascii) (l : list ascii) :
  break_at sep l = None ↔ sep ∉ l.
Proof.
  induction l as [|c l IH]; simpl; [split; [intros _; apply not_elem_of_nil|done]|].
  rewrite not_elem_of_cons. case_decide; [naive_solver|].
  destruct (break_at sep l) as [[a b]|]; naive_solver.
Qed.

Lemma break_at_app (sep : ascii) (a b : list ascii) :
  sep ∉ a → break_at sep (a ++ sep :: b) = Some (a, b).
Proof.
  induction a as [|c a IH]; simpl; intros Ha; [by rewrite decide_True|].
  rewrite not_elem_of_cons in Ha. rewrite decide_False by naive_solver.
  by rewrite IH by naive_solver.
Qed.

Lemma break_at_inv (sep : ascii) (l a b : list ascii) :
  break_at sep l = Some (a, b) → l = a ++ sep :: b ∧ sep ∉ a.
Proof.
  revert a. induction l as [|c l IH]; intros a; simpl; [done|].
  case_decide as Hc.
  - intros [= <- <-]. subst c. split; [done|apply not_elem_of_nil].
  - destruct (break_at sep l) as [[a' b']|] eqn:E; [|done].
    intros [= <- <-]. destruct (IH a' eq_refl) as [-> Ha'].
    split; [done|]. rewrite not_elem_of_cons. auto.
Qed.

Lemma break_at_Some (sep : ascii) (l a b : list ascii) :
  break_at sep l = Some (a, b) ↔ l = a ++ sep :: b ∧ sep ∉ a.
Proof.
  split; [apply break_at_inv|]. intros [-> Ha]. by apply break_at_app.
Qed.

Lemma not_elem_of_rev (c : ascii) (l : list ascii) : c ∉ l → c ∉ rev l.
Proof. rewrite !list_elem_of_In, <-in_rev. done. Qed.

(** [rsplit('.', 1)] on [base + '.' + ext] with no ['.'] in [ext]. *)
Lemma rsplit1_last (sep : ascii) (base ext : list ascii) :
  sep ∉ ext → rsplit1 sep (of_chars (base ++ sep :: ext)) = [of_chars base; of_chars ext].
Proof.
  intros Hext. unfold rsplit1. rewrite chars_of_chars, rev_app_distr. simpl.
  rewrite <-app_assoc. simpl. rewrite break_at_app by auto using not_elem_of_rev.
  by rewrite !rev_involutive.
Qed.

Lemma rsplit1_none (sep : ascii) (s : string) : sep ∉ chars s → rsplit1 sep s = [s].
Proof.
  intros Hs. unfold rsplit1. by rewrite (proj2 (break_at_None _ _)) by auto using not_elem_of_rev.
Qed.

(** Every result of [rsplit1]: [[s]] when [sep] does not occur in [s],
    otherwise [[base; ext]] with [s = base + sep + ext] and no [sep] in
    [ext]. *)
Lemma rsplit1_cases (sep : ascii) (s : string) :
  ((sep ∉ chars s) ∧ rsplit1 sep s = [s]) ∨
  (∃ base ext, chars s = base ++ sep :: ext ∧ (sep ∉ ext) ∧
               rsplit1 sep s = [of_chars base; of_chars ext]).
Proof.
  destruct (decide (sep ∈ chars s)) as [Hin|Hnin]; [right|left; auto using rsplit1_none].
  unfold rsplit1. destruct (break_at sep (rev (chars s))) as [[rt rh]|] eqn:E.
  - apply break_at_inv in E as [E Hrt].
    exists (rev rh), (rev rt). split_and!; [|by apply not_elem_of_rev|done].
    rewrite <-(rev_involutive (chars s)), E, rev_app_distr. simpl. by rewrite <-app_assoc.
  - apply break_at_None in E. exfalso. apply E. rewrite list_elem_of_In, <-in_rev.
    by apply list_elem_of_In.
Qed.

(** A boolean test for [trimmed], so that it can be decided on text. *)
Definition trimmedb (l : list ascii) : bool :=
  match head l, last l with
  | Some c, Some d => negb (is_space c) && negb (is_space d)
  | _, _ => true
  end.

Lemma trimmed_spec (l : list ascii) : trimmed l ↔ trimmedb l = true.
Proof.
  unfold trimmed, trimmedb. destruct l as [|c l']; simpl head; [split; [done|by left]|].
  destruct (last (c :: l')) as [d|] eqn:El.
  2: { exfalso. rewrite last_cons in El. by destruct (last l'). }
  apply last_Some in El as [l2 El].
  cbn [head]. rewrite andb_true_iff, !negb_true_iff. split.
  - intros [?|[(c' & l1 & [= <- _] & Hc) (d' & l3 & E3 & Hd)]]; [done|].
    rewrite El in E3. apply app_inj_tail in E3 as [_ <-]. done.
  - intros [Hc Hd]. right. split; [by exists c, l'|by exists d, l2].
Qed.

#[export] Instance trimmed_dec (l : list ascii) : Decision (trimmed l).
Proof.
  destruct (trimmedb l) eqn:E; [left|right]; rewrite trimmed_spec; congruence.
Defined.

(** The split at the last separator is unique. *)
Lemma last_sep_unique (sep : ascii) (b1 e1 b2 e2 : list ascii) :
  b1 ++ sep :: e1 = b2 ++ sep :: e2 → sep ∉ e1 → sep ∉ e2 → b1 = b2 ∧ e1 = e2.
Proof.
  intros Heq H1 H2.
  assert (break_at sep (rev (b1 ++ sep :: e1)) = Some (rev e1, rev b1)) as E1.
  { rewrite rev_app_distr. simpl. rewrite <-app_assoc. apply break_at_app.
    by apply not_elem_of_rev. }
  assert (break_at sep (rev (b2 ++ sep :: e2)) = Some (rev e2, rev b2)) as E2.
  { rewrite rev_app_distr. simpl. rewrite <-app_assoc. apply break_at_app.
    by apply not_elem_of_rev. }
  rewrite Heq, E2 in E1. injection E1 as He Hb.
  split; [rewrite <-(rev_involutive b1), <-Hb|rewrite <-(rev_involutive e1), <-He];
    by rewrite rev_involutive.
Qed.

(** Round trip of [s.rsplit(sep, 1)]: at most two parts, the last
    of which holds no [sep], and [sep.join] of the parts gives back [s]. *)
Theorem rsplit1_join (sep : ascii) (s : string) :
  String.concat (String sep EmptyString) (rsplit1 sep s) = s ∧
  length (rsplit1 sep s) ≤ 2 ∧
  sep ∉ chars (default EmptyString (last (rsplit1 sep s))).
Proof.
  destruct (rsplit1_cases sep s) as [[Hn ->]|(base & ext & Hc & Hext & ->)]; cbn.
  - split_and!; [done|lia|done].
  - split_and!; [|lia|by rewrite chars_of_chars].
    apply chars_inj. by rewrite !chars_app, chars_String, !chars_of_chars, Hc.
Qed.

End PyStr.
