(* ===== verification/Frame.v ===== *)
(** * The dataset: a pandas DataFrame as the handlers use it

    [pd.read_excel] yields a frame with unique column names (pandas
    renames duplicated headers to [a], [a.1], ...) and the default
    [RangeIndex] [0 .. n-1]; rows keep the order of the sheet.  The
    handlers use: [len(df)], [df.columns], [df[col].astype(str)],
    [col_str == barcode], [matches.any()], [df[matches].index.tolist()],
    [df.head(100)], [df.to_dict('records')] and, in
    [inventory_flask_app.py], [pd.DataFrame(records)] to rebuild the
    frame from the cookie.  A record (a row as a dict) is an association
    list from column name to value, in column order. *)

From S2P Require Import Prelude PyStr.
From Stdlib Require Import Ascii.

Module Frame.
Import PyStr.

(** ** Cells

    The values [read_excel] puts in a cell.  Integers of a column with
    a blank cell are stored as float64 by pandas, so they come as
    [CFloat]; [CFrac] is any other float, kept as the text Python's
    [repr] prints for it. *)
Inductive cell :=
  | CStr (s : string)
  | CInt (z : Z)
  | CFloat (z : Z)       (** a float64 with integral value [z] *)
  | CFrac (repr : string)
  | CBool (b : bool)
  | CNaN
  | CNone.

#[export] Instance cell_eq_dec : EqDecision cell.
Proof. solve_decision. Qed.

(** [str(v)] for a cell, which is what [Series.astype(str)] stores. *)
Definition str_cell (c : cell) : string :=
  match c with
  | CStr s => s
  | CInt z => str_int z
  | CFloat z => str_int z +:+ ".0"
  | CFrac r => r
  | CBool true => "True"
  | CBool false => "False"
  | CNaN => "nan"
  | CNone => "None"
  end.

(** An integral float prints as [N.0] only below [1e16]; above, Python
    switches to exponent notation. *)
Definition cell_wf (c : cell) : Prop :=
  match c with CFloat z => (Z.abs z < 10 ^ 16)%Z | _ => True end.

(** ** Frames *)
Record frame := mk_frame {
  columns : list string;
  rows : list (list cell)
}.

Definition frame_wf (df : frame) : Prop :=
  NoDup (columns df) ∧
  Forall (λ r, length r = length (columns df)) (rows df) ∧
  Forall (Forall cell_wf) (rows df).

#[export] Instance cell_wf_dec (c : cell) : Decision (cell_wf c).
Proof. destruct c; simpl; apply _. Defined.

#[export] Instance frame_wf_dec (df : frame) : Decision (frame_wf df).
Proof. unfold frame_wf. apply _. Defined.

(** [len(df)] *)
Definition df_len (df : frame) : nat := length (rows df).

Fixpoint index_of (c : string) (cols : list string) : option nat :=
  match cols with
  | [] => None
  | c' :: cols' => if decide (c = c') then Some 0 else S <$> index_of c cols'
  end.

(** [df[col]]: the values of the column named [col], one per row. *)
Definition column (df : frame) (col : string) : list cell :=
  match index_of col (columns df) with
  | Some j => map (λ r, default CNaN (r !! j)) (rows df)
  | None => []
  end.

(** [series.astype(str)] *)
Definition astype_str (s : list cell) : list string := map str_cell s.

(** [col_str == barcode]: the boolean mask. *)
Definition eq_mask (s : list string) (barcode : string) : list bool :=
  map (λ v, bool_decide (v = barcode)) s.

(** [matches.any()] *)
Definition series_any (m : list bool) : bool := existsb id m.

(** [df[matches].index.tolist()] on the default [RangeIndex]. *)
Definition mask_index (m : list bool) : list nat := true_positions_from 0 m.

(** [df.head(n)] *)
Definition head (n : nat) (df : frame) : frame :=
  mk_frame (columns df) (take n (rows df)).

(** ** Records *)
Abbreviation record := (list (string * cell)).

(** [df.to_dict('records')]: one dict per row, keys in column order. *)
Definition to_records (df : frame) : list record :=
  map (zip (columns df)) (rows df).

(** [record.get(k)] *)
Fixpoint rec_get (k : string) (r : record) : option cell :=
  match r with
  | [] => None
  | (k', v) :: r' => if decide (k = k') then Some v else rec_get k r'
  end.

(** The column names of [pd.DataFrame(records)]: the keys of all
    records in order of first appearance. *)
Fixpoint keys_union (acc : list string) (recs : list record) : list string :=
  match recs with
  | [] => acc
  | r :: recs' =>
      keys_union (foldl (λ a k, if decide (k ∈ a) then a else a ++ [k]) acc r.*1) recs'
  end.

(** [pd.DataFrame(records)]: a missing key gives [NaN]. *)
Definition from_records (recs : list record) : frame :=
  let cols := keys_union [] recs in
  mk_frame cols (map (λ r, map (λ c, default CNaN (rec_get c r)) cols) recs).

(** ** Lemmas *)

Lemma index_of_Some (c : string) (cols : list string) (j : nat) :
  index_of c cols = Some j → cols !! j = Some c.
Proof.
  revert j. induction cols as [|c' cols IH]; intros j; simpl; [done|].
  case_decide; [intros [= <-]; by subst|].
  destruct (index_of c cols) eqn:E; simpl; [|done]. intros [= <-]. by apply IH.
Qed.

Lemma index_of_lookup (c : string) (cols : list string) (j : nat) :
  NoDup cols → cols !! j = Some c → index_of c cols = Some j.
Proof.
  revert j. induction cols as [|c' cols IH]; intros j Hnd Hj; simpl; [done|].
  apply NoDup_cons in Hnd as [Hc' Hnd].
  destruct j as [|j]; simpl in Hj.
  - injection Hj as ->. by rewrite decide_True.
  - rewrite decide_False by (intros ->; apply Hc'; by eapply list_elem_of_lookup_2).
    by rewrite (IH j).
Qed.

(** [df[col]] for the [j]-th column of a well-formed frame. *)
Lemma column_nth (df : frame) (j : nat) (c : string) :
  frame_wf df → columns df !! j = Some c →
  column df c = map (λ r, default CNaN (r !! j)) (rows df).
Proof.
  intros (Hnd & _ & _) Hj. unfold column. by rewrite (index_of_lookup c _ j).
Qed.

Lemma length_column (df : frame) (c : string) :
  c ∈ columns df → length (column df c) = df_len df.
Proof.
  unfold column, df_len. intros Hc.
  destruct (index_of c (columns df)) eqn:E; [by rewrite length_map|].
  exfalso. apply list_elem_of_lookup_1 in Hc as [j Hj].
  clear -E Hj. revert j Hj E. induction (columns df) as [|c' cols IH]; intros [|j] Hj;
    simpl in *; try done.
  - injection Hj as ->. by rewrite decide_True.
  - case_decide; [done|]. destruct (index_of c cols); [done|]. intros _. by eapply IH.
Qed.

(** The positions the boolean mask [col.astype(str) == barcode] selects. *)
Lemma elem_of_mask_index (s : list cell) (barcode : string) (i : nat) :
  i ∈ mask_index (eq_mask (astype_str s) barcode) ↔
  ∃ v, s !! i = Some v ∧ str_cell v = barcode.
Proof.
  unfold mask_index, eq_mask, astype_str. rewrite elem_of_true_positions_from.
  rewrite map_map. split.
  - intros (k & -> & Hk). rewrite list_lookup_fmap in Hk.
    destruct (s !! k) as [v|] eqn:E; simpl in Hk; [|done].
    injection Hk as Hv. apply bool_decide_eq_true in Hv. eauto.
  - intros (v & Hv & Hb). exists i. split; [done|].
    rewrite list_lookup_fmap, Hv. simpl. by rewrite bool_decide_eq_true_2.
Qed.

Lemma series_any_mask (m : list bool) : series_any m = true ↔ mask_index m ≠ [].
Proof.
  unfold series_any, mask_index. generalize 0.
  induction m as [|[] m IH]; intros i; simpl; [done|done|]. apply IH.
Qed.

Lemma series_any_false (m : list bool) : series_any m = false → mask_index m = [].
Proof.
  intros H. destruct (mask_index m) eqn:M; [done|]. exfalso.
  assert (series_any m = true) by (apply series_any_mask; by rewrite M). congruence.
Qed.

(** [df.head(n).to_dict('records')] of [App.py] and
    [df.to_dict('records')[:n]] of [inventory_flask_app.py] agree. *)
Lemma to_records_head (n : nat) (df : frame) :
  to_records (head n df) = take n (to_records df).
Proof. unfold to_records, head. simpl. by rewrite firstn_map. Qed.

Lemma length_to_records (df : frame) : length (to_records df) = df_len df.
Proof. unfold to_records, df_len. by rewrite length_map. Qed.

Lemma zip_snoc {A B} (l : list A) (k : list B) (x : A) (y : B) :
  length l = length k → zip (l ++ [x]) (k ++ [y]) = zip l k ++ [(x, y)].
Proof.
  revert k. induction l as [|a l IH]; intros [|b k] Hlen; simpl in *; try done.
  f_equal. apply IH. lia.
Qed.

(** Reading a record of a well-formed frame by key. *)
Lemma rec_get_zip (cols : list string) (r : list cell) :
  NoDup cols → length r = length cols →
  map (λ c, default CNaN (rec_get c (zip cols r))) cols = r.
Proof.
  revert r. induction cols as [|c cols IH]; intros [|v r] Hnd Hlen; simpl in *; try done.
  apply NoDup_cons in Hnd as [Hc Hnd]. rewrite decide_True by done. f_equal.
  transitivity (map (λ c, default CNaN (rec_get c (zip cols r))) cols);
    [|apply IH; (done || lia)].
  apply map_ext_in.
  intros c' Hc'%list_elem_of_In. rewrite decide_False; [done|]. by intros ->.
Qed.

Definition add_keys (acc ks : list string) : list string :=
  foldl (λ a k, if decide (k ∈ a) then a else a ++ [k]) acc ks.

Lemma add_keys_fresh (acc ks : list string) :
  NoDup ks → (∀ k, k ∈ ks → k ∉ acc) → add_keys acc ks = acc ++ ks.
Proof.
  revert acc. induction ks as [|k ks IH]; intros acc Hnd Hfresh; simpl; [by rewrite app_nil_r|].
  apply NoDup_cons in Hnd as [Hk Hnd].
  rewrite decide_False by (apply Hfresh; left).
  rewrite IH; [by rewrite <-app_assoc|done|].
  intros k' Hk'. rewrite elem_of_app, list_elem_of_singleton.
  intros [Hin| ->]; [by apply (Hfresh k'); [right|]|done].
Qed.

Lemma add_keys_known (acc ks : list string) : ks ⊆ acc → add_keys acc ks = acc.
Proof.
  revert acc. induction ks as [|k ks IH]; intros acc Hsub; simpl; [done|].
  rewrite decide_True by (apply Hsub; left). apply IH. set_solver.
Qed.

Lemma keys_union_known (acc : list string) (recs : list record) :
  Forall (λ r, r.*1 ⊆ acc) recs → keys_union acc recs = acc.
Proof.
  induction 1 as [|r recs Hr _ IH]; simpl; [done|].
  fold (add_keys acc r.*1). by rewrite add_keys_known.
Qed.

(** Rebuilding a frame from its records gives it back, as long as it
    has a row: [pd.DataFrame(df.to_dict('records')) == df]. *)
Lemma from_to_records (df : frame) :
  frame_wf df → rows df ≠ [] → from_records (to_records df) = df.
Proof.
  destruct df as [cols rs]. intros (Hnd & Hlen & _) Hne. simpl in *.
  destruct rs as [|r rs]; [done|].
  apply Forall_cons in Hlen as [Hr Hlen].
  assert (Hk : keys_union [] (to_records (mk_frame cols (r :: rs))) = cols).
  { simpl. fold (add_keys [] (zip cols r).*1).
    rewrite fst_zip, add_keys_fresh by (lia || done || set_solver). simpl.
    apply keys_union_known. apply Forall_map. eapply Forall_impl; [exact Hlen|].
    intros r' Hr'. cbn in Hr'. rewrite fst_zip by lia. done. }
  unfold from_records. rewrite Hk. f_equal. simpl. f_equal; [by apply rec_get_zip|].
  rewrite map_map. rewrite <-(map_id rs) at 2. apply map_ext_in.
  intros r' Hr'%list_elem_of_In. apply rec_get_zip; [done|].
  by apply (proj1 (Forall_forall _ _) Hlen).
Qed.

(** Without a row, the column names are lost: [pd.DataFrame([])] has
    no columns. *)
Lemma from_to_records_empty (cols : list string) :
  from_records (to_records (mk_frame cols [])) = mk_frame [] [].
Proof. reflexivity. Qed.

End Frame.
