(* ===== verification/Matcher.v ===== *)
(** * The scan matcher: the body of [search_barcode]

    Both variants run the same code once the frame and the scanned list
    are loaded ([App.py] lines 142-177, [inventory_flask_app.py] lines
    82-115):
<<
    found_indices = []
    for col in df.columns:
        col_str = df[col].astype(str)
        matches = col_str == barcode
        if matches.any():
            matched_indices = df[matches].index.tolist()
            found_indices.extend(matched_indices)
    if found_indices:
        new_scanned = []
        for idx in found_indices:
            if idx not in scanned_items:
                scanned_items.append(idx)
                new_scanned.append(idx)
>>
    [search_step] is one turn of the column loop, [found_indices] the
    loop, [record_scans] the second loop, and [search_core] the whole
    block with its two JSON answers. *)

From S2P Require Import Prelude PyStr Frame.

Module Matcher.
Import PyStr Frame.

(** One turn of [for col in df.columns]. *)
Definition search_step (df : frame) (barcode : string)
    (found : list nat) (col : string) : list nat :=
  let col_str := astype_str (column df col) in
  let matches := eq_mask col_str barcode in
  if series_any matches then found ++ mask_index matches else found.

Definition found_indices (df : frame) (barcode : string) : list nat :=
  foldl (search_step df barcode) [] (columns df).

(** [for idx in found_indices: if idx not in scanned_items: ...]; the
    membership test sees the indices appended earlier in the loop. *)
Fixpoint record_scans (found scanned new_scanned : list nat) : list nat * list nat :=
  match found with
  | [] => (scanned, new_scanned)
  | idx :: rest =>
      if idx ∈? scanned then record_scans rest scanned new_scanned
      else record_scans rest (scanned ++ [idx]) (new_scanned ++ [idx])
  end.

(** The two successful JSON answers of [/search]. *)
Inductive search_reply :=
  | Found (matched_indices new_scanned : list nat) (total_scanned : nat)
  | NotFound (barcode : string).

(** [if found_indices: ... else: ...], with the scanned list after it. *)
Definition search_core (df : frame) (scanned : list nat) (barcode : string)
    : search_reply * list nat :=
  match found_indices df barcode with
  | [] => (NotFound barcode, scanned)
  | found =>
      let '(scanned', new_scanned) := record_scans found scanned [] in
      (Found found new_scanned (length scanned'), scanned')
  end.

(** The number [len(found_indices)] the success message reports as
    "registro(s)". *)
Definition reported_count (r : search_reply) : nat :=
  match r with Found m _ _ => length m | NotFound _ => 0 end.

(** ** Reference semantics

    The cell in row [i] and column position [j], and the match of a
    barcode there, read row by row instead of column by column. *)
Definition cell_at (df : frame) (i j : nat) : option cell := rows df !! i ≫= λ r, r !! j.

Definition matches_at (df : frame) (barcode : string) (i j : nat) : Prop :=
  ∃ v, cell_at df i j = Some v ∧ str_cell v = barcode.

(** Row [i] has a cell whose text is [barcode] (spec 4.2). *)
Definition row_matches (df : frame) (barcode : string) (i : nat) : Prop :=
  ∃ j, matches_at df barcode i j.

(** The column positions of row [i] that match. *)
Definition matching_columns (df : frame) (barcode : string) (i : nat) : list nat :=
  filter (λ j, bool_decide (str_cell <$> cell_at df i j = Some barcode))
         (seq 0 (length (columns df))).

(** All matching cells [(row, column position)], row by row. *)
Definition matching_cells (df : frame) (barcode : string) : list (nat * nat) :=
  concat (map (λ i, (λ j, (i, j)) <$> matching_columns df barcode i) (seq 0 (df_len df))).

(** All index sets the scan keeps are indices of the frame, without
    repetition. *)
Definition scanned_ok (n : nat) (scanned : list nat) : Prop :=
  NoDup scanned ∧ Forall (λ i, i < n) scanned.

#[export] Instance scanned_ok_dec (n : nat) (s : list nat) : Decision (scanned_ok n s).
Proof. unfold scanned_ok. apply _. Defined.

(** ** Lemmas on the column loop *)

Lemma search_step_app (df : frame) (b : string) (acc : list nat) (c : string) :
  search_step df b acc c = acc ++ mask_index (eq_mask (astype_str (column df c)) b).
Proof.
  unfold search_step. destruct (series_any _) eqn:E; [done|].
  by rewrite series_any_false, app_nil_r.
Qed.

(** The loop is the concatenation over the columns of the selected
    positions. *)
Lemma found_indices_concat (df : frame) (b : string) :
  found_indices df b =
  concat (map (λ c, mask_index (eq_mask (astype_str (column df c)) b)) (columns df)).
Proof.
  unfold found_indices.
  assert (∀ acc cols, foldl (search_step df b) acc cols =
    acc ++ concat (map (λ c, mask_index (eq_mask (astype_str (column df c)) b)) cols)) as H.
  { intros acc cols. revert acc.
    induction cols as [|c cols IH]; intros acc; simpl; [by rewrite app_nil_r|].
    by rewrite IH, search_step_app, <-app_assoc. }
  by rewrite H.
Qed.

Lemma column_lookup (df : frame) (j i : nat) (c : string) (v : cell) :
  frame_wf df → columns df !! j = Some c →
  column df c !! i = Some v ↔ cell_at df i j = Some v.
Proof.
  intros Hwf Hj. rewrite (column_nth df j c Hwf Hj), list_lookup_fmap. unfold cell_at.
  destruct (rows df !! i) as [r|] eqn:Hr; simpl; [|done].
  destruct Hwf as (_ & Hlen & _). eapply Forall_lookup_1 in Hlen; [|done]. simpl in Hlen.
  destruct (r !! j) eqn:E; simpl; [done|].
  apply lookup_ge_None in E. apply lookup_lt_Some in Hj. lia.
Qed.

Lemma cell_at_column (df : frame) (i j : nat) (v : cell) :
  frame_wf df → cell_at df i j = Some v → ∃ c, columns df !! j = Some c.
Proof.
  unfold cell_at. intros (_ & Hlen & _) H.
  destruct (rows df !! i) as [r|] eqn:Hr; simpl in H; [|done].
  eapply Forall_lookup_1 in Hlen; [|done]. simpl in Hlen.
  apply lookup_lt_Some in H. apply lookup_lt_is_Some_2. lia.
Qed.

Lemma cell_at_row (df : frame) (i j : nat) (v : cell) :
  cell_at df i j = Some v → i < df_len df.
Proof.
  unfold cell_at, df_len. destruct (rows df !! i) eqn:E; simpl; [|done].
  intros _. by eapply lookup_lt_Some.
Qed.

(** The matches of one column. *)
Lemma elem_of_column_matches (df : frame) (b : string) (j i : nat) (c : string) :
  frame_wf df → columns df !! j = Some c →
  i ∈ mask_index (eq_mask (astype_str (column df c)) b) ↔ matches_at df b i j.
Proof.
  intros Hwf Hj. rewrite elem_of_mask_index. unfold matches_at.
  by setoid_rewrite (column_lookup df j i c _ Hwf Hj).
Qed.

(** The number of times [x] occurs in a list. *)
Definition occurrences (x : nat) (l : list nat) : nat := length (filter (λ y, y = x) l).

Lemma occurrences_app (x : nat) (l k : list nat) :
  occurrences x (l ++ k) = occurrences x l + occurrences x k.
Proof. unfold occurrences. by rewrite filter_app, length_app. Qed.

Lemma occurrences_cons (x y : nat) (l : list nat) :
  occurrences x (y :: l) = (if decide (y = x) then 1 else 0) + occurrences x l.
Proof. unfold occurrences. rewrite filter_cons. by case_decide. Qed.

Lemma occurrences_NoDup (x : nat) (l : list nat) :
  NoDup l → occurrences x l = if bool_decide (x ∈ l) then 1 else 0.
Proof.
  induction 1 as [|y l Hy Hnd IH]; [done|]. rewrite occurrences_cons, IH.
  destruct (decide (y = x)) as [->|Hxy].
  - by rewrite bool_decide_eq_false_2, bool_decide_eq_true_2 by set_solver.
  - destruct (decide (x ∈ l)).
    + by rewrite !bool_decide_eq_true_2 by set_solver.
    + by rewrite !bool_decide_eq_false_2 by set_solver.
Qed.

#[export] Hint Resolve search_step_app : inv.
#[export] Hint Rewrite occurrences_app : inv_rw.

(** ** Lemmas on the scan-recording loop *)

Lemma record_scans_spec (found scanned news : list nat) :
  ∃ added,
    record_scans found scanned news = (scanned ++ added, news ++ added) ∧
    NoDup added ∧
    (∀ i, i ∈ added ↔ i ∈ found ∧ i ∉ scanned).
Proof.
  revert scanned news. induction found as [|x found IH]; intros scanned news; simpl.
  { exists []. rewrite !app_nil_r. split_and!; [done|constructor|]. intros i. set_solver. }
  destruct (x ∈? scanned) eqn:Hx.
  - apply py_in_true in Hx.
    destruct (IH scanned news) as (added & -> & Hnd & Hin).
    exists added. split_and!; [done|done|]. intros i. rewrite Hin, elem_of_cons.
    naive_solver.
  - apply py_in_false in Hx.
    destruct (IH (scanned ++ [x]) (news ++ [x])) as (added & -> & Hnd & Hin).
    exists (x :: added). rewrite <-!app_assoc. split_and!; [done| |].
    + constructor; [|done]. rewrite Hin. set_solver.
    + intros i. rewrite elem_of_cons, Hin, elem_of_app, list_elem_of_singleton, elem_of_cons.
      destruct (decide (i = x)); naive_solver.
Qed.

Lemma NoDup_scanned_app (s added found : list nat) :
  NoDup s → NoDup added → (∀ i, i ∈ added ↔ i ∈ found ∧ i ∉ s) → NoDup (s ++ added).
Proof.
  intros Hs Ha Hin. apply NoDup_app. split_and!; [done| |done].
  intros i Hi Hi'%Hin. naive_solver.
Qed.

(** ** Properties of the column loop *)


Lemma elem_of_found_indices (df : frame) (b : string) (i : nat) :
  frame_wf df → i ∈ found_indices df b ↔ row_matches df b i.
Proof.
  intros Hwf. rewrite found_indices_concat, elem_of_concat_map. unfold row_matches. split.
  - intros (c & Hc & Hi). apply list_elem_of_lookup_1 in Hc as [j Hj].
    exists j. by apply (elem_of_column_matches df b j i c).
  - intros (j & v & Hv & Hb).
    destruct (cell_at_column df i j v Hwf Hv) as [c Hj].
    exists c. split; [by eapply list_elem_of_lookup_2|].
    apply (elem_of_column_matches df b j i c Hwf Hj). by exists v.
Qed.

(** C4: a row index is in [found_indices] exactly when some cell of that
    row has [barcode] as its [str()] text; every such row is found,
    whatever column holds the code. *)
Theorem found_indices_spec (df : frame) (b : string) (i : nat) :
  frame_wf df → i ∈ found_indices df b ↔ row_matches df b i.
Proof. apply elem_of_found_indices. Qed.

Lemma found_indices_bound (df : frame) (b : string) (i : nat) :
  frame_wf df → i ∈ found_indices df b → i < df_len df.
Proof.
  intros Hwf Hi. apply elem_of_found_indices in Hi as (j & v & Hv & _); [|done].
  by eapply cell_at_row.
Qed.

Lemma occurrences_column_matches (df : frame) (b : string) (i j : nat) (c : string) :
  frame_wf df → columns df !! j = Some c →
  occurrences i (mask_index (eq_mask (astype_str (column df c)) b)) =
  if bool_decide (str_cell <$> cell_at df i j = Some b) then 1 else 0.
Proof.
  intros Hwf Hj. rewrite occurrences_NoDup by apply NoDup_true_positions_from.
  erewrite (bool_decide_ext _ (str_cell <$> cell_at df i j = Some b)); [done|].
  rewrite (elem_of_column_matches df b j i c Hwf Hj).
  unfold matches_at. destruct (cell_at df i j); simpl; naive_solver.
Qed.

Lemma occurrences_found_indices (df : frame) (b : string) (i : nat) :
  frame_wf df →
  occurrences i (found_indices df b) = length (matching_columns df b i).
Proof.
  intros Hwf. rewrite found_indices_concat. unfold matching_columns.
  assert (∀ n, n ≤ length (columns df) →
    occurrences i (concat (map (λ c, mask_index (eq_mask (astype_str (column df c)) b))
                                  (take n (columns df)))) =
    length (filter (λ j, bool_decide (str_cell <$> cell_at df i j = Some b)) (seq 0 n)))
    as Hn.
  { induction n as [|n IH]; intros Hle; [done|].
    destruct (lookup_lt_is_Some_2 (columns df) n) as [c Hc]; [lia|].
    rewrite (take_S_r _ _ c Hc), seq_S, map_app, concat_app, filter_app, length_app,
      occurrences_app, IH by lia. simpl. rewrite app_nil_r.
    rewrite (occurrences_column_matches df b i n c Hwf Hc), filter_cons, filter_nil.
    by case_bool_decide. }
  by rewrite <-Hn, take_ge.
Qed.

(** C26: [found_indices] lists row [i] once per matching column: the count
    [len(found_indices)] that the reply reports as "registro(s)" counts
    matching cells, not matching records. *)
Theorem found_indices_occurrences (df : frame) (b : string) (i : nat) :
  frame_wf df →
  occurrences i (found_indices df b) = length (matching_columns df b i).
Proof. apply occurrences_found_indices. Qed.

Lemma found_indices_nil (df : frame) (b : string) :
  frame_wf df → found_indices df b = [] ↔ ∀ i, ¬ row_matches df b i.
Proof.
  intros Hwf. split.
  - intros Hnil i Hi. apply (elem_of_found_indices df b i Hwf) in Hi. rewrite Hnil in Hi.
    by apply elem_of_nil in Hi.
  - intros Hno. destruct (found_indices df b) as [|i l] eqn:E; [done|].
    exfalso. apply (Hno i), (elem_of_found_indices df b i Hwf). rewrite E. left.
Qed.

Lemma matches_at_fmap (df : frame) (b : string) (i j : nat) :
  str_cell <$> cell_at df i j = Some b ↔ matches_at df b i j.
Proof. unfold matches_at. destruct (cell_at df i j); simpl; naive_solver. Qed.

Lemma elem_of_matching_cells (df : frame) (b : string) (i j : nat) :
  frame_wf df → (i, j) ∈ matching_cells df b ↔ matches_at df b i j.
Proof.
  intros Hwf. unfold matching_cells, matching_columns.
  rewrite elem_of_concat_map. split.
  - intros (i0 & _ & Hij). apply list_elem_of_fmap in Hij as (j0 & [= -> ->] & Hj0).
    apply list_elem_of_filter in Hj0 as [Hb _]. by apply bool_decide_spec, matches_at_fmap in Hb.
  - intros Hm. exists i. split.
    + destruct Hm as (v & Hv & _). apply elem_of_seq. apply cell_at_row in Hv. lia.
    + apply (list_elem_of_fmap_2 (λ j, (i, j))), list_elem_of_filter. split.
      * by apply bool_decide_spec, matches_at_fmap.
      * destruct Hm as (v & Hv & _). destruct (cell_at_column df i j v Hwf Hv) as [c Hc].
        apply elem_of_seq. apply lookup_lt_Some in Hc. lia.
Qed.

(** ** Properties of the whole search *)

Lemma search_core_found_added (df : frame) (s : list nat) (b : string) :
  frame_wf df → found_indices df b ≠ [] →
  ∃ added,
    search_core df s b = (Found (found_indices df b) added (length (s ++ added)), s ++ added) ∧
    (∀ i, i ∈ added ↔ row_matches df b i ∧ i ∉ s) ∧
    NoDup added.
Proof.
  intros Hwf Hne. unfold search_core.
  destruct (record_scans_spec (found_indices df b) s []) as (added & Hr & Hnd & Hin).
  destruct (found_indices df b) as [|x l] eqn:E; [done|]. rewrite Hr.
  exists added. split_and!; [done| |done].
  intros i. rewrite Hin, <-E, (elem_of_found_indices df b i Hwf). done.
Qed.

(** C6: when some cell matches, the reply is [found: true] with the
    matched indices, the new indices are exactly the matching rows not
    scanned before, each once, appended to the scanned list, and
    [total_scanned] is the new length. *)
Theorem search_core_found (df : frame) (s : list nat) (b : string) :
  frame_wf df → found_indices df b ≠ [] →
  ∃ added,
    search_core df s b = (Found (found_indices df b) added (length (s ++ added)), s ++ added) ∧
    (∀ i, i ∈ added ↔ row_matches df b i ∧ i ∉ s) ∧
    NoDup added.
Proof. apply search_core_found_added. Qed.

(** C7: a code that no cell shows is answered [found: false] and the
    scanned list is left as it was. *)
Theorem search_core_not_found (df : frame) (s : list nat) (b : string) :
  frame_wf df → matching_cells df b = [] →
  search_core df s b = (NotFound b, s).
Proof.
  intros Hwf Hno. unfold search_core.
  rewrite (proj2 (found_indices_nil df b Hwf)); [done|].
  intros i (j & Hm). apply (elem_of_matching_cells df b i j Hwf) in Hm.
  rewrite Hno in Hm. by apply elem_of_nil in Hm.
Qed.

Lemma search_core_scanned_inv (df : frame) (s : list nat) (b : string) :
  frame_wf df → scanned_ok (df_len df) s →
  scanned_ok (df_len df) (search_core df s b).2.
Proof.
  intros Hwf [Hnd Hlt]. destruct (decide (found_indices df b = [])) as [E|Hne].
  { unfold search_core. rewrite E. by split. }
  destruct (search_core_found_added df s b Hwf Hne) as (added & -> & Hin & Hnda). simpl.
  split.
  - apply (NoDup_scanned_app s added (found_indices df b)); [done|done|].
    intros i. by rewrite Hin, (elem_of_found_indices df b i Hwf).
  - apply Forall_app. split; [done|]. apply Forall_forall.
    intros i (Hi & _)%Hin. destruct Hi as (j & v & Hv & _). by eapply cell_at_row.
Qed.

(** C5: the scanned list stays a duplicate-free list of row indices of
    the frame (the invariant of spec section 3). *)
Theorem search_core_scanned_ok (df : frame) (s : list nat) (b : string) :
  frame_wf df → scanned_ok (df_len df) s →
  scanned_ok (df_len df) (search_core df s b).2.
Proof. apply search_core_scanned_inv. Qed.

(** The scanned list only grows: the old list is a prefix of the new. *)
Lemma search_core_prefix (df : frame) (s : list nat) (b : string) :
  frame_wf df → s `prefix_of` (search_core df s b).2.
Proof.
  intros Hwf. destruct (decide (found_indices df b = [])) as [E|Hne].
  { unfold search_core. by rewrite E. }
  destruct (search_core_found_added df s b Hwf Hne) as (added & -> & _). simpl.
  by apply prefix_app_r.
Qed.

(** C8: scanning is idempotent: scanning the same code again reports the
    same matches, no new index, and leaves the scanned list (and its
    size) unchanged. *)
Theorem search_core_idempotent (df : frame) (s s' : list nat) (b : string)
    (m news : list nat) (t : nat) :
  frame_wf df → search_core df s b = (Found m news t, s') →
  search_core df s' b = (Found m [] (length s'), s').
Proof.
  intros Hwf Hs. destruct (decide (found_indices df b = [])) as [E|Hne].
  { unfold search_core in Hs. by rewrite E in Hs. }
  destruct (search_core_found_added df s b Hwf Hne) as (added & Hs1 & Hin & _).
  rewrite Hs1 in Hs. injection Hs as <- _ _ <-.
  destruct (search_core_found_added df (s ++ added) b Hwf Hne) as (added2 & -> & Hin2 & _).
  destruct added2 as [|x added2]; [by rewrite app_nil_r|]. exfalso.
  destruct (proj1 (Hin2 x) (list_elem_of_here _ _)) as [Hx Hnx].
  apply Hnx, elem_of_app. destruct (decide (x ∈ s)); [by left|right]. by apply Hin.
Qed.

Lemma occurrences_pos (x : nat) (l : list nat) : x ∈ l → 0 < occurrences x l.
Proof.
  induction l as [|y l IH]; [by intros ?%elem_of_nil|].
  rewrite elem_of_cons, occurrences_cons. intros [->|Hx]; [rewrite decide_True; lia|].
  specialize (IH Hx). lia.
Qed.

(** A list in which [i] occurs once and nothing else occurs is [[i]]. *)
Lemma occurrences_single (l : list nat) (i : nat) :
  (∀ x, occurrences x l = if decide (x = i) then 1 else 0) → l = [i].
Proof.
  intros Hocc. assert (Hall : ∀ y, y ∈ l → y = i).
  { intros y Hy%occurrences_pos. rewrite Hocc in Hy. case_decide; [done|lia]. }
  specialize (Hocc i). rewrite decide_True in Hocc by done. unfold occurrences in Hocc.
  rewrite filter_keep_all in Hocc by (intros y Hy; by apply Hall).
  destruct l as [|y [|z l]]; simpl in Hocc; try lia.
  by rewrite (Hall y (list_elem_of_here _ _)).
Qed.

Lemma length_filter_unique (P : nat → Prop) `{∀ x, Decision (P x)} (l : list nat) (j : nat) :
  NoDup l → j ∈ l → (∀ x, x ∈ l → P x ↔ x = j) → length (filter P l) = 1.
Proof.
  induction 1 as [|y l Hy Hnd IH]; [by intros ?%elem_of_nil|].
  intros Hj HP. rewrite filter_cons. apply elem_of_cons in Hj as [->|Hj].
  - rewrite decide_True by (by apply (HP y (list_elem_of_here _ _))). simpl. f_equal.
    rewrite filter_drop_all; [done|].
    intros x Hx HPx. apply (HP x (proj2 (elem_of_cons _ _ _) (or_intror Hx))) in HPx.
    by subst.
  - rewrite decide_False; [apply IH; [done|]|].
    + intros x Hx. apply HP. by right.
    + intros HPy%(HP y (list_elem_of_here _ _)). by subst.
Qed.

Lemma search_core_unique_match (df : frame) (s : list nat) (b : string) (i j : nat) :
  frame_wf df → matches_at df b i j →
  (∀ i' j', matches_at df b i' j' → i' = i ∧ j' = j) → i ∉ s →
  search_core df s b = (Found [i] [i] (S (length s)), s ++ [i]).
Proof.
  intros Hwf Hm Huniq Hi.
  assert (Hfound : found_indices df b = [i]).
  { apply occurrences_single. intros x. rewrite occurrences_found_indices by done.
    unfold matching_columns. case_decide as Hx.
    - subst x. apply (length_filter_unique _ _ j); [apply NoDup_seq| |].
      + destruct Hm as (v & Hv & _). destruct (cell_at_column df i j v Hwf Hv) as [c Hc].
        apply elem_of_seq. apply lookup_lt_Some in Hc. lia.
      + intros j' _. rewrite bool_decide_spec, matches_at_fmap. split; [|by intros ->].
        by intros (_ & ->)%Huniq.
    - rewrite filter_drop_all; [done|].
      intros j' _. rewrite bool_decide_spec, matches_at_fmap. by intros (-> & _)%Huniq. }
  unfold search_core. rewrite Hfound. simpl. rewrite (proj2 (py_in_false i s) Hi).
  simpl. by rewrite length_app, Nat.add_comm.
Qed.

(** C9: a code present in exactly one cell, in a row not yet scanned,
    is reported found with that single row, which is the one new index
    added to the scanned list (spec section 8). *)
Theorem search_core_single_cell (df : frame) (s : list nat) (b : string) (i j : nat) :
  frame_wf df → matching_cells df b = [(i, j)] → i ∉ s →
  search_core df s b = (Found [i] [i] (S (length s)), s ++ [i]).
Proof.
  intros Hwf Hcells Hi. apply (search_core_unique_match df s b i j Hwf); [| |done].
  - apply (elem_of_matching_cells df b i j Hwf). rewrite Hcells. left.
  - intros i' j' Hm%(elem_of_matching_cells df b i' j' Hwf). rewrite Hcells in Hm.
    by apply list_elem_of_singleton in Hm as [= -> ->].
Qed.

(** ** What the matcher can never match *)

Lemma str_float_not_int (z : Z) : str_cell (CFloat z) ≠ str_int z.
Proof.
  simpl. intros H. apply (f_equal (λ t, length (chars t))) in H.
  rewrite chars_app, length_app in H. simpl in H. lia.
Qed.

(** a whole number stored as a float (pandas does this for a numeric
    column with a blank cell) prints as ["300.0"], so scanning the
    number's own text ["300"] never matches that cell. *)
Theorem float_cell_not_matched_by_int_text (df : frame) (i j : nat) (z : Z) :
  cell_at df i j = Some (CFloat z) → ¬ matches_at df (str_int z) i j.
Proof.
  intros Hc (v & Hv & Hb). rewrite Hc in Hv. injection Hv as <-.
  by apply (str_float_not_int z).
Qed.

(** The handler strips the scanned code but not the cells: a cell
    whose text begins or ends with whitespace is matched by no request
    at all, whatever the user types. *)
Theorem untrimmed_cell_never_matched (df : frame) (i j : nat) (v : cell) (raw : string) :
  cell_at df i j = Some v → ¬ trimmed (chars (str_cell v)) →
  ¬ matches_at df (strip raw) i j.
Proof.
  intros Hc Hnt (v' & Hv & Hb). rewrite Hc in Hv. injection Hv as <-.
  apply Hnt. rewrite Hb. apply strip_trimmed.
Qed.

(** ** Witnesses on a small inventory *)

Definition inventory_sample : frame :=
  mk_frame ["Codigo"; "Producto"; "Ubicacion"]
    [[CStr "A100"; CStr "Tornillo"; CStr "B1"];
     [CStr "B200"; CStr "A100"; CStr "B2"];
     [CInt 300; CStr "Tuerca "; CFloat 300];
     [CStr "C400"; CStr "C400"; CNaN]].

Lemma found_indices_spec_witness :
  1 ∈ found_indices inventory_sample "A100" ↔ row_matches inventory_sample "A100" 1.
Proof. apply found_indices_spec. decide_by_eval. Defined.

Lemma search_core_scanned_ok_witness :
  scanned_ok 4 (search_core inventory_sample [0] "A100").2.
Proof.
  apply (search_core_scanned_ok inventory_sample [0] "A100"); decide_by_eval.
Defined.

Lemma search_core_found_witness :
  ∃ added,
    search_core inventory_sample [] "A100" =
      (Found (found_indices inventory_sample "A100") added (length ([] ++ added)), [] ++ added) ∧
    (∀ i, i ∈ added ↔ row_matches inventory_sample "A100" i ∧ i ∉ []) ∧ NoDup added.
Proof.
  apply search_core_found; [decide_by_eval|vm_compute; congruence].
Defined.

Lemma search_core_not_found_witness :
  search_core inventory_sample [0] "Z999" = (NotFound "Z999", [0]).
Proof. apply search_core_not_found; [decide_by_eval|vm_compute; reflexivity]. Defined.

Lemma search_core_idempotent_witness :
  search_core inventory_sample [0; 1] "A100" = (Found [0; 1] [] 2, [0; 1]).
Proof.
  apply (search_core_idempotent inventory_sample [] [0; 1] "A100" [0; 1] [0; 1] 2);
    [decide_by_eval|vm_compute; reflexivity].
Defined.

Lemma search_core_single_cell_witness :
  search_core inventory_sample [2] "Tornillo" = (Found [0] [0] 2, [2; 0]).
Proof.
  apply (search_core_single_cell inventory_sample [2] "Tornillo" 0 1);
    [decide_by_eval|vm_compute; reflexivity|decide_by_eval].
Defined.

(** Row 3 holds "C400" in two columns: the reply says two records. *)
Lemma found_indices_occurrences_witness :
  occurrences 3 (found_indices inventory_sample "C400") = 2.
Proof.
  rewrite (found_indices_occurrences inventory_sample "C400" 3); [|decide_by_eval].
  vm_compute. reflexivity.
Defined.

Lemma float_cell_not_matched_by_int_text_witness :
  ¬ matches_at inventory_sample (str_int 300) 2 2.
Proof. apply float_cell_not_matched_by_int_text. vm_compute. reflexivity. Defined.

Lemma untrimmed_cell_never_matched_witness :
  ¬ matches_at inventory_sample (strip "Tuerca ") 2 1.
Proof.
  apply (untrimmed_cell_never_matched inventory_sample 2 1 (CStr "Tuerca "));
    [vm_compute; reflexivity|decide_by_eval].
Defined.

End Matcher.
