(* ===== verification/Progress.v ===== *)
(** * Progress tracker: the body of [get_stats]

    [App.py] lines 193-203 and [inventory_flask_app.py] lines 126-136:
<<
    total_items = len(...)
    scanned_items = len(scanned_items)
    pending_items = total_items - scanned_items
    progress = (scanned_items / total_items * 100) if total_items > 0 else 0
    return jsonify({..., 'progress': round(progress, 2)})
>>
    The arithmetic is Python's: [/] on two ints is the correctly rounded
    double of the quotient, which for counts below [2^53] is the IEEE
    division of the two converted counts; [* 100] is a double
    multiplication; [round(x, 2)] rounds the exact value of the double
    [x] to two decimals, half to even (CPython's [double_round] through
    [_Py_dg_dtoa] mode 3).  Rocq's primitive floats are IEEE binary64,
    so [progress_value] computes exactly the number the JSON shows,
    in hundredths of a percent.  Python's [/] raises [ZeroDivisionError]
    on a zero divisor ([py_truediv] returns [None]) and the [except] of
    [get_stats] answers 500 ([stats_of]); [round] returns an infinity or
    NaN unchanged ([PctNonFinite]).  With the code's guard neither
    happens; a bug such as swapped operands would show as one of them. *)

From S2P Require Import Prelude Matcher.
From Stdlib Require Import Floats.

Module Progress.
Import Matcher.

(** [n / d] rounded to the nearest integer, ties to even ([d > 0]). *)
Definition round_half_even (n d : Z) : Z :=
  let q := (n / d)%Z in
  let r := (n mod d)%Z in
  if (2 * r <? d)%Z then q
  else if (d <? 2 * r)%Z then (q + 1)%Z
  else if Z.even q then q else (q + 1)%Z.

(** A Python int as a double (exact below [2^53]). *)
Definition float_of_int (n : Z) : float := PrimFloat.of_uint63 (Uint63.of_Z n).

(** [a / b] on two Python ints; [None] is the [ZeroDivisionError] it
    raises when [b = 0]. *)
Definition py_truediv (a b : Z) : option float :=
  if (b =? 0)%Z then None else Some (float_of_int a / float_of_int b)%float.

(** What [round(x, 2)] gives: a finite double rounded to hundredths, or
    [x] itself when it is infinite or NaN (Python returns those
    unchanged, and [jsonify] prints them as [Infinity] or [NaN]). *)
Inductive pct :=
  | Pct (hundredths : Z)
  | PctNonFinite (x : float).

(** [round(x, 2)]: the exact value [m * 2^e] of a finite double, times
    100, rounded half to even. *)
Definition round2 (x : float) : pct :=
  match Prim2SF x with
  | S754_finite s m e =>
      let r := round_half_even (Zpos m * 100 * 2 ^ Z.max e 0) (2 ^ Z.max (- e) 0) in
      Pct (if s then (- r)%Z else r)
  | S754_zero _ => Pct 0
  | _ => PctNonFinite x
  end.

(** [round((scanned / total * 100) if total > 0 else 0, 2)]; [None]
    when the expression raises. *)
Definition progress_value (scanned total : Z) : option pct :=
  if (0 <? total)%Z then (λ q, round2 (q * 100)%float) <$> py_truediv scanned total
  else Some (Pct 0).

(** The JSON body of [/stats]. *)
Record stats := mk_stats {
  total_items : Z;
  scanned_items : Z;
  pending_items : Z;
  progress : pct
}.

(** Lines 193-203 under the [try] of lines 184-206: an exception in the
    percentage answers 500 "Error al obtener estadísticas". *)
Definition stats_of (total scanned : Z) : response stats :=
  match progress_value scanned total with
  | Some p => Ok (mk_stats total scanned (total - scanned)%Z p)
  | None => Fail 500 ErrStats
  end.

(** The same percentage computed on exact rationals, for comparison. *)
Definition progress_exact (scanned total : Z) : Z :=
  if (0 <? total)%Z then round_half_even (scanned * 10000) total else 0%Z.

(** ** Pending rows *)

(** The guard [if total_items > 0] keeps the division from raising:
    [/stats] never answers 500 on a loaded session. *)
Lemma progress_value_some (scanned total : Z) : ∃ p, progress_value scanned total = Some p.
Proof.
  unfold progress_value, py_truediv. destruct (0 <? total)%Z eqn:Ht; [|by eexists].
  rewrite (proj2 (Z.eqb_neq _ _)) by lia. by eexists.
Qed.

Lemma stats_of_ok (total scanned : Z) :
  ∃ p, stats_of total scanned = Ok (mk_stats total scanned (total - scanned)%Z p).
Proof.
  destruct (progress_value_some scanned total) as [p Hp]. exists p. unfold stats_of. by rewrite Hp.
Qed.

(** The pending count is the number of rows not yet scanned, because
    the scanned list is a duplicate-free list of row indices. *)
Lemma scanned_rows_perm (n : nat) (s : list nat) :
  scanned_ok n s → filter (λ i, i ∈ s) (seq 0 n) ≡ₚ s.
Proof.
  intros [Hnd Hlt]. apply NoDup_Permutation; [by apply NoDup_filter, NoDup_seq|done|].
  intros i. rewrite list_elem_of_filter, elem_of_seq. split; [by intros []|].
  intros Hi. split; [done|]. eapply Forall_forall in Hlt; [|done]. simpl in Hlt. lia.
Qed.

Lemma scanned_ok_length (n : nat) (s : list nat) : scanned_ok n s → length s ≤ n.
Proof.
  intros Hok. rewrite <-(Permutation_length (scanned_rows_perm n s Hok)).
  pose proof (length_filter_compl (λ i, i ∈ s) (seq 0 n)) as H.
  rewrite length_seq in H. lia.
Qed.

(** [pending_items = total_items - scanned_items] is the number of
    rows of the frame whose index is not in the scanned list, and it is
    never negative. *)
Theorem stats_pending_rows (n : nat) (s : list nat) :
  scanned_ok n s →
  ∃ st, stats_of (Z.of_nat n) (Z.of_nat (length s)) = Ok st ∧
    pending_items st = Z.of_nat (length (filter (λ i, i ∉ s) (seq 0 n))).
Proof.
  intros Hok. destruct (stats_of_ok (Z.of_nat n) (Z.of_nat (length s))) as [p ->].
  eexists. split; [done|]. simpl. pose proof (length_filter_compl (λ i, i ∈ s) (seq 0 n)) as Hc.
  rewrite (Permutation_length (scanned_rows_perm n s Hok)), length_seq in Hc.
  pose proof (scanned_ok_length n s Hok). lia.
Qed.

(** ** The percentage, on every inventory of up to [progress_table_size] rows

    The double arithmetic is evaluated once for every pair
    [0 <= scanned <= total <= progress_table_size] and the results are
    checked against the properties below; the theorems read them off. *)
Definition progress_table_size : nat := 200.

(** The two decimals shown, when [round] gave a finite number. *)
Definition shown (o : option pct) : option Z :=
  match o with Some (Pct p) => Some p | _ => None end.

Definition progress_point_ok (s t : Z) : bool :=
  match shown (progress_value s t) with
  | Some p =>
      (0 <=? p)%Z && (p <=? 10000)%Z &&
      (if (s =? 0)%Z then (p =? 0)%Z else true) &&
      (if (s =? t)%Z then (t =? 0)%Z || (p =? 10000)%Z
       else match shown (progress_value (s + 1) t) with Some q => (p <=? q)%Z | None => false end) &&
      ((p =? progress_exact s t)%Z || (2 * ((s * 10000) mod t) =? t)%Z)
  | None => false
  end.

Definition progress_table_ok (n : nat) : bool :=
  forallb (λ t, forallb (λ s, progress_point_ok (Z.of_nat s) (Z.of_nat t)) (seq 0 (S t)))
          (seq 0 (S n)).

Lemma progress_table_checked : progress_table_ok progress_table_size = true.
Proof. vm_compute. reflexivity. Qed.

Lemma progress_table_lookup (n s t : nat) :
  progress_table_ok n = true → t ≤ n → s ≤ t →
  progress_point_ok (Z.of_nat s) (Z.of_nat t) = true.
Proof.
  unfold progress_table_ok. intros H Ht Hs.
  rewrite forallb_forall in H. specialize (H t).
  rewrite forallb_forall in H. apply H; apply list_elem_of_In, elem_of_seq; lia.
Qed.

(** What the table says of one pair, as propositions. *)
Lemma progress_point (s t : nat) :
  t ≤ progress_table_size → s ≤ t →
  ∃ p, progress_value (Z.of_nat s) (Z.of_nat t) = Some (Pct p) ∧
    (0 <= p <= 10000)%Z ∧
    (s = 0 → p = 0%Z) ∧
    (s = t → 0 < t → p = 10000%Z) ∧
    (s < t → ∃ q, progress_value (Z.of_nat (S s)) (Z.of_nat t) = Some (Pct q) ∧ (p <= q)%Z) ∧
    (p = progress_exact (Z.of_nat s) (Z.of_nat t) ∨
     (2 * ((Z.of_nat s * 10000) mod Z.of_nat t) = Z.of_nat t)%Z).
Proof.
  intros Ht Hs. pose proof (progress_table_lookup _ _ _ progress_table_checked Ht Hs) as H.
  unfold progress_point_ok in H.
  destruct (progress_value (Z.of_nat s) (Z.of_nat t)) as [[p|x]|] eqn:Hp; cbn in H; [|done|done].
  rewrite !andb_true_iff, !Z.leb_le in H. destruct H as ((((H0 & H1) & H2) & H3) & H4).
  exists p. split_and!; [done|lia|lia| | | |].
  - intros ->. cbn in H2. by apply Z.eqb_eq in H2.
  - intros -> Hpos. rewrite Z.eqb_refl in H3.
    apply orb_true_iff in H3 as [H3|H3]; apply Z.eqb_eq in H3; lia.
  - intros Hlt. rewrite (proj2 (Z.eqb_neq _ _)) in H3 by lia.
    rewrite Nat2Z.inj_succ, <-Z.add_1_r.
    destruct (progress_value (Z.of_nat s + 1) (Z.of_nat t)) as [[q|y]|]; cbn in H3; [|done|done].
    apply Z.leb_le in H3. by exists q.
  - apply orb_true_iff in H4 as [H4|H4]; apply Z.eqb_eq in H4; auto.
Qed.

(** C21: on every inventory of up to 200 rows, the reported percentage
    is a finite number between 0.00 and 100.00. *)
Theorem progress_in_range (s t : nat) :
  t ≤ progress_table_size → s ≤ t →
  ∃ p, progress_value (Z.of_nat s) (Z.of_nat t) = Some (Pct p) ∧ (0 <= p <= 10000)%Z.
Proof.
  intros Ht Hs. destruct (progress_point s t Ht Hs) as (p & Hp & Hr & _). eauto.
Qed.

(** C20: on every inventory of up to 200 rows, nothing scanned shows
    0.00 and everything scanned shows 100.00 (spec section 8); with no
    rows at all the guard gives 0 rather than a division by zero.  The
    whole [/stats] body is pinned: counters and percentage. *)
Theorem progress_endpoints (t : nat) :
  t ≤ progress_table_size →
  stats_of (Z.of_nat t) 0 = Ok (mk_stats (Z.of_nat t) 0 (Z.of_nat t) (Pct 0)) ∧
  (0 < t → stats_of (Z.of_nat t) (Z.of_nat t) = Ok (mk_stats (Z.of_nat t) (Z.of_nat t) 0 (Pct 10000))).
Proof.
  intros Ht. unfold stats_of. split.
  - destruct (progress_point 0 t Ht ltac:(lia)) as (p & Hp & _ & H0 & _).
    change 0%Z with (Z.of_nat 0) at 1. rewrite Hp, (H0 eq_refl). do 2 f_equal. lia.
  - intros Hpos. destruct (progress_point t t Ht ltac:(lia)) as (p & Hp & _ & _ & Ht' & _).
    rewrite Hp, (Ht' eq_refl Hpos), Z.sub_diag. done.
Qed.

(** C22: on every inventory of up to 200 rows, scanning one more row
    never lowers the percentage. *)
Theorem progress_monotone (s t : nat) :
  t ≤ progress_table_size → s < t →
  ∃ p q, progress_value (Z.of_nat s) (Z.of_nat t) = Some (Pct p) ∧
    progress_value (Z.of_nat (S s)) (Z.of_nat t) = Some (Pct q) ∧ (p <= q)%Z.
Proof.
  intros Ht Hs. destruct (progress_point s t Ht ltac:(lia)) as (p & Hp & _ & _ & _ & Hm & _).
  destruct (Hm Hs) as (q & Hq & Hle). eauto.
Qed.

(** C32: on every inventory of up to 200 rows, Python's double
    arithmetic gives the exactly rounded percentage except when the
    exact value is a tie at the third decimal, where the binary
    rounding of [scanned / total] decides. *)
Theorem progress_float_vs_exact (s t : nat) :
  t ≤ progress_table_size → s ≤ t →
  ∃ p, progress_value (Z.of_nat s) (Z.of_nat t) = Some (Pct p) ∧
    (p = progress_exact (Z.of_nat s) (Z.of_nat t) ∨
     (2 * ((Z.of_nat s * 10000) mod Z.of_nat t) = Z.of_nat t)%Z).
Proof.
  intros Ht Hs. destruct (progress_point s t Ht Hs) as (p & Hp & _ & _ & _ & _ & He). eauto.
Qed.

(** ** Witnesses *)

Lemma stats_pending_rows_witness :
  ∃ st, stats_of 4 (Z.of_nat (length [0; 2])) = Ok st ∧
    pending_items st = Z.of_nat (length (filter (λ i, i ∉ [0; 2]) (seq 0 4))).
Proof. apply (stats_pending_rows 4 [0; 2]). decide_by_eval. Defined.

Lemma progress_in_range_witness :
  ∃ p, progress_value 1 3 = Some (Pct p) ∧ (0 <= p <= 10000)%Z.
Proof. apply (progress_in_range 1 3); vm_compute; lia. Defined.

Lemma progress_endpoints_witness :
  stats_of 10 0 = Ok (mk_stats 10 0 10 (Pct 0)) ∧
  (0 < 10 → stats_of 10 10 = Ok (mk_stats 10 10 0 (Pct 10000))).
Proof. apply (progress_endpoints 10). vm_compute. lia. Defined.

Lemma progress_monotone_witness :
  ∃ p q, progress_value 2 3 = Some (Pct p) ∧ progress_value 3 3 = Some (Pct q) ∧ (p <= q)%Z.
Proof. apply (progress_monotone 2 3); vm_compute; lia. Defined.

(** 23 of 160 is exactly 14.375%: Python shows 14.37, the exact
    half-even rounding 14.38. *)
Lemma progress_float_vs_exact_witness :
  ∃ p, progress_value 23 160 = Some (Pct p) ∧
    (p = progress_exact 23 160 ∨ (2 * ((23 * 10000) mod 160) = 160)%Z).
Proof. apply (progress_float_vs_exact 23 160); vm_compute; lia. Defined.

End Progress.
