(* ===== verification/Exporter.v ===== *)
(** * Exporter: the body of [export_results]

    [App.py] lines 219-236 and [inventory_flask_app.py] lines 147-164:
<<
    df['Estado_Revision'] = df.index.map(
        lambda x: 'Escaneado' if x in scanned_items else 'Pendiente')
    result = {'filename': ..., 'data': df.to_dict('records'),
              'summary': {'total': len(df), 'escaneados': len(scanned_items),
                          'pendientes': len(df) - len(scanned_items)}}
>>
    Assigning [df[name] = values] replaces the column in place when the
    frame already has one of that name and appends it otherwise. *)

From S2P Require Import Prelude PyStr Frame Matcher Progress.

Module Exporter.
Import Frame Matcher.

Definition STATUS_COLUMN : string := "Estado_Revision".

(** [lambda x: 'Escaneado' if x in scanned_items else 'Pendiente'] *)
Definition estado (scanned : list nat) (x : nat) : cell :=
  CStr (if x ∈? scanned then "Escaneado" else "Pendiente").

(** [df[name] = vals] *)
Definition set_column (df : frame) (name : string) (vals : list cell) : frame :=
  match index_of name (columns df) with
  | Some j => mk_frame (columns df) (zip_with (λ r v, <[j := v]> r) (rows df) vals)
  | None => mk_frame (columns df ++ [name]) (zip_with (λ r v, r ++ [v]) (rows df) vals)
  end.

(** [df['Estado_Revision'] = df.index.map(...)] on the [RangeIndex]. *)
Definition export_frame (df : frame) (scanned : list nat) : frame :=
  set_column df STATUS_COLUMN (map (estado scanned) (seq 0 (df_len df))).

Record summary := mk_summary {
  total : Z;
  escaneados : Z;
  pendientes : Z
}.

Record export_body := mk_export {
  ex_filename : string;
  ex_data : list record;
  ex_summary : summary
}.

Definition export_core (filename : string) (df : frame) (scanned : list nat) : export_body :=
  let df' := export_frame df scanned in
  mk_export filename (to_records df')
    (mk_summary (Z.of_nat (df_len df')) (Z.of_nat (length scanned))
                (Z.of_nat (df_len df') - Z.of_nat (length scanned))).

(** ** Lemmas *)

Lemma index_of_None (c : string) (cols : list string) : c ∉ cols → index_of c cols = None.
Proof.
  intros Hc. destruct (index_of c cols) as [j|] eqn:E; [|done].
  exfalso. apply Hc. apply index_of_Some in E. by eapply list_elem_of_lookup_2.
Qed.

Lemma length_zip_with_seq {A B} (f : A → cell → B) (l : list A) (g : nat → cell) :
  length (zip_with f l (map g (seq 0 (length l)))) = length l.
Proof. rewrite length_zip_with, length_map, length_seq. lia. Qed.

Lemma export_frame_len (df : frame) (s : list nat) : df_len (export_frame df s) = df_len df.
Proof.
  unfold export_frame, set_column, df_len.
  destruct (index_of _ _); simpl; apply length_zip_with_seq.
Qed.

Lemma lookup_zip_with_seq {B} (f : list cell → cell → B) (rs : list (list cell))
    (g : nat → cell) (i : nat) :
  zip_with f rs (map g (seq 0 (length rs))) !! i = (λ r, f r (g i)) <$> rs !! i.
Proof.
  rewrite lookup_zip_with, list_lookup_fmap.
  destruct (rs !! i) as [r|] eqn:Hr; simpl; [|done].
  rewrite lookup_seq_lt by (by eapply lookup_lt_Some). done.
Qed.

Lemma estado_escaneado (s : list nat) (i : nat) :
  estado s i = CStr "Escaneado" ↔ i ∈ s.
Proof.
  unfold estado. destruct (i ∈? s) eqn:E.
  - rewrite py_in_true in E. done.
  - rewrite py_in_false in E. split; [intros [=]|done].
Qed.

Lemma estado_pendiente (s : list nat) (i : nat) :
  estado s i = CStr "Pendiente" ↔ i ∉ s.
Proof.
  unfold estado. destruct (i ∈? s) eqn:E.
  - rewrite py_in_true in E. split; [intros [=]|done].
  - rewrite py_in_false in E. done.
Qed.

(** ** Properties *)

(** C17: on a sheet without an [Estado_Revision] column, the export has
    every original record, in order, followed by one new entry
    [Estado_Revision]: ['Escaneado'] when the row's index is in the
    scanned list and ['Pendiente'] otherwise. *)
Theorem export_records (df : frame) (s : list nat) (i : nat) :
  frame_wf df → STATUS_COLUMN ∉ columns df →
  to_records (export_frame df s) !! i =
    (λ r, zip (columns df) r ++ [(STATUS_COLUMN, estado s i)]) <$> rows df !! i.
Proof.
  intros (_ & Hlen & _) Hc. unfold export_frame, set_column.
  rewrite index_of_None by done. unfold to_records, df_len. simpl.
  rewrite list_lookup_fmap, lookup_zip_with_seq.
  destruct (rows df !! i) as [r|] eqn:Hr; simpl; [|done]. f_equal.
  eapply Forall_lookup_1 in Hlen; [|done]. simpl in Hlen.
  apply zip_snoc. lia.
Qed.

(** C18: the summary's [escaneados] and [pendientes] are the numbers of
    exported rows marked ['Escaneado'] and ['Pendiente'], as long as the
    scanned list is duplicate-free and in range. *)
Theorem export_summary_counts (fn : string) (df : frame) (s : list nat) :
  scanned_ok (df_len df) s →
  escaneados (ex_summary (export_core fn df s)) =
    Z.of_nat (length (filter (λ i, estado s i = CStr "Escaneado") (seq 0 (df_len df)))) ∧
  pendientes (ex_summary (export_core fn df s)) =
    Z.of_nat (length (filter (λ i, estado s i = CStr "Pendiente") (seq 0 (df_len df)))).
Proof.
  intros Hok. simpl. rewrite export_frame_len.
  rewrite (list_filter_iff (λ i, estado s i = CStr "Escaneado") (λ i, i ∈ s))
    by apply estado_escaneado.
  rewrite (list_filter_iff (λ i, estado s i = CStr "Pendiente") (λ i, ¬ i ∈ s))
    by apply estado_pendiente.
  rewrite (Permutation_length (Progress.scanned_rows_perm _ s Hok)).
  pose proof (length_filter_compl (λ i, i ∈ s) (seq 0 (df_len df))) as Hc.
  rewrite (Permutation_length (Progress.scanned_rows_perm _ s Hok)), length_seq in Hc.
  split; [done|lia].
Qed.

(** The exported frame is well formed again: unique column names
    and one value per column in every row. *)
Theorem export_frame_wf (df : frame) (s : list nat) :
  frame_wf df → frame_wf (export_frame df s).
Proof.
  intros (Hnd & Hlen & Hcells). unfold export_frame, set_column.
  destruct (index_of STATUS_COLUMN (columns df)) as [j|] eqn:E; split_and!; simpl.
  - done.
  - apply Forall_lookup_2. intros i r. unfold df_len.
    rewrite lookup_zip_with_seq. destruct (rows df !! i) as [r0|] eqn:Hr; simpl; [|done].
    intros [= <-]. rewrite length_insert. by eapply Forall_lookup_1 in Hlen.
  - apply Forall_lookup_2. intros i r. unfold df_len.
    rewrite lookup_zip_with_seq. destruct (rows df !! i) as [r0|] eqn:Hr; simpl; [|done].
    intros [= <-]. apply Forall_insert; [by eapply Forall_lookup_1 in Hcells|done].
  - apply NoDup_snoc; [done|]. intros Hin. apply list_elem_of_lookup_1 in Hin as [j Hj].
    by rewrite (index_of_lookup _ _ j) in E.
  - apply Forall_lookup_2. intros i r. unfold df_len.
    rewrite lookup_zip_with_seq. destruct (rows df !! i) as [r0|] eqn:Hr; simpl; [|done].
    intros [= <-]. rewrite !length_app. eapply Forall_lookup_1 in Hlen; [|done].
    simpl in *. lia.
  - apply Forall_lookup_2. intros i r. unfold df_len.
    rewrite lookup_zip_with_seq. destruct (rows df !! i) as [r0|] eqn:Hr; simpl; [|done].
    intros [= <-]. apply Forall_app. split; [by eapply Forall_lookup_1 in Hcells|by constructor].
Qed.

(** C14: a sheet that already has an [Estado_Revision] column at
    position [j]: the export keeps the sheet's columns, adds none, and
    each exported record is the original row with the value at [j]
    replaced by the scan status, so the sheet's own values of that
    column are lost from the export. *)
Theorem export_overwrites_status_column (df : frame) (s : list nat) (j i : nat) :
  frame_wf df → columns df !! j = Some STATUS_COLUMN →
  columns (export_frame df s) = columns df ∧
  to_records (export_frame df s) !! i =
    (λ r, zip (columns df) (<[j := estado s i]> r)) <$> rows df !! i.
Proof.
  intros (Hnd & Hlen & _) Hj. unfold export_frame, set_column.
  rewrite (index_of_lookup _ _ j) by done. split; [done|].
  unfold to_records, df_len. simpl. rewrite list_lookup_fmap, lookup_zip_with_seq.
  by destruct (rows df !! i).
Qed.

(** ** Witnesses *)

Lemma export_records_witness :
  to_records (export_frame inventory_sample [1]) !! 1 =
    (λ r, zip (columns inventory_sample) r ++ [(STATUS_COLUMN, estado [1] 1)]) <$>
      rows inventory_sample !! 1.
Proof. apply export_records; decide_by_eval. Defined.

Lemma export_summary_counts_witness :
  escaneados (ex_summary (export_core "inventario.xlsx" inventory_sample [3; 0])) =
    Z.of_nat (length (filter (λ i, estado [3; 0] i = CStr "Escaneado")
                            (seq 0 (df_len inventory_sample)))) ∧
  pendientes (ex_summary (export_core "inventario.xlsx" inventory_sample [3; 0])) =
    Z.of_nat (length (filter (λ i, estado [3; 0] i = CStr "Pendiente")
                            (seq 0 (df_len inventory_sample)))).
Proof. apply export_summary_counts. decide_by_eval. Defined.

Lemma export_frame_wf_witness : frame_wf (export_frame inventory_sample [2]).
Proof. apply export_frame_wf. decide_by_eval. Defined.

Definition sheet_with_status : frame :=
  mk_frame ["Codigo"; "Estado_Revision"] [[CStr "A100"; CStr "Revisado"]].

Lemma export_overwrites_status_column_witness :
  columns (export_frame sheet_with_status []) = columns sheet_with_status ∧
  to_records (export_frame sheet_with_status []) !! 0 =
    (λ r, zip (columns sheet_with_status) (<[1 := estado [] 0]> r)) <$> rows sheet_with_status !! 0.
Proof. apply export_overwrites_status_column; [decide_by_eval|reflexivity]. Defined.

End Exporter.
