(* ===== verification/Upload.v ===== *)
(** * Dataset loader: [allowed_file] and the checks of [upload_file]

    [allowed_file] is the same in both variants ([App.py] lines 23-24,
    [inventory_flask_app.py] lines 18-19):
<<
    return '.' in filename and filename.rsplit('.', 1)[1].lower() in ALLOWED_EXTENSIONS
>>
    The request checks of [upload_file] ([App.py] lines 71-79 and 117)
    are also shared; what happens after them differs per variant and is
    in [AppFile] and [AppCookie].  [pd.read_excel] is a library call: its
    outcome on the uploaded bytes is part of the request, a frame or a
    failure. *)

From S2P Require Import Prelude PyStr Frame.
From Stdlib Require Import Ascii.

Module Upload.
Import PyStr Frame.

Definition ALLOWED_EXTENSIONS : list string := ["xlsx"; "xls"].

(** [filename.rsplit('.', 1)[1]] would raise [IndexError] on a name
    without a dot; the [and] never evaluates it then
    ([rsplit1_has_ext] below), so that branch is [false]. *)
Definition allowed_file (filename : string) : bool :=
  contains "." filename &&
  match rsplit1 "."%char filename !! 1 with
  | Some ext => lower ext ∈? ALLOWED_EXTENSIONS
  | None => false
  end.

(** What [pd.read_excel(filepath)] gives for the uploaded bytes. *)
Inductive excel_outcome :=
  | Workbook (df : frame)
  | Unreadable.

(** [request.files['file']]: a werkzeug [FileStorage]. *)
Record file_storage := mk_file {
  fs_filename : string;
  fs_content : excel_outcome
}.

(** [request.files] has a ['file'] part or not. *)
Record upload_request := mk_upload_request { req_file : option file_storage }.

Inductive upload_check :=
  | UploadRejected (status : Z) (kind : error_kind)
  | UploadAccepted (f : file_storage).

(** Lines 71-79 and 117: no part, an empty name, or a name
    [allowed_file] refuses.  [if file and ...]: a [FileStorage] is true
    when its file name is not empty, which the previous test ensured. *)
Definition check_upload (req : upload_request) : upload_check :=
  match req_file req with
  | None => UploadRejected 400 ErrNoFile
  | Some f =>
      if decide (fs_filename f = "") then UploadRejected 400 ErrNoFile
      else if allowed_file (fs_filename f) then UploadAccepted f
      else UploadRejected 400 ErrFileType
  end.

(** The JSON body of a successful upload: [records_count], [columns]
    and the preview [data]. *)
Record upload_reply := mk_upload_reply {
  up_records_count : nat;
  up_columns : list string;
  up_data : list record
}.

(** [App.py] lines 107-113: [df.head(100).to_dict('records')]. *)
Definition upload_reply_app (df : frame) : upload_reply :=
  mk_upload_reply (df_len df) (columns df) (to_records (head 100 df)).

(** [inventory_flask_app.py] lines 53-59: [df.to_dict('records')[:100]]. *)
Definition upload_reply_cookie (df : frame) : upload_reply :=
  mk_upload_reply (df_len df) (columns df) (take 100 (to_records df)).

(** ** Lemmas *)

Lemma upload_reply_same (df : frame) : upload_reply_app df = upload_reply_cookie df.
Proof. unfold upload_reply_app, upload_reply_cookie. by rewrite to_records_head. Qed.

Lemma rsplit1_has_ext (fn : string) :
  contains "." fn = true → ∃ base ext, rsplit1 "."%char fn = [base; ext].
Proof.
  intros Hdot. apply contains_char in Hdot.
  destruct (rsplit1_cases "."%char fn) as [[Hn _]|(base & ext & _ & _ & ->)]; [done|].
  eauto.
Qed.

(** ** Properties *)

(** C23: [allowed_file] accepts a name exactly when it has a dot and the
    text after its last dot is [xlsx] or [xls] in any letter case. *)
Theorem allowed_file_spec (fn : string) :
  allowed_file fn = true ↔
  ∃ base ext, chars fn = base ++ "."%char :: ext ∧ ("."%char ∉ ext) ∧
              lower (of_chars ext) ∈ ALLOWED_EXTENSIONS.
Proof.
  unfold allowed_file. rewrite andb_true_iff, contains_char.
  destruct (rsplit1_cases "."%char fn) as [[Hn Hr]|(base & ext & Hc & Hext & Hr)];
    rewrite Hr; simpl.
  - split; [by intros [? _]|]. intros (base & ext & Hc & _). exfalso. apply Hn.
    rewrite Hc. apply elem_of_app. right. left.
  - rewrite py_in_true. split.
    + intros [_ H]. by exists base, ext.
    + intros (b' & e' & Hc' & He' & Hl). split.
      * rewrite Hc. apply elem_of_app. right. left.
      * rewrite Hc in Hc'. by destruct (last_sep_unique _ _ _ _ _ Hc' Hext He') as [_ ->].
Qed.

(** the upload reply counts every row of the sheet and previews at
    most its first 100 records, and the two variants build the same
    reply ([df.head(100).to_dict('records')] and
    [df.to_dict('records')[:100]]). *)
Theorem upload_reply_preview (df : frame) :
  up_records_count (upload_reply_app df) = df_len df ∧
  length (up_data (upload_reply_app df)) = Nat.min 100 (df_len df) ∧
  upload_reply_app df = upload_reply_cookie df.
Proof.
  unfold upload_reply_app, upload_reply_cookie. cbn [up_records_count up_data].
  split_and!; [done| |].
  - rewrite to_records_head, length_take, length_to_records. lia.
  - apply upload_reply_same.
Qed.

End Upload.
