(* ===== verification/Records.v ===== *)
(** * Records as JSON objects, and the frame the session cookie gives back

    [inventory_flask_app.py] keeps the dataset in Flask's session cookie
    as [df.to_dict('records')] (line 45) and rebuilds it with
    [pd.DataFrame(session['df_data'])] (lines 79 and 147).  Between the
    two requests the session goes through Flask's serializer, which is
    [json.dumps(..., sort_keys=True)]: every record comes back with its
    keys in sorted order ([session_json]).  The rebuilt frame therefore
    has its columns in alphabetical order, not in the sheet's order.

    Two frames are equivalent ([≡]) when they have the same records as
    JSON objects, i.e. record by record the same key/value pairs in any
    order.  This file proves that the cookie gives back an equivalent
    frame, and that the search and the export only depend on a frame up
    to this equivalence: the matched indices up to their order, the
    exported records up to the order of their keys. *)

From S2P Require Import Prelude PyStr Frame Matcher Exporter.
From stdpp Require Import sorting.

Module Records.
Import PyStr Frame Matcher Exporter.

(** ** Flask's session serializer

    Python compares [str] keys by code point; on UTF-8 bytes that is the
    byte order [String.le] compares. *)
Definition key_le (p q : string * cell) : Prop := String.le p.1 q.1.

#[export] Instance key_le_dec : RelDecision key_le.
Proof. intros p q. unfold key_le. apply _. Defined.

(** [json.loads(json.dumps(record, sort_keys=True))] *)
Definition sort_record (r : record) : record := merge_sort key_le r.

(** The records as the next request reads them from the cookie. *)
Definition session_json (recs : list record) : list record := map sort_record recs.

(** ** Frames with the same records *)

#[export] Instance frame_equiv : Equiv frame := λ df1 df2,
  Forall2 (≡ₚ) (to_records df1) (to_records df2).

#[export] Instance frame_equiv_equivalence : Equivalence (≡@{frame}).
Proof.
  unfold equiv, frame_equiv. split.
  - intros df. reflexivity.
  - intros df1 df2 H. by symmetry.
  - intros df1 df2 df3 H12 H23. by etrans.
Qed.

#[export] Instance df_len_proper : Proper ((≡) ==> (=)) df_len.
Proof. intros df1 df2 H. rewrite <-!length_to_records. by eapply Forall2_length. Qed.

(** The values of a record's cells all satisfy [cell_wf]. *)
Definition rec_cells_wf (r : record) : Prop := Forall (λ kv, cell_wf kv.2) r.

(** ** Lemmas on records *)

Lemma rec_get_Some (k : string) (v : cell) (r : record) :
  rec_get k r = Some v → (k, v) ∈ r.
Proof.
  induction r as [|[k' v'] r IH]; simpl; [done|].
  case_decide; [intros [= <-]; subst; left|]. intros Hg%IH. by right.
Qed.

Lemma rec_get_None (k : string) (r : record) : rec_get k r = None ↔ k ∉ r.*1.
Proof.
  induction r as [|[k' v'] r IH]; simpl; [set_solver|].
  case_decide; [subst; set_solver|]. rewrite IH. set_solver.
Qed.

Lemma elem_of_rec (k : string) (v : cell) (r : record) :
  NoDup r.*1 → (k, v) ∈ r ↔ rec_get k r = Some v.
Proof.
  induction r as [|[k' v'] r IH]; simpl; intros Hnd; [by rewrite elem_of_nil|].
  apply NoDup_cons in Hnd as [Hk' Hnd]. rewrite elem_of_cons.
  destruct (decide (k = k')) as [->|Hne].
  - split; [|intros [= ->]; by left].
    intros [[= ->]|Hin]; [done|]. exfalso. apply Hk'.
    by apply (list_elem_of_fmap_2 fst) in Hin.
  - rewrite <-IH by done. naive_solver.
Qed.

(** A record with distinct keys is read the same in any order. *)
Lemma rec_get_perm (r1 r2 : record) (k : string) :
  NoDup r1.*1 → r1 ≡ₚ r2 → rec_get k r1 = rec_get k r2.
Proof.
  intros Hnd Hp. assert (NoDup r2.*1) as Hnd2 by (by rewrite <-Hp).
  destruct (rec_get k r1) as [v|] eqn:E1.
  - symmetry. apply elem_of_rec; [done|]. rewrite <-Hp. by apply elem_of_rec.
  - symmetry. apply rec_get_None. rewrite <-Hp. by apply rec_get_None.
Qed.

(** Two records with distinct keys that read the same are the same JSON
    object. *)
Lemma rec_perm (r1 r2 : record) :
  NoDup r1.*1 → NoDup r2.*1 → (∀ k, rec_get k r1 = rec_get k r2) → r1 ≡ₚ r2.
Proof.
  intros H1 H2 Hget.
  apply NoDup_Permutation; [by eapply NoDup_fmap_1|by eapply NoDup_fmap_1|].
  intros [k v]. rewrite !elem_of_rec by done. by rewrite Hget.
Qed.

Lemma rec_get_zip_index (k : string) (cols : list string) (r : list cell) :
  rec_get k (zip cols r) = index_of k cols ≫= (λ j, r !! j).
Proof.
  revert r. induction cols as [|c cols IH]; intros [|v r]; simpl; try done.
  - destruct (decide (k = c)); [done|]. by destruct (index_of k cols).
  - destruct (decide (k = c)); [done|]. rewrite IH. by destruct (index_of k cols).
Qed.

Lemma rec_get_zip_map (k : string) (ks : list string) (f : string → cell) :
  rec_get k (zip ks (map f ks)) = if decide (k ∈ ks) then Some (f k) else None.
Proof.
  induction ks as [|k' ks IH]; simpl; [done|]. rewrite IH.
  destruct (decide (k = k')) as [->|Hne]; [by rewrite decide_True by left|].
  destruct (decide (k ∈ ks)).
  - by rewrite decide_True by set_solver.
  - by rewrite decide_False by set_solver.
Qed.

Lemma rec_get_snoc (k k' : string) (v : cell) (r : record) :
  rec_get k (r ++ [(k', v)]) =
  match rec_get k r with Some x => Some x | None => if decide (k = k') then Some v else None end.
Proof.
  induction r as [|[k0 v0] r IH]; simpl; [done|]. by destruct (decide (k = k0)).
Qed.

Lemma index_of_None_not_elem (c : string) (cols : list string) :
  NoDup cols → index_of c cols = None → c ∉ cols.
Proof.
  intros Hnd E Hin. apply list_elem_of_lookup_1 in Hin as [j Hj].
  by rewrite (index_of_lookup _ _ j) in E.
Qed.

Lemma concat_perm {A} (ls ks : list (list A)) : ls ≡ₚ ks → concat ls ≡ₚ concat ks.
Proof.
  induction 1 as [|x l l' _ IH|x y l|l l' l'' _ IH1 _ IH2]; simpl.
  - done.
  - by apply Permutation_app_head.
  - by rewrite !app_assoc, (Permutation_app_comm y x).
  - by etrans.
Qed.

#[export] Hint Resolve rec_get_Some rec_get_perm rec_perm : inv.
#[export] Hint Rewrite rec_get_zip_index rec_get_zip_map rec_get_snoc : inv_rw.

(** ** Frames and their records *)

Lemma to_records_nodup (df : frame) :
  frame_wf df → Forall (λ rr, NoDup rr.*1) (to_records df).
Proof.
  intros (Hnd & Hlen & _). apply Forall_fmap. eapply Forall_impl; [exact Hlen|].
  intros r Hr. simpl in *. rewrite fst_zip by lia. done.
Qed.

Lemma lookup_to_records (df : frame) (i : nat) :
  to_records df !! i = zip (columns df) <$> rows df !! i.
Proof. unfold to_records. by rewrite list_lookup_fmap. Qed.

(** [df[c]] read through the records. *)
Lemma column_records (df : frame) (c : string) :
  frame_wf df → c ∈ columns df →
  column df c = map (λ rr, default CNaN (rec_get c rr)) (to_records df).
Proof.
  intros Hwf Hc. apply list_elem_of_lookup_1 in Hc as [j Hj].
  rewrite (column_nth df j c Hwf Hj). unfold to_records. rewrite map_map.
  apply map_ext. intros r. rewrite rec_get_zip_index.
  destruct Hwf as (Hnd & _ & _). by rewrite (index_of_lookup c _ j).
Qed.

Lemma map_rec_get_equiv (recs1 recs2 : list record) (c : string) :
  Forall (λ rr, NoDup rr.*1) recs1 → Forall2 (≡ₚ) recs1 recs2 →
  map (λ rr, default CNaN (rec_get c rr)) recs1 = map (λ rr, default CNaN (rec_get c rr)) recs2.
Proof.
  intros Hnd H. induction H as [|r1 r2 recs1 recs2 Hp _ IH]; [done|].
  apply Forall_cons in Hnd as [Hr Hnd]. simpl. by rewrite IH, (rec_get_perm r1 r2).
Qed.

Lemma columns_equiv (df1 df2 : frame) :
  frame_wf df1 → frame_wf df2 → df1 ≡ df2 → rows df1 ≠ [] →
  columns df1 ≡ₚ columns df2.
Proof.
  intros (_ & Hlen1 & _) (_ & Hlen2 & _) Heq Hne.
  destruct (rows df1) as [|r1 rs1] eqn:E1; [done|].
  unfold equiv, frame_equiv, to_records in Heq. rewrite E1 in Heq.
  destruct (rows df2) as [|r2 rs2] eqn:E2; [by apply Forall2_length in Heq|].
  apply Forall2_cons in Heq as [Hp _]. apply (fmap_Permutation fst) in Hp.

  apply Forall_cons in Hlen1 as [Hl1 _], Hlen2 as [Hl2 _].
  rewrite !fst_zip in Hp by lia. done.
Qed.

Lemma found_indices_no_rows (df : frame) (b : string) : rows df = [] → found_indices df b = [].
Proof.
  intros Hr. assert (∀ c, column df c = []) as Hc.
  { intros c. unfold column. rewrite Hr. by destruct (index_of _ _). }
  rewrite found_indices_concat, (map_ext _ (λ _, [])) by (intros c; by rewrite Hc).
  induction (columns df); simpl; auto.
Qed.

(** In a frame equivalent to [df2], the loop over the columns selects,
    column after column, the rows [df2] has under the same name. *)
Lemma found_indices_by_columns (df1 df2 : frame) (b : string) :
  frame_wf df1 → frame_wf df2 → df1 ≡ df2 → rows df1 ≠ [] →
  found_indices df1 b =
    concat (map (λ c, mask_index (eq_mask (astype_str (column df2 c)) b)) (columns df1)).
Proof.
  intros Hwf1 Hwf2 Heq Hne. rewrite found_indices_concat. f_equal. apply map_ext_in.
  intros c Hc%list_elem_of_In.
  assert (c ∈ columns df2) as Hc2 by (by rewrite <-(columns_equiv df1 df2)).
  rewrite (column_records df1 c), (column_records df2 c) by done.
  by erewrite map_rec_get_equiv by (done || by apply to_records_nodup).
Qed.

(** The search finds the same rows in equivalent frames, possibly in
    another order. *)
Lemma found_indices_equiv (df1 df2 : frame) (b : string) :
  frame_wf df1 → frame_wf df2 → df1 ≡ df2 →
  found_indices df1 b ≡ₚ found_indices df2 b.
Proof.
  intros Hwf1 Hwf2 Heq. destruct (decide (rows df1 = [])) as [Hr1|Hne].
  - assert (rows df2 = []) as Hr2.
    { pose proof (df_len_proper _ _ Heq) as Hl. unfold df_len in Hl. rewrite Hr1 in Hl.
      by apply nil_length_inv. }
    by rewrite !found_indices_no_rows.
  - rewrite (found_indices_by_columns df1 df2 b), (found_indices_concat df2) by done.
    apply concat_perm, Permutation_map. by apply columns_equiv.
Qed.

(** ** The export record by record *)

Lemma estado_perm (s1 s2 : list nat) (i : nat) : s1 ≡ₚ s2 → estado s1 i = estado s2 i.
Proof.
  intros Hp. unfold estado.
  destruct (i ∈? s1) eqn:E1, (i ∈? s2) eqn:E2; try done; exfalso.
  - apply py_in_true in E1. apply py_in_false in E2. apply E2. by rewrite <-Hp.
  - apply py_in_false in E1. apply py_in_true in E2. apply E1. by rewrite Hp.
Qed.

(** Row [i] of the export reads as row [i] of the sheet with
    [Estado_Revision] set, whether the column was there or not. *)
Lemma export_record (df : frame) (s : list nat) (i : nat) (r : list cell) :
  frame_wf df → rows df !! i = Some r →
  ∃ rr, to_records (export_frame df s) !! i = Some rr ∧ NoDup rr.*1 ∧
    ∀ k, rec_get k rr =
      if decide (k = STATUS_COLUMN) then Some (estado s i) else rec_get k (zip (columns df) r).
Proof.
  intros (Hnd & Hlen & _) Hr. eapply Forall_lookup_1 in Hlen; [|done]. simpl in Hlen.
  rewrite lookup_to_records. unfold export_frame, set_column, df_len.
  destruct (index_of STATUS_COLUMN (columns df)) as [j|] eqn:E; simpl;
    rewrite lookup_zip_with_seq, Hr; simpl; eexists; (split; [done|]).
  - pose proof (index_of_Some _ _ _ E) as Hj.
    rewrite fst_zip by (rewrite length_insert; lia). split; [done|].
    intros k. rewrite !rec_get_zip_index.
    destruct (decide (k = STATUS_COLUMN)) as [->|Hk]; rewrite ?E.
    + simpl. apply list_lookup_insert_eq. apply lookup_lt_Some in Hj. lia.
    + destruct (index_of k (columns df)) as [j'|] eqn:E'; simpl; [|done].
      apply list_lookup_insert_ne. intros <-. apply Hk.
      apply index_of_Some in E'. congruence.
  - apply index_of_None_not_elem in E; [|done].
    rewrite zip_snoc by lia. rewrite fmap_app, fst_zip by lia. simpl. split.
    + apply NoDup_snoc; done.
    + intros k. rewrite rec_get_snoc.
      destruct (decide (k = STATUS_COLUMN)) as [->|Hk].
      * rewrite (proj2 (rec_get_None _ _)); [done|]. by rewrite fst_zip by lia.
      * by destruct (rec_get k _).
Qed.

(** The export of equivalent frames, with the same scanned rows in any
    order, has the same records as JSON objects. *)
Lemma export_records_equiv (df1 df2 : frame) (s1 s2 : list nat) :
  frame_wf df1 → frame_wf df2 → df1 ≡ df2 → s1 ≡ₚ s2 →
  Forall2 (≡ₚ) (to_records (export_frame df1 s1)) (to_records (export_frame df2 s2)).
Proof.
  intros Hwf1 Hwf2 Heq Hs. apply Forall2_lookup. intros i.
  pose proof (proj1 (Forall2_lookup _ _ _) Heq i) as Hi. rewrite !lookup_to_records in Hi.
  destruct (rows df1 !! i) as [r1|] eqn:Hr1, (rows df2 !! i) as [r2|] eqn:Hr2;
    simpl in Hi; inversion Hi as [? ? Hp|]; subst.
  - destruct (export_record df1 s1 i r1 Hwf1 Hr1) as (rr1 & -> & Hnd1 & Hg1).
    destruct (export_record df2 s2 i r2 Hwf2 Hr2) as (rr2 & -> & Hnd2 & Hg2).
    constructor. apply rec_perm; [done|done|]. intros k. rewrite Hg1, Hg2.
    case_decide; [by rewrite (estado_perm s1 s2)|].
    apply rec_get_perm; [|done].
    destruct Hwf1 as (Hnd & Hlen & _). eapply Forall_lookup_1 in Hlen; [|done].
    simpl in Hlen. by rewrite fst_zip by lia.
  - assert (to_records (export_frame df1 s1) !! i = None) as ->.
    { apply lookup_ge_None. rewrite length_to_records, export_frame_len.
      by apply lookup_ge_None. }
    assert (to_records (export_frame df2 s2) !! i = None) as ->.
    { apply lookup_ge_None. rewrite length_to_records, export_frame_len.
      by apply lookup_ge_None. }
    constructor.
Qed.

(** ** The frame the cookie gives back *)

Lemma from_records_records (recs : list record) (ks : list string) :
  recs ≠ [] → NoDup ks → Forall (λ rr, rr.*1 ≡ₚ ks ∧ rec_cells_wf rr) recs →
  frame_wf (from_records recs) ∧ Forall2 (≡ₚ) (to_records (from_records recs)) recs.
Proof.
  intros Hne Hks Hrecs. destruct recs as [|r0 rest]; [done|].
  assert (∀ rr, rr ∈ r0 :: rest → NoDup rr.*1 ∧ rr.*1 ≡ₚ r0.*1) as Hkeys.
  { intros rr Hrr. pose proof Hrecs as Hr0. apply Forall_cons in Hr0 as [[H0 _] _].
    eapply Forall_forall in Hrecs; [|exact Hrr]. destruct Hrecs as [Hp _].
    split; [by rewrite Hp|by rewrite Hp, H0]. }
  assert (keys_union [] (r0 :: rest) = r0.*1) as Hk.
  { simpl. fold (add_keys [] r0.*1).
    rewrite add_keys_fresh by (by apply Hkeys; left) || set_solver. simpl.
    apply keys_union_known, Forall_forall. intros rr Hrr.
    destruct (Hkeys rr) as [_ Hp]; [by right|]. by rewrite Hp. }
  unfold from_records. rewrite Hk. destruct (Hkeys r0) as [Hnd0 _]; [left|].
  split; [split_and!|].
  - done.
  - apply Forall_fmap, Forall_forall. intros rr _. simpl. by rewrite length_map.
  - apply Forall_fmap, Forall_forall. intros rr Hrr. simpl. apply Forall_fmap, Forall_forall.
    intros c _. simpl. destruct (rec_get c rr) as [v|] eqn:Hv; simpl; [|done].
    apply rec_get_Some in Hv. eapply Forall_forall in Hrecs; [|exact Hrr].
    destruct Hrecs as [_ Hcw]. by eapply Forall_forall in Hcw; [|exact Hv].
  - unfold to_records. cbn [columns rows]. rewrite map_map. apply Forall2_fmap_l, Forall_Forall2_diag.
    apply Forall_forall. intros rr Hrr. destruct (Hkeys rr Hrr) as [Hnd Hp]. unfold compose.
    apply rec_perm; [by rewrite fst_zip by (rewrite !length_map; lia)|done|].
    intros k. rewrite rec_get_zip_map.
    destruct (decide (k ∈ r0.*1)) as [Hin|Hnin].
    + rewrite <-Hp in Hin. destruct (rec_get k rr) eqn:E; [done|].
      by apply rec_get_None in E.
    + symmetry. apply rec_get_None. by rewrite Hp.
Qed.

Lemma rec_cells_wf_zip (cols : list string) (r : list cell) :
  Forall cell_wf r → rec_cells_wf (zip cols r).
Proof.
  revert r. induction cols as [|c cols IH]; intros [|v r] Hr; simpl; try constructor.
  - by apply Forall_cons in Hr as [? _].
  - apply IH. by apply Forall_cons in Hr as [_ ?].
Qed.

(** Records that are, one by one, the records of a well-formed frame as
    JSON objects rebuild an equivalent well-formed frame. *)
Lemma from_records_equiv (recs : list record) (df : frame) :
  frame_wf df → Forall2 (≡ₚ) recs (to_records df) →
  frame_wf (from_records recs) ∧ from_records recs ≡ df.
Proof.
  intros Hwf Hrecs. destruct (decide (rows df = [])) as [Hr|Hne].
  - unfold to_records in Hrecs. rewrite Hr in Hrecs. apply Forall2_nil_inv_r in Hrecs as ->.
    unfold equiv, frame_equiv, to_records. rewrite Hr.
    split; [unfold frame_wf; simpl; split_and!; constructor|constructor].
  - destruct (from_records_records recs (columns df)) as [Hwf' Hrec].
    + intros ->. apply Forall2_length in Hrecs. rewrite length_to_records in Hrecs.
      unfold df_len in Hrecs. by destruct (rows df).
    + by destruct Hwf.
    + destruct Hwf as (Hnd & Hlen & Hcells).
      apply Forall_forall. intros rr Hrr. apply list_elem_of_lookup_1 in Hrr as [i Hi].
      destruct (Forall2_lookup_l _ _ _ _ _ Hrecs Hi) as (rr' & Hi' & Hp).
      rewrite lookup_to_records in Hi'.
      destruct (rows df !! i) as [r|] eqn:Hr; simpl in Hi'; [|done]. injection Hi' as <-.
      eapply Forall_lookup_1 in Hlen; [|done]. eapply Forall_lookup_1 in Hcells; [|done].
      simpl in Hlen. split.
      * rewrite Hp, fst_zip by lia. done.
      * unfold rec_cells_wf. rewrite Hp. by apply rec_cells_wf_zip.
    + split; [done|]. unfold equiv, frame_equiv. by etrans.
Qed.

(** The cookie gives back a well-formed frame with the same records as
    JSON objects; its columns are the sheet's in sorted order. *)
Lemma session_json_equiv (recs : list record) : Forall2 (≡ₚ) (session_json recs) recs.
Proof.
  unfold session_json. apply Forall2_fmap_l, Forall_Forall2_diag, Forall_forall.
  intros rr _. apply merge_sort_Permutation.
Qed.

Lemma session_json_frame (df : frame) :
  frame_wf df →
  frame_wf (from_records (session_json (to_records df))) ∧
  from_records (session_json (to_records df)) ≡ df.
Proof. intros Hwf. apply from_records_equiv; [done|apply session_json_equiv]. Qed.

(** ** Records whose keys are already in order *)

#[export] Instance key_le_total : Total key_le.
Proof. intros p q. unfold key_le. apply String.le_total. Qed.

#[export] Instance key_le_trans : Transitive key_le.
Proof. intros p q r. unfold key_le. apply transitivity. Qed.

Lemma sorted_zip_keys (cols : list string) (r : list cell) :
  Sorted String.le cols → Sorted key_le (zip cols r).
Proof.
  intros Hs. revert r. induction Hs as [|k cols Hs IH Hhd]; intros [|v r]; cbn; try constructor; [apply IH|].
  destruct Hhd as [|k' cols' Hk]; destruct r; cbn; constructor. exact Hk.
Qed.

(** Sorting a record whose distinct keys are in order leaves it as it is. *)
Lemma sort_record_sorted (r : record) :
  NoDup r.*1 → Sorted key_le r → sort_record r = r.
Proof.
  intros Hnd Hs. unfold sort_record.
  apply (Sorted_unique_strong key_le); [|apply (Sorted_merge_sort key_le)|done|apply merge_sort_Permutation].
  intros [k1 v1] [k2 v2] H1 H2 Hle1 Hle2. unfold key_le in *; cbn in *.
  assert (k1 = k2) as <- by (by apply (anti_symm String.le)).
  rewrite merge_sort_Permutation in H1.
  apply elem_of_rec in H1, H2; [|done..]. congruence.
Qed.

(** A sheet whose columns are in order comes back from the cookie as
    it went in. *)
Lemma session_json_sorted (df : frame) :
  frame_wf df → Sorted String.le (columns df) → session_json (to_records df) = to_records df.
Proof.
  intros Hwf Hs. pose proof (to_records_nodup df Hwf) as Hnd.
  rewrite <-(map_id (to_records df)) at 2. unfold session_json.
  apply map_ext_in. intros r Hr%list_elem_of_In.
  apply sort_record_sorted; [rewrite Forall_forall in Hnd; by apply Hnd|].
  unfold to_records in Hr. apply list_elem_of_fmap in Hr as (row & -> & _).
  by apply sorted_zip_keys.
Qed.

(** The keys of the first record, when the others have no other key:
    the columns [pd.DataFrame(records)] builds. *)
Lemma keys_union_first (r0 : record) (rest : list record) :
  NoDup r0.*1 → Forall (λ rr, rr.*1 ⊆ r0.*1) rest → keys_union [] (r0 :: rest) = r0.*1.
Proof.
  intros Hnd Hrest. simpl. fold (add_keys [] r0.*1).
  rewrite add_keys_fresh by set_solver. by apply keys_union_known.
Qed.

(** [json.dumps(..., sort_keys=True)] puts a row's keys in sorted order. *)
Lemma sort_record_keys (cols : list string) (row : list cell) :
  length row = length cols → (sort_record (zip cols row)).*1 = merge_sort String.le cols.
Proof.
  intros Hlen. apply (Sorted_unique String.le).
  - apply (Sorted_fmap fst key_le); [done|]. apply (Sorted_merge_sort key_le).
  - apply (Sorted_merge_sort String.le).
  - unfold sort_record. rewrite merge_sort_Permutation, merge_sort_Permutation, fst_zip by lia. done.
Qed.

(** The frame the cookie variant rebuilds has the sheet's columns in
    sorted order. *)
Lemma columns_session_json (df : frame) :
  frame_wf df → rows df ≠ [] →
  columns (from_records (session_json (to_records df))) = merge_sort String.le (columns df).
Proof.
  intros (Hnd & Hlen & _) Hne. unfold from_records, session_json, to_records. cbn [columns].
  destruct (rows df) as [|row0 rest] eqn:E; [done|]. cbn [map].
  apply Forall_cons in Hlen as [Hl0 Hlen].
  rewrite keys_union_first.
  - apply sort_record_keys. lia.
  - rewrite sort_record_keys by lia. by rewrite merge_sort_Permutation.
  - apply Forall_fmap, Forall_fmap, Forall_forall. intros row Hrow. unfold compose.
    eapply Forall_forall in Hlen; [|exact Hrow].
    by rewrite !sort_record_keys by lia.
Qed.

(** ** The search up to the order of the indices *)

Definition search_reply_equiv (r1 r2 : search_reply) : Prop :=
  match r1, r2 with
  | Found m1 n1 t1, Found m2 n2 t2 => m1 ≡ₚ m2 ∧ n1 ≡ₚ n2 ∧ t1 = t2
  | NotFound b1, NotFound b2 => b1 = b2
  | _, _ => False
  end.

#[export] Instance search_reply_equiv_equivalence : Equivalence search_reply_equiv.
Proof.
  split.
  - intros [m n t|b]; simpl; auto.
  - intros [m n t|b] [m' n' t'|b'] H; simpl in *; try done.
    destruct H as (?&?&?). split_and!; by symmetry.
  - intros [m n t|b] [m' n' t'|b'] [m'' n'' t''|b''] H1 H2; simpl in *; try done.
    + destruct H1 as (?&?&?), H2 as (?&?&?). split_and!; by etrans.
    + congruence.
Qed.

(** The scan only depends on the found indices and the scanned rows up
    to their order. *)
Lemma search_core_equiv (df1 df2 : frame) (s1 s2 : list nat) (b : string) :
  found_indices df1 b ≡ₚ found_indices df2 b → s1 ≡ₚ s2 →
  search_reply_equiv (search_core df1 s1 b).1 (search_core df2 s2 b).1 ∧
  (search_core df1 s1 b).2 ≡ₚ (search_core df2 s2 b).2.
Proof.
  intros Hf Hs. unfold search_core.
  destruct (found_indices df1 b) as [|x1 f1] eqn:E1, (found_indices df2 b) as [|x2 f2] eqn:E2;
    rewrite ?E1, ?E2 in Hf.
  - done.
  - by apply Permutation_nil_cons in Hf.
  - symmetry in Hf. by apply Permutation_nil_cons in Hf.
  - destruct (record_scans_spec (x1 :: f1) s1 []) as (a1 & -> & Hnd1 & Hin1).
    destruct (record_scans_spec (x2 :: f2) s2 []) as (a2 & -> & Hnd2 & Hin2).
    assert (a1 ≡ₚ a2) as Ha.
    { apply NoDup_Permutation; [done|done|]. intros i. rewrite Hin1, Hin2, Hf, Hs. done. }
    simpl. split_and!; [done|done| |]; [apply Permutation_length|]; by rewrite Ha, Hs.
Qed.

(** ** The order of the matches *)

(** C30: the two variants walk the columns in different orders.
    [App.py] searches the sheet itself, column after column in the
    sheet's order; the cookie variant searches
    [pd.DataFrame(session['df_data'])], whose records came back from the
    cookie with sorted keys, so its loop takes the same columns in
    sorted order.  [matched_indices] and [new_scanned] therefore list
    the same rows in another order whenever the sheet's columns are not
    sorted. *)
Theorem match_order_differs (df : frame) (b : string) :
  frame_wf df → rows df ≠ [] →
  found_indices (from_records (session_json (to_records df))) b =
    concat (map (λ c, mask_index (eq_mask (astype_str (column df c)) b))
                (merge_sort String.le (columns df))) ∧
  found_indices df b =
    concat (map (λ c, mask_index (eq_mask (astype_str (column df c)) b)) (columns df)).
Proof.
  intros Hwf Hne. destruct (session_json_frame df Hwf) as [Hwf' Heq].
  split; [|apply found_indices_concat].
  assert (rows (from_records (session_json (to_records df))) ≠ []) as Hne'.
  { intros Hr. pose proof (df_len_proper _ _ Heq) as Hl. unfold df_len in Hl.
    apply Hne, nil_length_inv. by rewrite <-Hl, Hr. }
  by rewrite (found_indices_by_columns _ df b Hwf' Hwf Heq Hne'), columns_session_json.
Qed.

(** ** Witnesses *)

(** A sheet whose code column comes second. *)
Definition unsorted_frame : frame :=
  mk_frame ["Descripcion"; "Codigo"] [[CStr "X7"; CStr "A1"]; [CStr "B2"; CStr "X7"]].

Lemma match_order_differs_witness :
  found_indices (from_records (session_json (to_records unsorted_frame))) "X7" =
    concat (map (λ c, mask_index (eq_mask (astype_str (column unsorted_frame c)) "X7"))
                (merge_sort String.le (columns unsorted_frame))) ∧
  found_indices unsorted_frame "X7" =
    concat (map (λ c, mask_index (eq_mask (astype_str (column unsorted_frame c)) "X7"))
                (columns unsorted_frame)).
Proof. apply match_order_differs; [decide_by_eval|discriminate]. Defined.

End Records.
