(* ===== verification/Session.v ===== *)
(** * The session contract both variants implement

    The requests and JSON answers the two variants share, and an
    abstract specification of one client's session (spec sections 3
    and 4): either no session, or a dataset, the list of scanned row
    indices and the file name.  Each operation of the specification is
    what both variants do to their session, without saying where the
    session is kept; [AppFile] proves that [App.py] (pickle files under
    [data/]) implements it exactly, and [AppCookie] that
    [inventory_flask_app.py] (the Flask cookie) implements it up to
    [response_equiv]: the same answers, except that the matched and new
    indices may come in another order and the exported records may
    list their keys in another order. *)

From S2P Require Import Prelude PyStr Frame Matcher Progress Exporter Upload Records.
From stdpp Require Import gmap.

Module Session.
Import PyStr Frame Matcher Progress Exporter Upload Records.

(** ** Requests and replies *)

(** A JSON value of the request body. *)
Inductive json_value :=
  | JString (s : string)
  | JNumber (z : Z)
  | JBool (b : bool)
  | JNull
  | JArray
  | JObject.

(** [request.get_json()]: a JSON object, or [None] for any other body
    (another JSON value, or a body Flask refuses, which raises). *)
Definition search_body := option (gmap string json_value).

(** [data.get('barcode', '').strip()] ([App.py] lines 125-126,
    [inventory_flask_app.py] lines 69-70): [None] when it raises, i.e.
    when [data] is not a dict or the value has no [strip] method. *)
Definition barcode_of (data : search_body) : option string :=
  match data with
  | None => None
  | Some d =>
      match d !! "barcode" with
      | None => Some (strip "")
      | Some (JString s) => Some (strip s)
      | Some _ => None
      end
  end.

(** The five routes; an upload carries the fresh [uuid4] [App.py] would
    draw for a new session. *)
Inductive request :=
  | ReqUpload (fresh_id : string) (r : upload_request)
  | ReqSearch (data : search_body)
  | ReqStats
  | ReqExport
  | ReqReset.

Inductive reply :=
  | RUpload (u : upload_reply)
  | RSearch (r : search_reply)
  | RStats (st : stats)
  | RExport (e : export_body)
  | RReset.

Definition map_response {A B} (f : A → B) (r : response A) : response B :=
  match r with Ok a => Ok (f a) | Fail status kind => Fail status kind end.

(** pandas gives frames with unique column names and full rows. *)
Definition request_ok (rq : request) : Prop :=
  match rq with
  | ReqUpload _ r =>
      match req_file r with
      | Some f => match fs_content f with Workbook df => frame_wf df | Unreadable => True end
      | None => True
      end
  | _ => True
  end.

#[export] Instance request_ok_dec (rq : request) : Decision (request_ok rq).
Proof.
  destruct rq as [fid [[[fn [df|]]|]]| | | |]; simpl; apply _.
Defined.

(** ** Answers up to the order of indices and keys *)

Definition export_equiv (e1 e2 : export_body) : Prop :=
  ex_filename e1 = ex_filename e2 ∧ Forall2 (≡ₚ) (ex_data e1) (ex_data e2) ∧
  ex_summary e1 = ex_summary e2.

Definition reply_equiv (r1 r2 : reply) : Prop :=
  match r1, r2 with
  | RSearch s1, RSearch s2 => search_reply_equiv s1 s2
  | RExport e1, RExport e2 => export_equiv e1 e2
  | _, _ => r1 = r2
  end.

#[export] Instance response_equiv : Equiv (response reply) := λ x y,
  match x, y with
  | Ok r1, Ok r2 => reply_equiv r1 r2
  | _, _ => x = y
  end.

#[export] Instance response_equiv_equivalence : Equivalence (≡@{response reply}).
Proof.
  unfold equiv, response_equiv, reply_equiv, export_equiv. split.
  - intros [[]|]; try done; split_and!; reflexivity.
  - intros [[]|] [[]|] H; try congruence; try by symmetry.
    destruct H as (?&?&?). split_and!; by symmetry.
  - intros [[]|] [[]|] [[]|] H1 H2; try congruence; try by etrans.
    destruct H1 as (?&?&?), H2 as (?&?&?). split_and!; by etrans.
Qed.

Lemma response_equiv_search (r1 r2 : search_reply) :
  search_reply_equiv r1 r2 → Ok (RSearch r1) ≡ Ok (RSearch r2).
Proof. done. Qed.

Lemma response_equiv_export (e1 e2 : export_body) :
  ex_filename e1 = ex_filename e2 → Forall2 (≡ₚ) (ex_data e1) (ex_data e2) →
  ex_summary e1 = ex_summary e2 → Ok (RExport e1) ≡ Ok (RExport e2).
Proof. intros. by split_and!. Qed.

(** ** The abstract session *)

Record asession := mk_asession {
  a_df : frame;
  a_scanned : list nat;
  a_filename : string
}.

(** The spec's invariant (section 3): the dataset has unique column
    names and the scanned indices are distinct row indices. *)
Definition asession_ok (a : asession) : Prop :=
  frame_wf (a_df a) ∧ scanned_ok (df_len (a_df a)) (a_scanned a).

Definition astate_ok (a : option asession) : Prop :=
  match a with Some x => asession_ok x | None => True end.

Section Spec.
Variable secure_filename : string → string.

Definition spec_upload (r : upload_request) (a : option asession)
    : response upload_reply * option asession :=
  match check_upload r with
  | UploadRejected status kind => (Fail status kind, a)
  | UploadAccepted f =>
      let filename := secure_filename (fs_filename f) in
      if decide (filename = "") then (Fail 500 ErrProcessFile, a) else
      match fs_content f with
      | Unreadable => (Fail 500 ErrProcessFile, a)
      | Workbook df => (Ok (upload_reply_app df), Some (mk_asession df [] filename))
      end
  end.

Definition spec_search (data : search_body) (a : option asession)
    : response search_reply * option asession :=
  match barcode_of data with
  | None => (Fail 500 ErrSearch, a)
  | Some barcode =>
      if decide (barcode = "") then (Fail 400 ErrEmptyBarcode, a) else
      match a with
      | None => (Fail 400 ErrNoData, None)
      | Some x =>
          let '(r, scanned') := search_core (a_df x) (a_scanned x) barcode in
          (Ok r, Some (mk_asession (a_df x) scanned' (a_filename x)))
      end
  end.

Definition spec_stats (a : option asession) : response stats :=
  match a with
  | None => Fail 400 ErrNoData
  | Some x => stats_of (Z.of_nat (df_len (a_df x))) (Z.of_nat (length (a_scanned x)))
  end.

Definition spec_export (a : option asession) : response export_body :=
  match a with
  | None => Fail 400 ErrNoData
  | Some x => Ok (export_core (a_filename x) (a_df x) (a_scanned x))
  end.

Definition spec_handle (rq : request) (a : option asession) : response reply * option asession :=
  match rq with
  | ReqUpload _ r => let '(resp, a') := spec_upload r a in (map_response RUpload resp, a')
  | ReqSearch data => let '(resp, a') := spec_search data a in (map_response RSearch resp, a')
  | ReqStats => (map_response RStats (spec_stats a), a)
  | ReqExport => (map_response RExport (spec_export a), a)
  | ReqReset => (Ok RReset, None)
  end.

(** The answers to a sequence of requests. *)
Fixpoint spec_run (rqs : list request) (a : option asession) : list (response reply) :=
  match rqs with
  | [] => []
  | rq :: rqs' => (spec_handle rq a).1 :: spec_run rqs' (spec_handle rq a).2
  end.

(** ** The specification keeps its invariant *)

Lemma check_upload_file (r : upload_request) (f : file_storage) :
  check_upload r = UploadAccepted f → req_file r = Some f.
Proof.
  unfold check_upload. destruct (req_file r); [|done].
  case_decide; [done|]. by destruct (allowed_file _); [intros [= ->]|].
Qed.

Lemma search_core_not_found_same (df : frame) (s s' : list nat) (b b' : string) :
  search_core df s b = (NotFound b', s') → s' = s.
Proof.
  unfold search_core. destruct (found_indices df b); [by intros [= _ <-]|].
  by destruct (record_scans _ _ _).
Qed.

Lemma spec_handle_ok (rq : request) (a : option asession) :
  request_ok rq → astate_ok a → astate_ok (spec_handle rq a).2.
Proof.
  intros Hrq Ha. destruct rq as [fid r|data| | |]; simpl; [| |done|done|done].
  - unfold spec_upload. destruct (check_upload r) as [|f] eqn:Hc; [done|].
    simpl in Hrq. rewrite (check_upload_file r f Hc) in Hrq.
    case_decide; [done|]. destruct (fs_content f); [|done].
    split; [done|]. split; constructor.
  - unfold spec_search. destruct (barcode_of data); [|done]. case_decide; [done|].
    destruct a as [x|]; [|done]. destruct Ha as [Hwf Hs].
    pose proof (search_core_scanned_inv (a_df x) (a_scanned x) s Hwf Hs) as Hok.
    destruct (search_core _ _ _). by split.
Qed.

End Spec.

End Session.
