(* ===== verification/Store.v ===== *)
(** * Session store of [App.py]: the pickle files under [data/]

    [App.py] lines 26-62 keep each session's data in the file
    [data/session_<id>.pkl]:
    - [get_session_data_path(session_id)] builds the path;
    - [save_session_data] pickles the data, [True] or [False] on an
      exception;
    - [load_session_data] unpickles it, [None] when the file is missing
      or unreadable;
    - [cleanup_session_data] removes it, [True] or [False] on an
      exception.
    The handlers of [AppFile] use the store only through the class
    [SessionStore] and its laws [SessionStoreLaws]; [disk] is the
    implementation, a map from paths to file contents with a flag for
    a disk that refuses writes. *)

From S2P Require Import Prelude PyStr Frame.
From stdpp Require Import gmap.

Module Store.
Import PyStr Frame.

(** [{'df': df, 'scanned_items': [...], 'filename': filename}] *)
Record session_data := mk_session_data {
  sd_df : frame;
  sd_scanned : list nat;
  sd_filename : string
}.

(** ** The interface *)
Class SessionStore (St : Type) := {
  save_session_data : string → session_data → St → bool * St;
  load_session_data : string → St → option session_data;
  cleanup_session_data : string → St → bool * St
}.

(** What the handlers rely on: a successful save is read back, a failed
    save changes nothing, a successful cleanup removes the data, and an
    operation on one session id leaves every other id alone. *)
Class SessionStoreLaws (St : Type) `{SessionStore St} := {
  load_save_same sid d st st' :
    save_session_data sid d st = (true, st') → load_session_data sid st' = Some d;
  load_save_failed sid d st st' :
    save_session_data sid d st = (false, st') → st' = st;
  load_save_other sid sid' d st b st' :
    save_session_data sid d st = (b, st') → sid' ≠ sid →
    load_session_data sid' st' = load_session_data sid' st;
  load_cleanup_same sid st st' :
    cleanup_session_data sid st = (true, st') → load_session_data sid st' = None;
  load_cleanup_failed sid st st' :
    cleanup_session_data sid st = (false, st') → st' = st;
  load_cleanup_other sid sid' st b st' :
    cleanup_session_data sid st = (b, st') → sid' ≠ sid →
    load_session_data sid' st' = load_session_data sid' st
}.

(** ** The implementation: files on disk *)

(** A file's contents: a pickled session, or bytes [pickle.load]
    cannot read. *)
Inductive blob :=
  | Pickled (d : session_data)
  | Corrupt.

Record disk := mk_disk {
  disk_files : gmap string blob;
  disk_writable : bool
}.

Definition DATA_FOLDER : string := "data".

(** [os.path.join(DATA_FOLDER, f'session_{session_id}.pkl')] *)
Definition get_session_data_path (session_id : string) : string :=
  DATA_FOLDER +:+ "/" +:+ "session_" +:+ session_id +:+ ".pkl".

(** [open(filepath, 'wb')] and [pickle.dump]: on a disk that refuses
    writes [open] raises and the function returns [False]. *)
Definition disk_save (session_id : string) (data : session_data) (d : disk) : bool * disk :=
  if disk_writable d then
    (true, mk_disk (<[get_session_data_path session_id := Pickled data]> (disk_files d)) true)
  else (false, d).

(** [if os.path.exists(filepath): return pickle.load(f)]; [None] when
    the file is missing or [pickle.load] raises. *)
Definition disk_load (session_id : string) (d : disk) : option session_data :=
  match disk_files d !! get_session_data_path session_id with
  | Some (Pickled data) => Some data
  | _ => None
  end.

(** [if os.path.exists(filepath): os.remove(filepath)]; [True] when
    there is nothing to remove, [False] when [os.remove] raises. *)
Definition disk_cleanup (session_id : string) (d : disk) : bool * disk :=
  match disk_files d !! get_session_data_path session_id with
  | None => (true, d)
  | Some _ =>
      if disk_writable d then
        (true, mk_disk (delete (get_session_data_path session_id) (disk_files d)) true)
      else (false, d)
  end.

#[export] Instance disk_store : SessionStore disk := {
  save_session_data := disk_save;
  load_session_data := disk_load;
  cleanup_session_data := disk_cleanup
}.

(** ** Lemmas *)

Lemma session_path_inj (sid1 sid2 : string) :
  get_session_data_path sid1 = get_session_data_path sid2 → sid1 = sid2.
Proof.
  unfold get_session_data_path. intros H%(f_equal chars).
  rewrite !chars_app in H. apply app_inv_head in H. apply app_inv_head in H.
  apply app_inv_head in H. apply app_inv_tail in H. by apply chars_inj.
Qed.

Lemma path_ne (sid sid' : string) :
  sid' ≠ sid → get_session_data_path sid ≠ get_session_data_path sid'.
Proof. intros Hne Heq. by apply Hne, eq_sym, session_path_inj. Qed.

(** Two different session ids never share a data file. *)
Theorem get_session_data_path_inj (sid1 sid2 : string) :
  get_session_data_path sid1 = get_session_data_path sid2 → sid1 = sid2.
Proof. apply session_path_inj. Qed.

Lemma get_session_data_path_inj_witness : "abc" = "abc".
Proof. apply get_session_data_path_inj. reflexivity. Defined.

#[export] Instance disk_store_laws : SessionStoreLaws disk.
Proof.
  split; simpl.
  - intros sid d st st'. unfold disk_save, disk_load.
    destruct (disk_writable st); intros [= <-]. simpl. by rewrite lookup_insert_eq.
  - intros sid d st st'. unfold disk_save. by destruct (disk_writable st); intros [=].
  - intros sid sid' d st b st' Hs Hne. unfold disk_save, disk_load in *.
    destruct (disk_writable st); injection Hs as <- <-; [|done]. simpl.
    by rewrite lookup_insert_ne by by apply path_ne.
  - intros sid st st'. unfold disk_cleanup, disk_load.
    destruct (disk_files st !! _) eqn:E; [|by intros [= <-]; rewrite E].
    destruct (disk_writable st); intros [= <-]. simpl. by rewrite lookup_delete_eq.
  - intros sid st st'. unfold disk_cleanup.
    destruct (disk_files st !! _); [|by intros [=]]. by destruct (disk_writable st); intros [=].
  - intros sid sid' st b st' Hc Hne. unfold disk_cleanup, disk_load in *.
    destruct (disk_files st !! _); [|by injection Hc as _ <-].
    destruct (disk_writable st); injection Hc as _ <-; [|done]. simpl.
    by rewrite lookup_delete_ne by by apply path_ne.
Qed.

End Store.
