(* ===== verification/AppFile.v ===== *)
(** * The handlers of [App.py]

    One client's view of the server: its Flask session cookie, the
    session store (through [Store.SessionStore]) and the [uploads/]
    folder.  Each handler is a function from the request and the state
    to the JSON response and the next state, following its lines:
    [upload_file] (68-120), [search_barcode] (122-180), [get_stats]
    (182-206), [export_results] (208-239), [reset_session] (241-252).
    [secure_filename] (werkzeug) is a parameter, and the fresh
    [str(uuid.uuid4())] is part of the upload request.  Flask sends the
    cookie back with every response, error responses included, so the
    cookie a handler writes before failing is kept. *)

From S2P Require Import Prelude PyStr Frame Matcher Progress Exporter Upload Session Store.
From stdpp Require Import gmap.

Module AppFile.
#[local] Unset Default Proof Using.
Import PyStr Frame Matcher Progress Exporter Upload Session Store.

(** The keys [App.py] writes into [session]; [has_data] is read with
    [session.get], so a missing key is [False]. *)
Record cookie := mk_cookie {
  ck_session_id : option string;
  ck_has_data : bool;
  ck_records_count : option nat;
  ck_filename : option string
}.

(** [session.clear()] *)
Definition empty_cookie : cookie := mk_cookie None false None None.

Record server (St : Type) := mk_server {
  sv_cookie : cookie;
  sv_store : St;
  sv_uploads : gset string
}.
Arguments mk_server {St}.
Arguments sv_cookie {St}.
Arguments sv_store {St}.
Arguments sv_uploads {St}.

Definition UPLOAD_FOLDER : string := "uploads".

Section Handlers.
Context {St : Type} `{SessionStore St}.
Variable secure_filename : string → string.

Definition with_store (s : server St) (st : St) : server St :=
  mk_server (sv_cookie s) st (sv_uploads s).

(** Lines 68-120. *)
Definition upload_file (fresh_id : string) (req : upload_request) (s : server St)
    : response upload_reply * server St :=
  match check_upload req with
  | UploadRejected status kind => (Fail status kind, s)
  | UploadAccepted f =>
      let filename := secure_filename (fs_filename f) in
      (* [file.save('uploads/')] raises on the folder itself *)
      if decide (filename = "") then (Fail 500 ErrProcessFile, s) else
      let filepath := UPLOAD_FOLDER +:+ "/" +:+ filename in
      let uploads1 := {[filepath]} ∪ sv_uploads s in
      match fs_content f with
      | Unreadable => (Fail 500 ErrProcessFile, mk_server (sv_cookie s) (sv_store s) uploads1)
      | Workbook df =>
          let sid := default fresh_id (ck_session_id (sv_cookie s)) in
          let c := sv_cookie s in
          let c1 := mk_cookie (Some sid) (ck_has_data c) (ck_records_count c) (ck_filename c) in
          match save_session_data sid (mk_session_data df [] filename) (sv_store s) with
          | (true, st') =>
              (Ok (upload_reply_app df),
               mk_server (mk_cookie (Some sid) true (Some (df_len df)) (Some filename))
                         st' (uploads1 ∖ {[filepath]}))
          | (false, st') => (Fail 500 ErrSaveData, mk_server c1 st' uploads1)
          end
      end
  end.

(** [if not session.get('has_data') or 'session_id' not in session] and
    [load_session_data]: the loaded session or the error response. *)
Definition load_current (s : server St) : response (string * session_data) :=
  match ck_session_id (sv_cookie s) with
  | Some sid =>
      if ck_has_data (sv_cookie s) then
        match load_session_data sid (sv_store s) with
        | Some d => Ok (sid, d)
        | None => Fail 500 ErrLoadData
        end
      else Fail 400 ErrNoData
  | None => Fail 400 ErrNoData
  end.

(** Lines 122-180.  The result of the second [save_session_data] is
    ignored (line 162). *)
Definition search_barcode (data : search_body) (s : server St)
    : response search_reply * server St :=
  match barcode_of data with
  | None => (Fail 500 ErrSearch, s)
  | Some barcode =>
      if decide (barcode = "") then (Fail 400 ErrEmptyBarcode, s) else
      match load_current s with
      | Fail status kind => (Fail status kind, s)
      | Ok (sid, d) =>
          match search_core (sd_df d) (sd_scanned d) barcode with
          | (NotFound b, _) => (Ok (NotFound b), s)
          | (reply, scanned') =>
              let d' := mk_session_data (sd_df d) scanned' (sd_filename d) in
              (Ok reply, with_store s (save_session_data sid d' (sv_store s)).2)
          end
      end
  end.

(** Lines 182-206. *)
Definition get_stats (s : server St) : response stats * server St :=
  match load_current s with
  | Fail status kind => (Fail status kind, s)
  | Ok (_, d) =>
      (stats_of (Z.of_nat (df_len (sd_df d))) (Z.of_nat (length (sd_scanned d))), s)
  end.

(** Lines 208-239. *)
Definition export_results (s : server St) : response export_body * server St :=
  match load_current s with
  | Fail status kind => (Fail status kind, s)
  | Ok (_, d) => (Ok (export_core (sd_filename d) (sd_df d) (sd_scanned d)), s)
  end.

(** Lines 241-252: the result of [cleanup_session_data] is ignored. *)
Definition reset_session (s : server St) : response unit * server St :=
  let st' := match ck_session_id (sv_cookie s) with
             | Some sid => (cleanup_session_data sid (sv_store s)).2
             | None => sv_store s
             end in
  (Ok tt, mk_server empty_cookie st' (sv_uploads s)).

End Handlers.

(** ** The server as a state machine *)

Section Server.
Context {St : Type} `{SessionStore St}.
Variable secure_filename : string → string.

Definition handle (rq : request) (s : server St) : response reply * server St :=
  match rq with
  | ReqUpload fid r =>
      let '(resp, s') := upload_file secure_filename fid r s in (map_response RUpload resp, s')
  | ReqSearch data =>
      let '(resp, s') := search_barcode data s in (map_response RSearch resp, s')
  | ReqStats => let '(resp, s') := get_stats s in (map_response RStats resp, s')
  | ReqExport => let '(resp, s') := export_results s in (map_response RExport resp, s')
  | ReqReset => let '(resp, s') := reset_session s in (map_response (λ _, RReset) resp, s')
  end.

(** The answers to a sequence of requests. *)
Fixpoint run (rqs : list request) (s : server St) : list (response reply) :=
  match rqs with
  | [] => []
  | rq :: rqs' => (handle rq s).1 :: run rqs' (handle rq s).2
  end.

Inductive step : server St → server St → Prop :=
  | step_handle rq s : request_ok rq → step s (handle rq s).2.

Definition reachable (init s : server St) : Prop := rtc step init s.

End Server.

(** ** Invariant of the server *)

Section Invariant.
Context {St : Type} `{SessionStoreLaws St}.
Variable secure_filename : string → string.

Definition session_ok (d : session_data) : Prop :=
  frame_wf (sd_df d) ∧ scanned_ok (df_len (sd_df d)) (sd_scanned d).

(** Every stored session holds a well-formed frame and a scanned list of
    distinct row indices of it. *)
Definition store_inv (st : St) : Prop :=
  ∀ sid d, load_session_data sid st = Some d → session_ok d.

(** A cookie with [has_data] names a session, and its [records_count]
    and [filename] are those of the stored data. *)
Definition cookie_inv (s : server St) : Prop :=
  ck_has_data (sv_cookie s) = true →
  ∃ sid, ck_session_id (sv_cookie s) = Some sid ∧
    ∀ d, load_session_data sid (sv_store s) = Some d →
      ck_records_count (sv_cookie s) = Some (df_len (sd_df d)) ∧
      ck_filename (sv_cookie s) = Some (sd_filename d).

Definition server_inv (s : server St) : Prop := store_inv (sv_store s) ∧ cookie_inv s.

Lemma save_store_inv (sid : string) (d : session_data) (st : St) :
  store_inv st → session_ok d → store_inv (save_session_data sid d st).2.
Proof.
  intros Hinv Hd sid' d'. destruct (save_session_data sid d st) as [b st'] eqn:E. simpl.
  destruct (decide (sid' = sid)) as [->|Hne].
  - destruct b.
    + rewrite (load_save_same _ _ _ _ E). by intros [= <-].
    + rewrite (load_save_failed _ _ _ _ E). apply Hinv.
  - rewrite (load_save_other _ _ _ _ _ _ E Hne). apply Hinv.
Qed.

Lemma cleanup_store_inv (sid : string) (st : St) :
  store_inv st → store_inv (cleanup_session_data sid st).2.
Proof.
  intros Hinv sid' d'. destruct (cleanup_session_data sid st) as [b st'] eqn:E. simpl.
  destruct (decide (sid' = sid)) as [->|Hne].
  - destruct b; [by rewrite (load_cleanup_same _ _ _ E)|].
    rewrite (load_cleanup_failed _ _ _ E). apply Hinv.
  - rewrite (load_cleanup_other _ _ _ _ _ E Hne). apply Hinv.
Qed.

Lemma load_current_Ok (s : server St) (sid : string) (d : session_data) :
  load_current s = Ok (sid, d) →
  ck_session_id (sv_cookie s) = Some sid ∧ ck_has_data (sv_cookie s) = true ∧
  load_session_data sid (sv_store s) = Some d.
Proof.
  unfold load_current. destruct (ck_session_id _) as [sid0|]; [|done].
  destruct (ck_has_data _); [|done].
  destruct (load_session_data sid0 _) eqn:E; [|done]. by intros [= <- <-].
Qed.

(** Saving new scans of the current session keeps the cookie right: the
    frame and the file name do not change. *)
Lemma save_cookie_inv (s : server St) (sid : string) (d d' : session_data) :
  cookie_inv s → load_session_data sid (sv_store s) = Some d →
  sd_df d' = sd_df d → sd_filename d' = sd_filename d →
  cookie_inv (with_store s (save_session_data sid d' (sv_store s)).2).
Proof.
  intros Hci Hd Hdf Hfn Hhd. destruct (Hci Hhd) as (sid0 & Hsid0 & Hload).
  exists sid0. split; [done|]. simpl.
  destruct (save_session_data sid d' (sv_store s)) as [b st'] eqn:E. simpl.
  intros d1 Hd1. destruct (decide (sid0 = sid)) as [->|Hne].
  - destruct b.
    + rewrite (load_save_same _ _ _ _ E) in Hd1. injection Hd1 as <-.
      rewrite Hdf, Hfn. by apply Hload.
    + rewrite (load_save_failed _ _ _ _ E) in Hd1. by apply Hload.
  - rewrite (load_save_other _ _ _ _ _ _ E Hne) in Hd1. by apply Hload.
Qed.

Lemma upload_file_inv (fid : string) (r : upload_request) (s : server St) :
  request_ok (ReqUpload fid r) → server_inv s →
  server_inv (upload_file secure_filename fid r s).2.
Proof.
  intros Hok [Hst Hci]. unfold upload_file.
  destruct (check_upload r) as [status kind|f] eqn:Hchk; [done|].
  assert (req_file r = Some f) as Hf.
  { unfold check_upload in Hchk. destruct (req_file r); [|done].
    case_decide; [done|]. by destruct (allowed_file _); [injection Hchk as ->|]. }
  simpl in Hok. rewrite Hf in Hok.
  case_decide; [done|]. destruct (fs_content f) as [df|]; [|done].
  set (sid := default fid (ck_session_id (sv_cookie s))).
  destruct (save_session_data sid _ (sv_store s)) as [[] st'] eqn:E.
  - split.
    + simpl. replace st' with (save_session_data sid
          (mk_session_data df [] (secure_filename (fs_filename f))) (sv_store s)).2
        by (by rewrite E).
      apply save_store_inv; [done|]. split; [done|]. split; constructor.
    + intros _. exists sid. simpl. split; [done|]. intros d Hd.
      rewrite (load_save_same _ _ _ _ E) in Hd. by injection Hd as <-.
  - simpl. rewrite (load_save_failed _ _ _ _ E). split; [done|].
    intros Hhd. simpl in Hhd. destruct (Hci Hhd) as (sid0 & Hsid0 & Hload).
    exists sid0. simpl. split; [unfold sid; by rewrite Hsid0|done].
Qed.

Lemma search_barcode_inv (data : search_body) (s : server St) :
  server_inv s → server_inv (search_barcode data s).2.
Proof.
  intros [Hst Hci]. unfold search_barcode.
  destruct (barcode_of data) as [b|]; [|done]. case_decide; [done|].
  destruct (load_current s) as [[sid d]|status kind] eqn:Hl; [|done].
  apply load_current_Ok in Hl as (Hsid & Hhd & Hd).
  destruct (search_core (sd_df d) (sd_scanned d) b) as [[m news t|b'] scanned'] eqn:Hs;
    [|done].
  split.
  - simpl. apply save_store_inv; [done|]. destruct (Hst sid d Hd) as [Hwf Hok].
    split; [done|]. simpl.
    replace scanned' with (search_core (sd_df d) (sd_scanned d) b).2 by (by rewrite Hs).
    by apply search_core_scanned_inv.
  - by apply (save_cookie_inv s sid d).
Qed.

Lemma reset_session_inv (s : server St) :
  server_inv s → server_inv (reset_session s).2.
Proof.
  intros [Hst _]. split; [|by intros Hhd]. simpl.
  destruct (ck_session_id (sv_cookie s)); [by apply cleanup_store_inv|done].
Qed.

Lemma handle_inv (rq : request) (s : server St) :
  request_ok rq → server_inv s → server_inv (handle secure_filename rq s).2.
Proof.
  intros Hok Hinv. destruct rq as [fid r|data| | |]; unfold handle.
  - pose proof (upload_file_inv fid r s Hok Hinv). by destruct (upload_file _ _ _ _).
  - pose proof (search_barcode_inv data s Hinv). by destruct (search_barcode _ _).
  - unfold get_stats. by destruct (load_current s) as [[]|].
  - unfold export_results. by destruct (load_current s) as [[]|].
  - pose proof (reset_session_inv s Hinv). by destruct (reset_session s).
Qed.

(** C10: in every state the server reaches from a consistent start,
    whatever well-formed requests arrive and whatever the store answers, every
    stored session holds a well-formed frame and a duplicate-free list
    of its row indices, and the cookie's [records_count] and [filename]
    are those of the session it names. *)
Theorem reachable_server_inv (init s : server St) :
  server_inv init → reachable secure_filename init s → server_inv s.
Proof.
  intros Hinit Hr. induction Hr as [|s1 s2 s3 Hstep _ IH]; [done|].
  apply IH. destruct Hstep as [rq s1 Hok]. by apply handle_inv.
Qed.

End Invariant.

(** ** [App.py] implements the session contract *)

Section Refinement.
Context {St : Type} `{SessionStoreLaws St}.
Variable secure_filename : string → string.

(** The abstract session a server state stands for: none when the
    cookie has no [has_data], otherwise the data stored under the
    cookie's session id. *)
Definition file_rel (a : option asession) (s : server St) : Prop :=
  match a with
  | None => ck_has_data (sv_cookie s) = false
  | Some x =>
      ∃ sid, ck_session_id (sv_cookie s) = Some sid ∧ ck_has_data (sv_cookie s) = true ∧
        load_session_data sid (sv_store s) =
          Some (mk_session_data (a_df x) (a_scanned x) (a_filename x))
  end.

(** The store accepts every write. *)
Definition saves_ok (st : St) : Prop := ∀ sid d, (save_session_data sid d st).1 = true.

Lemma load_current_rel (a : option asession) (s : server St) :
  file_rel a s →
  match a with
  | None => load_current s = Fail 400 ErrNoData
  | Some x => ∃ sid, ck_session_id (sv_cookie s) = Some sid ∧
      load_current s = Ok (sid, mk_session_data (a_df x) (a_scanned x) (a_filename x))
  end.
Proof.
  destruct a as [x|]; simpl.
  - intros (sid & Hs & Hd & Hl). exists sid. unfold load_current. by rewrite Hs, Hd, Hl.
  - intros Hd. unfold load_current. rewrite Hd. by destruct (ck_session_id _).
Qed.

Lemma save_accepted (st : St) (sid : string) (d : session_data) :
  saves_ok st → ∃ st', save_session_data sid d st = (true, st') ∧ load_session_data sid st' = Some d.
Proof.
  intros Hok. specialize (Hok sid d).
  destruct (save_session_data sid d st) as [[] st'] eqn:E; [|done].
  exists st'. split; [done|]. by eapply load_save_same.
Qed.

Lemma upload_refines (fid : string) (r : upload_request) (a : option asession) (s : server St) :
  file_rel a s → saves_ok (sv_store s) →
  (upload_file secure_filename fid r s).1 = (spec_upload secure_filename r a).1 ∧
  file_rel (spec_upload secure_filename r a).2 (upload_file secure_filename fid r s).2.
Proof.
  intros Hrel Hok. unfold upload_file, spec_upload.
  destruct (check_upload r) as [status kind|f]; [done|].
  case_decide; [done|]. destruct (fs_content f) as [df|]; [|done].
  destruct (save_accepted (sv_store s) (default fid (ck_session_id (sv_cookie s)))
    (mk_session_data df [] (secure_filename (fs_filename f))) Hok) as (st' & -> & Hl).
  split; [done|]. eexists. split_and!; [done|done|exact Hl].
Qed.

Lemma search_refines (data : search_body) (a : option asession) (s : server St) :
  file_rel a s → saves_ok (sv_store s) →
  (search_barcode data s).1 = (spec_search data a).1 ∧
  file_rel (spec_search data a).2 (search_barcode data s).2.
Proof.
  intros Hrel Hok. unfold search_barcode, spec_search.
  destruct (barcode_of data) as [b|]; [|done]. case_decide; [done|].
  pose proof (load_current_rel a s Hrel) as Hl. destruct a as [x|]; [|by rewrite Hl].
  destruct Hl as (sid & Hsid & ->). cbn [sd_df sd_scanned sd_filename].
  destruct (search_core (a_df x) (a_scanned x) b) as [[m n t|b'] sc] eqn:Hs.
  - destruct (save_accepted (sv_store s) sid (mk_session_data (a_df x) sc (a_filename x)) Hok)
      as (st' & -> & Hld).
    split; [done|]. destruct Hrel as (sid0 & Hsid0 & Hhd & _). exists sid.
    split_and!; [done|done|exact Hld].
  - apply search_core_not_found_same in Hs as ->. by split.
Qed.

(** One request at a time, [App.py] does what the session contract
    does: when the store accepts the writes, the answer is the
    contract's answer and the new state stands for the contract's new
    session. *)
Lemma handle_refines_step (rq : request) (a : option asession) (s : server St) :
  file_rel a s → saves_ok (sv_store s) →
  (handle secure_filename rq s).1 = (spec_handle secure_filename rq a).1 ∧
  file_rel (spec_handle secure_filename rq a).2 (handle secure_filename rq s).2.
Proof.
  intros Hrel Hok. destruct rq as [fid r|data| | |]; unfold handle, spec_handle.
  - destruct (upload_refines fid r a s Hrel Hok) as [E1 E2].
    destruct (upload_file _ _ _ _), (spec_upload _ _ _). simpl in *. by subst.
  - destruct (search_refines data a s Hrel Hok) as [E1 E2].
    destruct (search_barcode _ _), (spec_search _ _). simpl in *. by subst.
  - pose proof (load_current_rel a s Hrel) as Hl. unfold get_stats.
    destruct a as [x|]; [destruct Hl as (sid & _ & ->)|rewrite Hl]; by split.
  - pose proof (load_current_rel a s Hrel) as Hl. unfold export_results.
    destruct a as [x|]; [destruct Hl as (sid & _ & ->)|rewrite Hl]; by split.
  - by split.
Qed.

End Refinement.

(** ** On a disk that accepts every write, [App.py] is the contract *)

Section Disk.
Variable secure_filename : string → string.

Lemma disk_saves_ok (st : disk) : disk_writable st = true → saves_ok st.
Proof. intros Hw sid d. simpl. unfold disk_save. by rewrite Hw. Qed.

Lemma disk_save_writable (sid : string) (d : session_data) (st : disk) :
  disk_writable (disk_save sid d st).2 = disk_writable st.
Proof. unfold disk_save. by destruct (disk_writable st) eqn:E. Qed.

Lemma disk_cleanup_writable (sid : string) (st : disk) :
  disk_writable (disk_cleanup sid st).2 = disk_writable st.
Proof.
  unfold disk_cleanup. destruct (disk_files st !! _); [|done].
  by destruct (disk_writable st) eqn:E.
Qed.

Lemma upload_writable (fid : string) (r : upload_request) (s : server disk) :
  disk_writable (sv_store (upload_file secure_filename fid r s).2) = disk_writable (sv_store s).
Proof.
  unfold upload_file. destruct (check_upload r); [done|]. case_decide; [done|].
  destruct (fs_content f); [|done]. simpl.
  destruct (disk_save _ _ _) as [b st'] eqn:E.
  pose proof (f_equal (λ p, disk_writable p.2) E) as Hw. simpl in Hw.
  rewrite disk_save_writable in Hw. by destruct b.
Qed.

Lemma handle_writable (rq : request) (s : server disk) :
  disk_writable (sv_store (handle secure_filename rq s).2) = disk_writable (sv_store s).
Proof.
  destruct rq as [fid r|data| | |]; unfold handle.
  - pose proof (upload_writable fid r s). by destruct (upload_file _ _ _ _).
  - unfold search_barcode. destruct (barcode_of data); [|done]. case_decide; [done|].
    destruct (load_current s) as [[sid d]|]; [|done].
    destruct (search_core _ _ _) as [[]]; [|done]. apply disk_save_writable.
  - unfold get_stats. by destruct (load_current s) as [[]|].
  - unfold export_results. by destruct (load_current s) as [[]|].
  - simpl. destruct (ck_session_id (sv_cookie s)); [|done]. apply disk_cleanup_writable.
Qed.

(** C1: on a disk that accepts writes, [App.py] answers every sequence
    of requests exactly as the session contract does, from any state
    that stands for the contract's session. *)
Theorem app_file_implements_spec (rqs : list request) (a : option asession) (s : server disk) :
  disk_writable (sv_store s) = true → file_rel a s →
  run secure_filename rqs s = spec_run secure_filename rqs a.
Proof.
  revert a s. induction rqs as [|rq rqs IH]; intros a s Hw Hrel; [done|]. simpl.
  destruct (handle_refines_step secure_filename rq a s Hrel (disk_saves_ok _ Hw)) as [E1 E2].
  rewrite E1. f_equal. apply IH; [by rewrite handle_writable|done].
Qed.

End Disk.

(** ** Behaviour of the handlers *)

Section Behaviour.
Context {St : Type} `{SessionStoreLaws St}.
Variable secure_filename : string → string.

(** C25: after [/reset], [/stats] and [/export] answer "no data loaded"
    (status 400) instead of stale numbers (spec section 8). *)
Theorem reset_then_no_data (s : server St) :
  (get_stats (reset_session s).2).1 = Fail 400 ErrNoData ∧
  (export_results (reset_session s).2).1 = Fail 400 ErrNoData.
Proof. done. Qed.

(** A barcode that is missing or made only of whitespace is
    refused with status 400 before anything is loaded. *)
Theorem search_blank_barcode (m : gmap string json_value) (raw : string) (s : server St) :
  m !! "barcode" = Some (JString raw) → all_spaces (chars raw) →
  search_barcode (Some m) s = (Fail 400 ErrEmptyBarcode, s).
Proof.
  intros Hb Hsp. unfold search_barcode, barcode_of. rewrite Hb.
  by rewrite decide_True by (by apply strip_empty_iff).
Qed.

Lemma search_missing_barcode (m : gmap string json_value) (s : server St) :
  m !! "barcode" = None → search_barcode (Some m) s = (Fail 400 ErrEmptyBarcode, s).
Proof. intros Hb. unfold search_barcode, barcode_of. by rewrite Hb. Qed.

(** A barcode sent as a JSON number (or any non-string) makes
    [.strip()] raise, and the answer is the generic 500 error. *)
Theorem search_number_barcode (m : gmap string json_value) (z : Z) (s : server St) :
  m !! "barcode" = Some (JNumber z) →
  search_barcode (Some m) s = (Fail 500 ErrSearch, s).
Proof. intros Hb. unfold search_barcode, barcode_of. by rewrite Hb. Qed.

(** A real barcode with no data loaded in the session is refused
    with status 400 and nothing changes. *)
Theorem search_needs_data (m : gmap string json_value) (raw : string) (s : server St) :
  m !! "barcode" = Some (JString raw) → strip raw ≠ "" →
  ck_has_data (sv_cookie s) = false →
  search_barcode (Some m) s = (Fail 400 ErrNoData, s).
Proof.
  intros Hb Hne Hhd. unfold search_barcode, barcode_of. rewrite Hb.
  rewrite decide_False by done. unfold load_current. rewrite Hhd.
  by destruct (ck_session_id (sv_cookie s)).
Qed.

(** The session ids a request can write: the cookie's, and the fresh id
    of an upload. *)
Definition touched_ids (rq : request) (s : server St) : list string :=
  match ck_session_id (sv_cookie s) with Some sid => [sid] | None => [] end ++
  match rq with ReqUpload fid _ => [fid] | _ => [] end.

Lemma save_other_snd (sid sid' : string) (d : session_data) (st : St) :
  sid' ≠ sid →
  load_session_data sid' (save_session_data sid d st).2 = load_session_data sid' st.
Proof.
  intros Hne. destruct (save_session_data sid d st) eqn:E. by eapply load_save_other.
Qed.

(** C11: a request touches no other session's stored data: sessions
    are isolated from each other. *)
Theorem session_isolation (rq : request) (s : server St) (sid' : string) :
  sid' ∉ touched_ids rq s →
  load_session_data sid' (sv_store (handle secure_filename rq s).2) =
  load_session_data sid' (sv_store s).
Proof.
  unfold touched_ids. intros Hsid.
  assert (∀ sid, ck_session_id (sv_cookie s) = Some sid → sid' ≠ sid) as Hcur.
  { intros sid Hs ->. apply Hsid. rewrite Hs. apply elem_of_app. left. left. }
  destruct rq as [fid r|data| | |]; unfold handle.
  - destruct (upload_file secure_filename fid r s) as [resp s'] eqn:E. simpl.
    unfold upload_file in E.
    destruct (check_upload r); [by injection E as _ <-|].
    case_decide; [by injection E as _ <-|].
    destruct (fs_content f); [|by injection E as _ <-].
    destruct (save_session_data _ _ _) as [b st'] eqn:Es.
    assert (sid' ≠ default fid (ck_session_id (sv_cookie s))) as Hne.
    { destruct (ck_session_id (sv_cookie s)) eqn:Hc; simpl; [by apply Hcur|].
      intros ->. apply Hsid. simpl. left. }
    destruct b; injection E as _ <-; simpl; by eapply load_save_other.
  - destruct (search_barcode data s) as [resp s'] eqn:E. simpl. unfold search_barcode in E.
    destruct (barcode_of data); [|by injection E as _ <-].
    case_decide; [by injection E as _ <-|].
    destruct (load_current s) as [[sid d]|] eqn:Hl; [|by injection E as _ <-].
    apply load_current_Ok in Hl as (Hs & _).
    destruct (search_core _ _ _) as [[]]; injection E as _ <-; [|done].
    simpl. by apply save_other_snd, Hcur.
  - unfold get_stats. by destruct (load_current s) as [[]|].
  - unfold export_results. by destruct (load_current s) as [[]|].
  - simpl. destruct (ck_session_id (sv_cookie s)) as [sid|] eqn:Hs; [|done].
    destruct (cleanup_session_data sid (sv_store s)) eqn:E. simpl.
    eapply load_cleanup_other; [done|]. by apply Hcur.
Qed.

End Behaviour.

(** ** What goes wrong when the file system fails *)

Section Failures.
Variable secure_filename : string → string.

(** C27: [search_barcode] ignores the result of [save_session_data]
    (line 162): on a disk that refuses writes, a code that matches is
    answered with the success reply the search computed ([found] with
    the new indices and a grown [total_scanned]) while the server, its
    data file included, is left exactly as it was, so the next [/stats]
    still reports the old number of scanned rows. *)
Theorem search_ignores_failed_save (s : server disk) (data : search_body) (b sid : string)
    (d : session_data) :
  barcode_of data = Some b → b ≠ "" → disk_writable (sv_store s) = false →
  load_current s = Ok (sid, d) → found_indices (sd_df d) b ≠ [] →
  search_barcode data s = (Ok (search_core (sd_df d) (sd_scanned d) b).1, s) ∧
  (∃ m news t, (search_core (sd_df d) (sd_scanned d) b).1 = Found m news t) ∧
  get_stats s = (stats_of (Z.of_nat (df_len (sd_df d))) (Z.of_nat (length (sd_scanned d))), s).
Proof.
  intros Hb Hne Hro Hl Hf. unfold search_barcode, get_stats. rewrite Hb, decide_False, Hl by done.
  unfold search_core. destruct (found_indices (sd_df d) b) as [|x l]; [done|].
  destruct (record_scans (x :: l) (sd_scanned d) []) as [sc' news]. cbn.
  split_and!; [|by eexists _, _, _|done].
  unfold with_store, disk_save. cbn. rewrite Hro. by destruct s.
Qed.

(** C28: when [pd.read_excel] raises, the answer is 500 and the
    uploaded copy saved at [uploads/<name>] stays there: [os.remove] is
    only on the success path. *)
Theorem unreadable_upload_left_behind (fid : string) (r : upload_request)
    (f : file_storage) (s : server disk) :
  check_upload r = UploadAccepted f → fs_content f = Unreadable →
  secure_filename (fs_filename f) ≠ "" →
  upload_file secure_filename fid r s =
    (Fail 500 ErrProcessFile,
     mk_server (sv_cookie s) (sv_store s)
       ({[UPLOAD_FOLDER +:+ "/" +:+ secure_filename (fs_filename f)]} ∪ sv_uploads s)).
Proof.
  intros Hc Hu Hn. unfold upload_file. rewrite Hc, decide_False by done. by rewrite Hu.
Qed.

(** C29: [reset_session] ignores the result of [cleanup_session_data]:
    when the file cannot be removed, the cookie is cleared anyway and
    the session's data stays on disk with no cookie naming it. *)
Theorem reset_orphans_data (s : server disk) (sid : string) (d : session_data) :
  disk_writable (sv_store s) = false → ck_session_id (sv_cookie s) = Some sid →
  disk_load sid (sv_store s) = Some d →
  reset_session s = (Ok tt, mk_server empty_cookie (sv_store s) (sv_uploads s)) ∧
  disk_load sid (sv_store (reset_session s).2) = Some d.
Proof.
  intros Hro Hs Hd. unfold reset_session. rewrite Hs. simpl. unfold disk_cleanup.
  unfold disk_load in *.
  destruct (disk_files (sv_store s) !! get_session_data_path sid) eqn:E; [|done].
  rewrite Hro. simpl. by rewrite E.
Qed.

End Failures.

(** ** Witnesses *)

Definition empty_disk : disk := mk_disk ∅ true.
Definition init_server : server disk := mk_server empty_cookie empty_disk ∅.

(** A [secure_filename] that keeps plain names as they are. *)
Definition keep_name (fn : string) : string := fn.

Definition sample_upload : upload_request :=
  mk_upload_request (Some (mk_file "inventario.xlsx" (Workbook inventory_sample))).

Definition broken_upload : upload_request :=
  mk_upload_request (Some (mk_file "roto.xlsx" Unreadable)).

Definition stored_session : session_data := mk_session_data inventory_sample [] "inventario.xlsx".

Definition readonly_server : server disk :=
  mk_server (mk_cookie (Some "s1") true (Some 4) (Some "inventario.xlsx"))
    (mk_disk {[get_session_data_path "s1" := Pickled stored_session]} false) ∅.

(** Upload a sheet, scan a code, read the progress, export, reset. *)
Definition demo_requests : list request :=
  [ReqUpload "s1" sample_upload; ReqSearch (Some {["barcode" := JString "A100"]});
   ReqStats; ReqExport; ReqReset; ReqStats].

Lemma app_file_implements_spec_witness :
  run keep_name demo_requests init_server = spec_run keep_name demo_requests None.
Proof. apply app_file_implements_spec; reflexivity. Defined.

Lemma init_server_inv : server_inv init_server.
Proof.
  split; [|by intros Hhd]. intros sid d. simpl. unfold disk_load. simpl.
  by rewrite lookup_empty.
Qed.

Lemma reachable_server_inv_witness :
  server_inv (handle keep_name (ReqUpload "s1" sample_upload) init_server).2.
Proof.
  apply (reachable_server_inv keep_name init_server); [apply init_server_inv|].
  apply rtc_once. apply step_handle. simpl. decide_by_eval.
Defined.

Lemma search_blank_barcode_witness :
  search_barcode (Some {["barcode" := JString " 	 "]}) init_server =
    (Fail 400 ErrEmptyBarcode, init_server).
Proof. apply (search_blank_barcode _ " 	 "); [reflexivity|decide_by_eval]. Defined.

Lemma search_number_barcode_witness :
  search_barcode (Some {["barcode" := JNumber 7501234567890]}) init_server =
    (Fail 500 ErrSearch, init_server).
Proof. apply (search_number_barcode _ 7501234567890). reflexivity. Defined.

Lemma search_needs_data_witness :
  search_barcode (Some {["barcode" := JString "A100"]}) init_server =
    (Fail 400 ErrNoData, init_server).
Proof. apply (search_needs_data _ "A100"); [reflexivity|vm_compute; congruence|reflexivity]. Defined.

Lemma session_isolation_witness :
  load_session_data "s2" (sv_store (handle keep_name ReqReset readonly_server).2) =
  load_session_data "s2" (sv_store readonly_server).
Proof. apply session_isolation. decide_by_eval. Defined.

(** The reply counts two scanned rows; [/stats] afterwards still says 0. *)
Lemma search_ignores_failed_save_witness :
  search_barcode (Some {["barcode" := JString "A100"]}) readonly_server =
    (Ok (search_core (sd_df stored_session) (sd_scanned stored_session) "A100").1, readonly_server) ∧
  (∃ m news t, (search_core (sd_df stored_session) (sd_scanned stored_session) "A100").1 = Found m news t) ∧
  get_stats readonly_server =
    (stats_of (Z.of_nat (df_len (sd_df stored_session))) (Z.of_nat (length (sd_scanned stored_session))),
     readonly_server).
Proof.
  apply (search_ignores_failed_save readonly_server (Some {["barcode" := JString "A100"]}) "A100" "s1"
           stored_session); first [reflexivity|discriminate|vm_compute; discriminate].
Defined.

Lemma unreadable_upload_left_behind_witness :
  upload_file keep_name "s9" broken_upload init_server =
    (Fail 500 ErrProcessFile,
     mk_server empty_cookie empty_disk ({[UPLOAD_FOLDER +:+ "/" +:+ "roto.xlsx"]} ∪ ∅)).
Proof.
  apply (unreadable_upload_left_behind keep_name "s9" broken_upload
           (mk_file "roto.xlsx" Unreadable)); [reflexivity|reflexivity|discriminate].
Defined.

Lemma reset_orphans_data_witness :
  reset_session readonly_server =
    (Ok tt, mk_server empty_cookie (sv_store readonly_server) (sv_uploads readonly_server)) ∧
  disk_load "s1" (sv_store (reset_session readonly_server).2) = Some stored_session.
Proof. apply reset_orphans_data; reflexivity. Defined.

End AppFile.
