(* ===== verification/AppCookie.v ===== *)
(** * The handlers of [inventory_flask_app.py]

    The other variant keeps the whole session in Flask's cookie: the
    sheet's records ([df_data]), its column names ([df_columns]), the
    scanned row indices and the file name.  The state is the session as
    the browser holds it and the [uploads/] folder; each handler maps
    the request and the state to the JSON answer and the next state,
    following its lines: [upload_file] (25-64), [search_barcode]
    (66-118), [get_stats] (120-139), [export_results] (141-167),
    [reset_session] (169-175).  When a handler changes the session,
    Flask writes it into the cookie with sorted keys
    ([Records.session_json]), so the next request rebuilds the frame
    with its columns in alphabetical order.

    The theorems: this variant implements the session contract of
    [Session] up to the order of indices and keys, and so the two
    variants answer every sequence of requests alike, except for that
    order, which can differ. *)

From S2P Require Import Prelude PyStr Frame Matcher Progress Exporter Upload Records Session Store AppFile.
From stdpp Require Import gmap sorting.

Module AppCookie.
#[local] Unset Default Proof Using.
Import PyStr Frame Matcher Progress Exporter Upload Records Session Store.

(** The keys the handlers write into [session]. *)
Record session := mk_session {
  ss_df_data : option (list record);
  ss_df_columns : option (list string);
  ss_scanned_items : option (list nat);
  ss_filename : option string
}.

(** [session.clear()] *)
Definition empty_session : session := mk_session None None None None.

Record cserver := mk_cserver {
  cs_session : session;
  cs_uploads : gset string
}.

(** Flask's [save_session] of a modified session: the cookie holds its
    JSON, and the records come back with sorted keys. *)
Definition flask_save (c : session) : session :=
  mk_session (session_json <$> ss_df_data c) (ss_df_columns c) (ss_scanned_items c) (ss_filename c).

Section Handlers.
Variable secure_filename : string → string.

(** Lines 25-64. *)
Definition upload_file (req : upload_request) (s : cserver) : response upload_reply * cserver :=
  match check_upload req with
  | UploadRejected status kind => (Fail status kind, s)
  | UploadAccepted f =>
      let filename := secure_filename (fs_filename f) in
      (* [file.save('uploads/')] raises on the folder itself *)
      if decide (filename = "") then (Fail 500 ErrProcessFile, s) else
      let filepath := AppFile.UPLOAD_FOLDER +:+ "/" +:+ filename in
      let uploads1 := {[filepath]} ∪ cs_uploads s in
      match fs_content f with
      | Unreadable => (Fail 500 ErrProcessFile, mk_cserver (cs_session s) uploads1)
      | Workbook df =>
          (Ok (upload_reply_cookie df),
           mk_cserver (flask_save (mk_session (Some (to_records df)) (Some (columns df))
                                              (Some []) (Some filename)))
                      (uploads1 ∖ {[filepath]}))
      end
  end.

(** Lines 66-118: the frame is [pd.DataFrame(session['df_data'])] and
    the scanned list [session.get('scanned_items', [])]. *)
Definition search_barcode (data : search_body) (s : cserver) : response search_reply * cserver :=
  match barcode_of data with
  | None => (Fail 500 ErrSearch, s)
  | Some barcode =>
      if decide (barcode = "") then (Fail 400 ErrEmptyBarcode, s) else
      let c := cs_session s in
      match ss_df_data c with
      | None => (Fail 400 ErrNoData, s)
      | Some recs =>
          match search_core (from_records recs) (default [] (ss_scanned_items c)) barcode with
          | (NotFound b, _) => (Ok (NotFound b), s)
          | (reply, scanned') =>
              (Ok reply,
               mk_cserver (flask_save (mk_session (ss_df_data c) (ss_df_columns c)
                                                  (Some scanned') (ss_filename c)))
                          (cs_uploads s))
          end
      end
  end.

(** Lines 120-139. *)
Definition get_stats (s : cserver) : response stats :=
  match ss_df_data (cs_session s) with
  | None => Fail 400 ErrNoData
  | Some recs =>
      stats_of (Z.of_nat (length recs))
               (Z.of_nat (length (default [] (ss_scanned_items (cs_session s)))))
  end.

(** Lines 141-167. *)
Definition export_results (s : cserver) : response export_body :=
  match ss_df_data (cs_session s) with
  | None => Fail 400 ErrNoData
  | Some recs =>
      Ok (export_core (default "inventario" (ss_filename (cs_session s))) (from_records recs)
                      (default [] (ss_scanned_items (cs_session s))))
  end.

(** Lines 169-175. *)
Definition reset_session (s : cserver) : response unit * cserver :=
  (Ok tt, mk_cserver empty_session (cs_uploads s)).

Definition handle (rq : request) (s : cserver) : response reply * cserver :=
  match rq with
  | ReqUpload _ r => let '(resp, s') := upload_file r s in (map_response RUpload resp, s')
  | ReqSearch data => let '(resp, s') := search_barcode data s in (map_response RSearch resp, s')
  | ReqStats => (map_response RStats (get_stats s), s)
  | ReqExport => (map_response RExport (export_results s), s)
  | ReqReset => let '(resp, s') := reset_session s in (map_response (λ _, RReset) resp, s')
  end.

Fixpoint run (rqs : list request) (s : cserver) : list (response reply) :=
  match rqs with
  | [] => []
  | rq :: rqs' => (handle rq s).1 :: run rqs' (handle rq s).2
  end.

(** One request of any route. *)
Inductive step : cserver → cserver → Prop :=
  | step_handle rq s : request_ok rq → step s (handle rq s).2.

End Handlers.

Definition init_cserver : cserver := mk_cserver empty_session ∅.

(** ** The cookie implements the session contract *)

Section Refinement.
Variable secure_filename : string → string.

(** The abstract session a cookie stands for: its records are the
    dataset's records as JSON objects and its scanned list is the
    contract's up to order. *)
Definition cookie_rel (a : option asession) (s : cserver) : Prop :=
  match a with
  | None => ss_df_data (cs_session s) = None
  | Some x =>
      ∃ recs, ss_df_data (cs_session s) = Some recs ∧ Forall2 (≡ₚ) recs (to_records (a_df x)) ∧
        default [] (ss_scanned_items (cs_session s)) ≡ₚ a_scanned x ∧
        ss_filename (cs_session s) = Some (a_filename x)
  end.

Lemma cookie_upload_refines (r : upload_request) (a : option asession) (s : cserver) :
  cookie_rel a s →
  (upload_file secure_filename r s).1 = (spec_upload secure_filename r a).1 ∧
  cookie_rel (spec_upload secure_filename r a).2 (upload_file secure_filename r s).2.
Proof.
  intros Hrel. unfold upload_file, spec_upload.
  destruct (check_upload r) as [status kind|f]; [done|].
  case_decide; [done|]. destruct (fs_content f) as [df|]; [|done].
  split; [by rewrite upload_reply_same|].
  eexists. split_and!; [done|apply session_json_equiv|done|done].
Qed.

Lemma cookie_search_refines (data : search_body) (a : option asession) (s : cserver) :
  astate_ok a → cookie_rel a s →
  map_response RSearch (search_barcode data s).1 ≡ map_response RSearch (spec_search data a).1 ∧
  cookie_rel (spec_search data a).2 (search_barcode data s).2.
Proof.
  intros Ha Hrel. unfold search_barcode, spec_search. cbv zeta.
  destruct (barcode_of data) as [b|]; [|split; [reflexivity|done]].
  case_decide; [split; [reflexivity|done]|].
  destruct a as [x|]; simpl in Hrel; [|rewrite Hrel; split; [reflexivity|done]].
  destruct Hrel as (recs & Hrecs & Hp & Hsc & Hfn). rewrite Hrecs. destruct Ha as [Hwf _].
  destruct (from_records_equiv recs (a_df x) Hwf Hp) as [Hwf' Heq].
  destruct (search_core_equiv (from_records recs) (a_df x)
              (default [] (ss_scanned_items (cs_session s))) (a_scanned x) b
              (found_indices_equiv _ _ b Hwf' Hwf Heq) Hsc) as [Hr Hs].
  destruct (search_core (from_records recs) _ b) as [[m n t|b1] sc1] eqn:E1,
    (search_core (a_df x) (a_scanned x) b) as [[m' n' t'|b2] sc2] eqn:E2;
    simpl in Hr, Hs; try done.
  - split; [by apply response_equiv_search|].
    eexists. split_and!; [done| |done|done]. by etrans; [apply session_json_equiv|].
  - subst b2. apply search_core_not_found_same in E2 as ->. split; [done|].
    by exists recs.
Qed.

Lemma cookie_stats_refines (a : option asession) (s : cserver) :
  cookie_rel a s → get_stats s = spec_stats a.
Proof.
  unfold get_stats, spec_stats. destruct a as [x|]; simpl; [|by intros ->].
  intros (recs & -> & Hp & Hsc & _).
  by rewrite (Forall2_length _ _ _ Hp), length_to_records, (Permutation_length Hsc).
Qed.

Lemma cookie_export_refines (a : option asession) (s : cserver) :
  astate_ok a → cookie_rel a s →
  map_response RExport (export_results s) ≡ map_response RExport (spec_export a).
Proof.
  unfold export_results, spec_export. destruct a as [x|]; simpl; [|intros _ ->; reflexivity].
  intros [Hwf _] (recs & -> & Hp & Hsc & ->).
  destruct (from_records_equiv recs (a_df x) Hwf Hp) as [Hwf' Heq].
  apply response_equiv_export; simpl; [done|by apply export_records_equiv|].
  by rewrite !export_frame_len, (df_len_proper _ _ Heq), (Permutation_length Hsc).
Qed.

Lemma handle_refines_cookie (rq : request) (a : option asession) (s : cserver) :
  astate_ok a → cookie_rel a s →
  (handle secure_filename rq s).1 ≡ (spec_handle secure_filename rq a).1 ∧
  cookie_rel (spec_handle secure_filename rq a).2 (handle secure_filename rq s).2.
Proof.
  intros Ha Hrel. destruct rq as [fid r|data| | |]; unfold handle, spec_handle.
  - destruct (cookie_upload_refines r a s Hrel) as [E1 E2].
    destruct (upload_file _ _ _), (spec_upload _ _ _). simpl in *. subst.
    split; [reflexivity|done].
  - destruct (cookie_search_refines data a s Ha Hrel) as [E1 E2].
    destruct (search_barcode _ _), (spec_search _ _). by split.
  - split; [|done]. simpl. by rewrite (cookie_stats_refines a s Hrel).
  - split; [|done]. by apply cookie_export_refines.
  - split; [reflexivity|done].
Qed.

(** C2: [inventory_flask_app.py] answers every sequence of well-formed
    requests as the session contract does, up to the order of the
    matched and new indices and of the keys of the exported records,
    from any cookie that stands for the contract's session. *)
Theorem cookie_implements_spec (rqs : list request) (a : option asession) (s : cserver) :
  Forall request_ok rqs → astate_ok a → cookie_rel a s →
  Forall2 (≡) (run secure_filename rqs s) (spec_run secure_filename rqs a).
Proof.
  revert a s. induction rqs as [|rq rqs IH]; intros a s Hrqs Ha Hrel; simpl; [constructor|].
  apply Forall_cons in Hrqs as [Hrq Hrqs].
  destruct (handle_refines_cookie rq a s Ha Hrel) as [E1 E2].
  constructor; [done|]. apply (IH (spec_handle secure_filename rq a).2); [done|by apply spec_handle_ok|done].
Qed.

Lemma variants_equiv_from (rqs : list request) (a : option asession)
    (sf : AppFile.server disk) (sc : cserver) :
  Forall request_ok rqs → astate_ok a → disk_writable (AppFile.sv_store sf) = true →
  AppFile.file_rel a sf → cookie_rel a sc →
  Forall2 (≡) (AppFile.run secure_filename rqs sf) (run secure_filename rqs sc).
Proof.
  revert a sf sc. induction rqs as [|rq rqs IH]; intros a sf sc Hrqs Ha Hw Hf Hc; simpl;
    [constructor|].
  apply Forall_cons in Hrqs as [Hrq Hrqs].
  destruct (AppFile.handle_refines_step secure_filename rq a sf Hf (AppFile.disk_saves_ok _ Hw))
    as [F1 F2].
  destruct (handle_refines_cookie rq a sc Ha Hc) as [C1 C2].
  constructor; [rewrite F1; by symmetry|].
  apply (IH (spec_handle secure_filename rq a).2); [done|by apply spec_handle_ok|by rewrite AppFile.handle_writable|done|done].
Qed.

(** C3: starting from a fresh client (no cookie, an empty writable
    [data/] folder), [App.py] and [inventory_flask_app.py] give the same
    answers to every sequence of well-formed requests, up to the order
    of the matched and new indices and of the keys of exported
    records. *)
Theorem variants_equivalent (rqs : list request) :
  Forall request_ok rqs →
  Forall2 (≡) (AppFile.run secure_filename rqs AppFile.init_server)
              (run secure_filename rqs init_cserver).
Proof. intros Hrqs. by apply (variants_equiv_from rqs None). Qed.

End Refinement.

(** ** What the cookie holds *)

(** The session of a cookie: empty, or the four keys the upload writes,
    with the records of a well-formed sheet whose column names are
    [df_columns], each record's keys in sorted order, and distinct
    scanned indices of its rows. *)
Definition session_typed (c : session) : Prop :=
  c = empty_session ∨
  ∃ df recs sc fn,
    c = mk_session (Some recs) (Some (columns df)) (Some sc) (Some fn) ∧
    frame_wf df ∧ Forall2 (≡ₚ) recs (to_records df) ∧ Forall (Sorted key_le) recs ∧
    scanned_ok (df_len df) sc.

Section Schema.
Variable secure_filename : string → string.

Lemma flask_save_typed (df : frame) (recs : list record) (sc : list nat) (fn : string) :
  frame_wf df → Forall2 (≡ₚ) recs (to_records df) → scanned_ok (df_len df) sc →
  session_typed (flask_save (mk_session (Some recs) (Some (columns df)) (Some sc) (Some fn))).
Proof.
  intros Hwf Hp Hsc. right. exists df, (session_json recs), sc, fn.
  split_and!; [done|done|by etrans; [apply session_json_equiv|]| |done].
  apply Forall_fmap, Forall_forall. intros r _. apply (Sorted_merge_sort key_le).
Qed.

Lemma upload_file_typed (r : upload_request) (s : cserver) :
  request_ok (ReqUpload "" r) → session_typed (cs_session s) →
  session_typed (cs_session (upload_file secure_filename r s).2).
Proof.
  intros Hok Hs. unfold upload_file. destruct (check_upload r) as [|f] eqn:Hc; [done|].
  cbn in Hok. rewrite (check_upload_file r f Hc) in Hok.
  case_decide; [done|]. destruct (fs_content f) as [df|]; [|done].
  apply flask_save_typed; [done| |split; constructor]. apply Forall_Forall2_diag, Forall_forall. done.
Qed.

Lemma search_barcode_typed (data : search_body) (s : cserver) :
  session_typed (cs_session s) → session_typed (cs_session (search_barcode data s).2).
Proof.
  intros Hs. unfold search_barcode. cbv zeta. destruct (barcode_of data) as [b|]; [|done].
  case_decide; [done|]. pose proof Hs as Hs0.
  destruct Hs as [Hs|(df & recs & sc & fn & Hc & Hwf & Hp & _ & Hsc)]; [by rewrite Hs|].
  rewrite Hc. cbn. destruct (from_records_equiv recs df Hwf Hp) as [Hwf' Heq].
  rewrite <-(df_len_proper _ _ Heq) in Hsc.
  pose proof (search_core_scanned_inv (from_records recs) sc b Hwf' Hsc) as Hsc'.
  destruct (search_core _ sc b) as [[m n t|b'] sc'] eqn:E; [|done].
  apply flask_save_typed; [done|done|]. cbn [snd] in Hsc'. by rewrite (df_len_proper _ _ Heq) in Hsc'.
Qed.

Lemma handle_typed (rq : request) (s : cserver) :
  request_ok rq → session_typed (cs_session s) →
  session_typed (cs_session (handle secure_filename rq s).2).
Proof.
  intros Hok Hs. destruct rq as [fid r|data| | |]; unfold handle; [| |done|done|by left].
  - pose proof (upload_file_typed r s Hok Hs). by destruct (upload_file _ r s).
  - pose proof (search_barcode_typed data s Hs). by destruct (search_barcode data s).
Qed.

(** C13: the cookie's session has the same shape in every state the
    requests reach from a fresh client: no key at all, or the four keys
    an upload writes ([df_data], [df_columns], [scanned_items],
    [filename]) holding the records of a well-formed sheet whose
    columns are [df_columns], with each record's keys in sorted order
    and distinct scanned row indices; so the [session.get(...)] defaults
    of the handlers are never used on a half-written session. *)
Theorem cookie_session_typed (s : cserver) :
  rtc (step secure_filename) init_cserver s → session_typed (cs_session s).
Proof.
  intros Hr. assert (session_typed (cs_session init_cserver)) as Hinit by by left.
  induction Hr as [|s1 s2 s3 [rq s1' Hok] _ IH]; [done|]. by apply IH, handle_typed.
Qed.

(** C12: what the cookie gives back.  After an upload of a
    well-formed sheet, the frame the next request rebuilds with
    [pd.DataFrame(session['df_data'])] is well formed and has the
    sheet's records, their keys in sorted order; when the sheet has a
    row and its column names are already in sorted order, it is the
    sheet itself. *)
Theorem cookie_roundtrip (r : upload_request) (f : file_storage) (df : frame) (s : cserver) :
  check_upload r = UploadAccepted f → fs_content f = Workbook df →
  secure_filename (fs_filename f) ≠ "" → frame_wf df →
  ∃ recs, ss_df_data (cs_session (upload_file secure_filename r s).2) = Some recs ∧
    frame_wf (from_records recs) ∧ from_records recs ≡ df ∧
    (rows df ≠ [] → Sorted String.le (columns df) → from_records recs = df).
Proof.
  intros Hc Hf Hfn Hwf. unfold upload_file. rewrite Hc, decide_False, Hf by done. cbn.
  eexists. split; [done|]. split; [by apply session_json_frame|]. split; [by apply session_json_frame|].
  intros Hne Hs. rewrite session_json_sorted by done. by apply from_to_records.
Qed.

(** C24: uploading a readable sheet of [N] rows (spec section 8): on
    [App.py] with a data folder that accepts the write, and on the
    cookie variant, the handler answers success with the same reply,
    whose [records_count] is [N], whose [columns] are the sheet's, and
    whose [data] preview is the first [min(100, N)] records of the
    sheet. *)
Theorem upload_answer_preview (fid : string) (r : upload_request) (f : file_storage) (df : frame)
    (s : AppFile.server disk) (cs : cserver) :
  check_upload r = UploadAccepted f → fs_content f = Workbook df →
  secure_filename (fs_filename f) ≠ "" → disk_writable (AppFile.sv_store s) = true →
  ∃ rep, (AppFile.upload_file secure_filename fid r s).1 = Ok rep ∧
    (upload_file secure_filename r cs).1 = Ok rep ∧
    up_records_count rep = df_len df ∧ up_columns rep = columns df ∧
    up_data rep = take 100 (to_records df) ∧ length (up_data rep) = Nat.min 100 (df_len df).
Proof.
  intros Hc Hf Hn Hw. exists (upload_reply_cookie df).
  unfold AppFile.upload_file, upload_file. rewrite Hc, !decide_False, Hf by done. cbn -[Nat.min].
  unfold disk_save. rewrite Hw. cbn -[Nat.min].
  split_and!; [by rewrite upload_reply_same|done|done|done|done|].
  rewrite length_take, length_to_records. lia.
Qed.

(** C31: [data.get('barcode', '').strip()] raises when the JSON value
    of [barcode] is not a string (a scanner or client that sends the
    code as a number): both variants answer 500 "Error en la búsqueda"
    and change nothing, instead of searching for the code. *)
Theorem search_non_string_barcode (d : gmap string json_value) (v : json_value)
    (s : AppFile.server disk) (cs : cserver) :
  d !! "barcode" = Some v → (∀ str, v ≠ JString str) →
  AppFile.search_barcode (Some d) s = (Fail 500 ErrSearch, s) ∧
  search_barcode (Some d) cs = (Fail 500 ErrSearch, cs).
Proof.
  intros Hd Hv. unfold AppFile.search_barcode, search_barcode, barcode_of. rewrite Hd.
  destruct v as [str| | | | |]; [by destruct (Hv str)|..]; done.
Qed.

End Schema.

(** ** The order of the matches *)

(** A sheet whose columns are not in alphabetical order, and a code
    found in both columns. *)
Definition unsorted_sheet : frame :=
  mk_frame ["Descripcion"; "Codigo"] [[CStr "X7"; CStr "A1"]; [CStr "B2"; CStr "X7"]].

Definition unsorted_upload : upload_request :=
  mk_upload_request (Some (mk_file "conteo.xlsx" (Workbook unsorted_sheet))).

Definition scan_x7 : request := ReqSearch (Some {["barcode" := JString "X7"]}).

(** The two handlers on a sheet whose columns are not in order
    ([Records.match_order_differs]): [matched_indices] and
    [new_scanned] come out reversed. *)
Example match_order_on_unsorted_sheet :
  AppFile.run AppFile.keep_name [ReqUpload "s1" unsorted_upload; scan_x7] AppFile.init_server !! 1 =
    Some (Ok (RSearch (Found [0; 1] [0; 1] 2))) ∧
  run AppFile.keep_name [ReqUpload "s1" unsorted_upload; scan_x7] init_cserver !! 1 =
    Some (Ok (RSearch (Found [1; 0] [1; 0] 2))).
Proof. split; vm_compute; reflexivity. Qed.

(** ** Witnesses *)

Lemma cookie_implements_spec_witness :
  Forall2 (≡) (run AppFile.keep_name AppFile.demo_requests init_cserver)
              (spec_run AppFile.keep_name AppFile.demo_requests None).
Proof.
  apply (cookie_implements_spec AppFile.keep_name AppFile.demo_requests None init_cserver);
    [decide_by_eval|exact I|reflexivity].
Defined.

Lemma variants_equivalent_witness :
  Forall2 (≡) (AppFile.run AppFile.keep_name AppFile.demo_requests AppFile.init_server)
              (run AppFile.keep_name AppFile.demo_requests init_cserver).
Proof. apply variants_equivalent. decide_by_eval. Defined.


(** Uploading the four-row sample: count 4, the four records previewed. *)
Lemma upload_answer_preview_witness :
  ∃ rep, (AppFile.upload_file AppFile.keep_name "s1" AppFile.sample_upload AppFile.init_server).1 = Ok rep ∧
    (upload_file AppFile.keep_name AppFile.sample_upload init_cserver).1 = Ok rep ∧
    up_records_count rep = df_len inventory_sample ∧ up_columns rep = columns inventory_sample ∧
    up_data rep = take 100 (to_records inventory_sample) ∧
    length (up_data rep) = Nat.min 100 (df_len inventory_sample).
Proof.
  apply (upload_answer_preview AppFile.keep_name "s1" AppFile.sample_upload
           (mk_file "inventario.xlsx" (Workbook inventory_sample)) inventory_sample
           AppFile.init_server init_cserver); first [reflexivity|discriminate].
Defined.

(** The code [4006381] sent as a JSON number. *)
Lemma search_non_string_barcode_witness :
  AppFile.search_barcode (Some {["barcode" := JNumber 4006381]}) AppFile.init_server =
    (Fail 500 ErrSearch, AppFile.init_server) ∧
  search_barcode (Some {["barcode" := JNumber 4006381]}) init_cserver = (Fail 500 ErrSearch, init_cserver).
Proof.
  apply (search_non_string_barcode {["barcode" := JNumber 4006381]} (JNumber 4006381));
    [reflexivity|intros str; discriminate].
Defined.

Lemma cookie_session_typed_witness :
  session_typed (cs_session (handle AppFile.keep_name scan_x7
                   (handle AppFile.keep_name (ReqUpload "s1" unsorted_upload) init_cserver).2).2).
Proof.
  apply (cookie_session_typed AppFile.keep_name).
  apply (rtc_l _ _ (handle AppFile.keep_name (ReqUpload "s1" unsorted_upload) init_cserver).2).
  - apply (step_handle AppFile.keep_name (ReqUpload "s1" unsorted_upload) init_cserver).
    decide_by_eval.
  - apply rtc_once, (step_handle AppFile.keep_name scan_x7). exact I.
Defined.

Lemma cookie_roundtrip_witness :
  ∃ recs, ss_df_data (cs_session (upload_file AppFile.keep_name unsorted_upload init_cserver).2) = Some recs ∧
    frame_wf (from_records recs) ∧ from_records recs ≡ unsorted_sheet ∧
    (rows unsorted_sheet ≠ [] → Sorted String.le (columns unsorted_sheet) → from_records recs = unsorted_sheet).
Proof.
  apply (cookie_roundtrip AppFile.keep_name unsorted_upload
           (mk_file "conteo.xlsx" (Workbook unsorted_sheet)));
    [reflexivity|reflexivity|discriminate|decide_by_eval].
Defined.

End AppCookie.
