(* ===== verification/Concurrent.v ===== *)
(** * [App.py] under a threaded server: handlers as sequences of steps

    [app.run(debug=True)] serves each request in its own thread, so the
    steps of two requests can interleave.  Here every handler is cut at
    the points where another thread can see its effects:
    - [search_barcode]: [load_session_data] (line 135), then
      [save_session_data] (line 162), which is [open(filepath, 'wb')]
      (the file exists, truncated, until the write) followed by
      [pickle.dump];
    - [upload_file]: [file.save] (line 82), [pd.read_excel] (line 85),
      [save_session_data] (line 98, open then dump) and [os.remove]
      (line 105);
    - [get_stats] and [export_results]: one [load_session_data];
    - [reset_session]: [cleanup_session_data]'s [os.path.exists]
      (line 56) and [os.remove] (line 58).
    The shared state is the [data/] folder and the contents of
    [uploads/]; a configuration is that state and a list of threads, and
    a schedule is the list of threads to step, in order.  Run alone,
    every thread does what its atomic handler in [AppFile] does;
    interleaved, searches lose scans or fail on a half-written file,
    uploads of files with the same name read each other's sheet, and a
    search can write back the data file a reset has just removed. *)

From S2P Require Import Prelude PyStr Frame Matcher Progress Exporter Upload Records Session Store AppFile.
From stdpp Require Import gmap.

Module Concurrent.
#[local] Unset Default Proof Using.
Import PyStr Frame Matcher Upload Session Store AppFile.

Record shared := mk_shared {
  sh_disk : disk;
  sh_uploads : gmap string excel_outcome
}.

(** [open(filepath, 'wb')]: on a writable disk the file now exists and
    is empty, which [pickle.load] rejects, until [pickle.dump] writes it;
    on a disk that refuses writes [open] raises. *)
Definition open_wb (p : string) (d : disk) : option disk :=
  if disk_writable d then Some (mk_disk (<[p := Corrupt]> (disk_files d)) true) else None.

(** [pickle.dump(data, f)] *)
Definition write_pickle (p : string) (data : session_data) (d : disk) : disk :=
  mk_disk (<[p := Pickled data]> (disk_files d)) (disk_writable d).

(** ** Search threads *)

Inductive search_thread :=
  | SStart (c : cookie) (data : search_body)
  | SLoaded (sid : string) (d : session_data) (barcode : string)
  | SWriting (sid : string) (d' : session_data) (r : search_reply)
  | SDone (r : response search_reply).

Definition search_thread_step (sh : shared) (t : search_thread) : search_thread * shared :=
  match t with
  | SStart c data =>
      match barcode_of data with
      | None => (SDone (Fail 500 ErrSearch), sh)
      | Some b =>
          if decide (b = "") then (SDone (Fail 400 ErrEmptyBarcode), sh) else
          match load_current (mk_server c (sh_disk sh) ∅) with
          | Fail status kind => (SDone (Fail status kind), sh)
          | Ok (sid, d) => (SLoaded sid d b, sh)
          end
      end
  | SLoaded sid d b =>
      match search_core (sd_df d) (sd_scanned d) b with
      | (NotFound b', _) => (SDone (Ok (NotFound b')), sh)
      | (r, scanned') =>
          let d' := mk_session_data (sd_df d) scanned' (sd_filename d) in
          match open_wb (get_session_data_path sid) (sh_disk sh) with
          | Some dk => (SWriting sid d' r, mk_shared dk (sh_uploads sh))
          | None => (SDone (Ok r), sh)
          end
      end
  | SWriting sid d' r =>
      (SDone (Ok r),
       mk_shared (write_pickle (get_session_data_path sid) d' (sh_disk sh)) (sh_uploads sh))
  | SDone r => (SDone r, sh)
  end.

(** ** Upload threads *)

Inductive upload_thread :=
  | UStart (fresh_id : string) (c : cookie) (r : upload_request)
  | USaved (fresh_id : string) (c : cookie) (filename : string)
  | URead (c : cookie) (sid : string) (df : frame) (filename : string)
  | UWriting (c : cookie) (sid : string) (df : frame) (filename : string)
  | UStored (c : cookie) (df : frame) (filename : string)
  | UDone (r : response upload_reply) (c : cookie).

Section Threads.
Variable secure_filename : string → string.

Definition upload_path (filename : string) : string := UPLOAD_FOLDER +:+ "/" +:+ filename.

Definition upload_thread_step (sh : shared) (t : upload_thread) : upload_thread * shared :=
  match t with
  | UStart fid c r =>
      match check_upload r with
      | UploadRejected status kind => (UDone (Fail status kind) c, sh)
      | UploadAccepted f =>
          let filename := secure_filename (fs_filename f) in
          if decide (filename = "") then (UDone (Fail 500 ErrProcessFile) c, sh) else
          (USaved fid c filename,
           mk_shared (sh_disk sh) (<[upload_path filename := fs_content f]> (sh_uploads sh)))
      end
  | USaved fid c filename =>
      match sh_uploads sh !! upload_path filename with
      | Some (Workbook df) =>
          let sid := default fid (ck_session_id c) in
          (URead (mk_cookie (Some sid) (ck_has_data c) (ck_records_count c) (ck_filename c))
                 sid df filename, sh)
      | _ => (UDone (Fail 500 ErrProcessFile) c, sh)
      end
  | URead c sid df filename =>
      match open_wb (get_session_data_path sid) (sh_disk sh) with
      | Some dk => (UWriting c sid df filename, mk_shared dk (sh_uploads sh))
      | None => (UDone (Fail 500 ErrSaveData) c, sh)
      end
  | UWriting c sid df filename =>
      (UStored (mk_cookie (Some sid) true (Some (df_len df)) (Some filename)) df filename,
       mk_shared (write_pickle (get_session_data_path sid) (mk_session_data df [] filename)
                               (sh_disk sh))
                 (sh_uploads sh))
  | UStored c df filename =>
      if decide (upload_path filename ∈ dom (sh_uploads sh)) then
        (UDone (Ok (upload_reply_app df)) c,
         mk_shared (sh_disk sh) (delete (upload_path filename) (sh_uploads sh)))
      else (UDone (Fail 500 ErrProcessFile) c, sh)
  | UDone r c => (UDone r c, sh)
  end.

(** ** Threads of [get_stats], [export_results] and [reset_session]

    [get_stats] and [export_results] read the data file once, in
    [load_session_data]; [reset_session]'s [cleanup_session_data] tests
    [os.path.exists] (line 56) and then calls [os.remove] (line 58),
    which raises when the file is gone or the disk refuses it, and
    whose result the handler ignores (line 246). *)
Inductive other_thread :=
  | OStats (c : cookie)
  | OExport (c : cookie)
  | OReset (c : cookie)
  | ORemoving (sid : string)
  | ODone (r : response reply) (c : cookie).

Definition other_thread_step (sh : shared) (t : other_thread) : other_thread * shared :=
  match t with
  | OStats c => (ODone (map_response RStats (get_stats (mk_server c (sh_disk sh) ∅)).1) c, sh)
  | OExport c =>
      (ODone (map_response RExport (export_results (mk_server c (sh_disk sh) ∅)).1) c, sh)
  | OReset c =>
      match ck_session_id c with
      | Some sid =>
          match disk_files (sh_disk sh) !! get_session_data_path sid with
          | Some _ => (ORemoving sid, sh)
          | None => (ODone (Ok RReset) empty_cookie, sh)
          end
      | None => (ODone (Ok RReset) empty_cookie, sh)
      end
  | ORemoving sid =>
      let p := get_session_data_path sid in
      match disk_files (sh_disk sh) !! p with
      | Some _ =>
          if disk_writable (sh_disk sh) then
            (ODone (Ok RReset) empty_cookie,
             mk_shared (mk_disk (delete p (disk_files (sh_disk sh))) true) (sh_uploads sh))
          else (ODone (Ok RReset) empty_cookie, sh)
      | None => (ODone (Ok RReset) empty_cookie, sh)
      end
  | ODone r c => (ODone r c, sh)
  end.

(** ** Configurations and schedules *)

Inductive thread :=
  | TSearch (t : search_thread)
  | TUpload (t : upload_thread)
  | TOther (t : other_thread).

Definition thread_step (sh : shared) (t : thread) : thread * shared :=
  match t with
  | TSearch t => let '(t', sh') := search_thread_step sh t in (TSearch t', sh')
  | TUpload t => let '(t', sh') := upload_thread_step sh t in (TUpload t', sh')
  | TOther t => let '(t', sh') := other_thread_step sh t in (TOther t', sh')
  end.

Record config := mk_config {
  cf_shared : shared;
  cf_threads : list thread
}.

(** Thread [i] takes one step. *)
Definition step_at (cf : config) (i : nat) : config :=
  match cf_threads cf !! i with
  | Some t => let '(t', sh') := thread_step (cf_shared cf) t in mk_config sh' (<[i := t']> (cf_threads cf))
  | None => cf
  end.

Definition run_schedule (sched : list nat) (cf : config) : config := foldl step_at cf sched.

End Threads.

(** ** Run alone, each thread is its atomic handler *)

(** The thread that serves request [rq] sent with cookie [c]. *)
Definition start_thread (rq : request) (c : cookie) : thread :=
  match rq with
  | ReqUpload fid r => TUpload (UStart fid c r)
  | ReqSearch data => TSearch (SStart c data)
  | ReqStats => TOther (OStats c)
  | ReqExport => TOther (OExport c)
  | ReqReset => TOther (OReset c)
  end.

(** The steps of each handler in the model. *)
Definition request_steps (rq : request) : nat :=
  match rq with
  | ReqUpload _ _ => 5 | ReqSearch _ => 3 | ReqStats | ReqExport => 1 | ReqReset => 2
  end.

(** The answer of a thread that has returned, with the cookie Flask
    sends back ([search_barcode] does not touch the cookie [c] the
    request carried). *)
Definition thread_result (c : cookie) (t : thread) : option (response reply * cookie) :=
  match t with
  | TSearch (SDone r) => Some (map_response RSearch r, c)
  | TUpload (UDone r c') => Some (map_response RUpload r, c')
  | TOther (ODone r c') => Some (r, c')
  | _ => None
  end.


Section Serial.
Variable secure_filename : string → string.

Lemma step_at_single (sh : shared) (t : thread) :
  step_at secure_filename (mk_config sh [t]) 0 =
  mk_config (thread_step secure_filename sh t).2 [(thread_step secure_filename sh t).1].
Proof. unfold step_at. simpl. by destruct (thread_step secure_filename sh t). Qed.

(** A search thread that no other thread interrupts finishes in three
    steps with the answer and the [data/] folder of the atomic
    [AppFile.search_barcode], on every branch. *)
Lemma search_alone (c : cookie) (data : search_body) (sh : shared) (u : gset string) :
  run_schedule secure_filename [0; 0; 0] (mk_config sh [TSearch (SStart c data)]) =
  mk_config (mk_shared (sv_store (search_barcode data (mk_server c (sh_disk sh) u)).2)
                       (sh_uploads sh))
            [TSearch (SDone (search_barcode data (mk_server c (sh_disk sh) u)).1)].
Proof.
  destruct sh as [[files w] ups].
  unfold run_schedule. cbn [foldl]. rewrite !step_at_single.
  unfold search_barcode. change (load_current (mk_server c (mk_disk files w) u))
    with (load_current (mk_server c (mk_disk files w) ∅)).
  cbn [thread_step search_thread_step fst snd sh_disk sh_uploads].
  destruct (barcode_of data) as [b|]; [|done]. case_decide; [done|].
  destruct (load_current _) as [[sid d]|status kind]; [|done].
  cbn [thread_step search_thread_step fst snd sh_disk sh_uploads].
  destruct (search_core (sd_df d) (sd_scanned d) b) as [[m n t|b'] sc]; [|done].
  unfold open_wb. cbn. destruct w; cbn; [|done]. unfold write_pickle. cbn.
  by rewrite insert_insert_eq.
Qed.

(** [search_barcode] changes neither the cookie nor [uploads/]. *)
Lemma search_barcode_frame (data : search_body) (s : server disk) :
  sv_cookie (search_barcode data s).2 = sv_cookie s ∧ sv_uploads (search_barcode data s).2 = sv_uploads s.
Proof.
  unfold search_barcode. destruct (barcode_of data); [|done]. case_decide; [done|].
  destruct (load_current _) as [[sid d]|]; [|done]. by destruct (search_core _ _ _) as [[]].
Qed.

(** The state one client sees of the shared folders. *)
Definition server_view (c : cookie) (sh : shared) : server disk :=
  mk_server c (sh_disk sh) (dom (sh_uploads sh)).

(** An upload thread that no other thread interrupts finishes in five
    steps with the answer, the cookie, the [data/] folder and the
    [uploads/] folder of the atomic [AppFile.upload_file]. *)
Lemma upload_alone (fid : string) (r : upload_request) (c : cookie) (sh : shared) :
  ∃ sh', run_schedule secure_filename [0; 0; 0; 0; 0] (mk_config sh [TUpload (UStart fid c r)]) =
    mk_config sh' [TUpload (UDone (upload_file secure_filename fid r (server_view c sh)).1
                                  (sv_cookie (upload_file secure_filename fid r (server_view c sh)).2))] ∧
    sh_disk sh' = sv_store (upload_file secure_filename fid r (server_view c sh)).2 ∧
    dom (sh_uploads sh') = sv_uploads (upload_file secure_filename fid r (server_view c sh)).2.
Proof.
  destruct sh as [[files w] ups]. unfold run_schedule, server_view. cbn [foldl].
  rewrite !step_at_single. unfold upload_file.
  cbn [thread_step upload_thread_step fst snd sh_disk sh_uploads].
  destruct (check_upload r) as [status kind|f]; [by eexists|].
  case_decide as Hfn; [by eexists|].
  cbn [thread_step upload_thread_step fst snd sh_disk sh_uploads].
  rewrite lookup_insert_eq. unfold upload_path.
  destruct (fs_content f) as [df|]; cbn [thread_step upload_thread_step fst snd sh_disk sh_uploads].
  - unfold open_wb. destruct w; cbn.
    + rewrite decide_True by (rewrite dom_insert_L; set_solver).
      eexists. split_and!; [reflexivity| |].
      * unfold write_pickle. cbn. by rewrite insert_insert_eq.
      * cbn. rewrite dom_delete_L, dom_insert_L. set_solver.
    + eexists. split_and!; [reflexivity|reflexivity|]. cbn. by rewrite dom_insert_L.
  - eexists. split_and!; [reflexivity|reflexivity|]. cbn. by rewrite dom_insert_L.
Qed.

(** run alone, the thread of every request finishes in its number
    of steps with the answer, the cookie, the [data/] folder and the
    [uploads/] folder of the atomic handler [AppFile.handle], on every
    branch: the step model only cuts the handlers where the file
    system can be observed. *)
Theorem handler_alone (rq : request) (c : cookie) (sh : shared) :
  ∃ t sh',
    run_schedule secure_filename (replicate (request_steps rq) 0) (mk_config sh [start_thread rq c]) =
      mk_config sh' [t] ∧
    thread_result c t = Some ((handle secure_filename rq (server_view c sh)).1,
                              sv_cookie (handle secure_filename rq (server_view c sh)).2) ∧
    sh_disk sh' = sv_store (handle secure_filename rq (server_view c sh)).2 ∧
    dom (sh_uploads sh') = sv_uploads (handle secure_filename rq (server_view c sh)).2.
Proof.
  destruct rq as [fid r|data| | |]; cbn [request_steps replicate start_thread handle].
  - destruct (upload_alone fid r c sh) as (sh' & -> & Hd & Hu).
    destruct (upload_file _ _ _ _) eqn:E. cbn in *. by eexists _, sh'.
  - rewrite (search_alone c data sh (dom (sh_uploads sh))). unfold server_view.
    destruct (search_barcode_frame data (mk_server c (sh_disk sh) (dom (sh_uploads sh)))) as [Hc Hu].
    destruct (search_barcode _ _) as [resp s'] eqn:E. cbn in *.
    eexists _, _. split_and!; [done|by rewrite Hc|done|by rewrite Hu].
  - unfold run_schedule. cbn [foldl]. rewrite step_at_single. cbn.
    unfold get_stats, server_view.
    change (load_current (mk_server c (sh_disk sh) (dom (sh_uploads sh))))
      with (load_current (mk_server c (sh_disk sh) ∅)).
    eexists _, _. split; [done|].
    by destruct (load_current _) as [[]|].
  - unfold run_schedule. cbn [foldl]. rewrite step_at_single. cbn.
    unfold export_results, server_view.
    change (load_current (mk_server c (sh_disk sh) (dom (sh_uploads sh))))
      with (load_current (mk_server c (sh_disk sh) ∅)).
    eexists _, _. split; [done|].
    by destruct (load_current _) as [[]|].
  - destruct sh as [[files w] ups]. unfold run_schedule, server_view. cbn [foldl].
    rewrite !step_at_single. cbn. unfold disk_cleanup.
    destruct (ck_session_id c) as [sid|]; cbn; [|by eexists _, _].
    destruct (files !! get_session_data_path sid) eqn:E; cbn; rewrite ?E; cbn; [|by eexists _, _].
    destruct w; cbn; by eexists _, _.
Qed.

End Serial.

(** ** Interleaved searches *)

Section Interleaving.
Variable secure_filename : string → string.

Lemma load_current_file (c : cookie) (dk : disk) (sid : string) (d : session_data) :
  load_current (mk_server c dk ∅) = Ok (sid, d) →
  ck_session_id c = Some sid ∧ ck_has_data c = true ∧
  disk_files dk !! get_session_data_path sid = Some (Pickled d).
Proof.
  intros Hl. apply load_current_Ok in Hl as (Hs & Hh & Hd). cbn in *.
  split_and!; [done|done|]. unfold disk_load in Hd.
  destruct (disk_files dk !! _) as [[]|]; congruence.
Qed.

Lemma search_start_loaded (sh : shared) (c : cookie) (data : search_body) (b sid : string)
    (d : session_data) :
  barcode_of data = Some b → b ≠ "" → load_current (mk_server c (sh_disk sh) ∅) = Ok (sid, d) →
  search_thread_step sh (SStart c data) = (SLoaded sid d b, sh).
Proof. intros Hb Hne Hl. cbn. by rewrite Hb, decide_False, Hl. Qed.

Lemma search_loaded_found (sh : shared) (sid : string) (d : session_data) (b : string)
    (m n : list nat) (t : nat) (s' : list nat) :
  search_core (sd_df d) (sd_scanned d) b = (Found m n t, s') → disk_writable (sh_disk sh) = true →
  search_thread_step sh (SLoaded sid d b) =
    (SWriting sid (mk_session_data (sd_df d) s' (sd_filename d)) (Found m n t),
     mk_shared (mk_disk (<[get_session_data_path sid := Corrupt]> (disk_files (sh_disk sh))) true)
               (sh_uploads sh)).
Proof. intros Hs Hw. cbn. rewrite Hs. unfold open_wb. by rewrite Hw. Qed.

Lemma step_at_search (cf : config) (i : nat) (t t' : search_thread) (sh' : shared) :
  cf_threads cf !! i = Some (TSearch t) → search_thread_step (cf_shared cf) t = (t', sh') →
  step_at secure_filename cf i = mk_config sh' (<[i := TSearch t']> (cf_threads cf)).
Proof. intros Hi Ht. unfold step_at. rewrite Hi. cbn. by rewrite Ht. Qed.

Lemma search_core_found_inv (df : frame) (s : list nat) (b : string)
    (m n : list nat) (t : nat) (s' : list nat) :
  search_core df s b = (Found m n t, s') →
  m = found_indices df b ∧ s' = s ++ n ∧ (∀ i, i ∈ n ↔ i ∈ m ∧ i ∉ s).
Proof.
  unfold search_core. destruct (found_indices df b) as [|x l] eqn:E; [done|].
  destruct (record_scans_spec (x :: l) s []) as (added & -> & _ & Hin).
  intros [= <- <- _ <-]. done.
Qed.

Lemma search_start_failed (sh : shared) (c : cookie) (data : search_body) (b : string)
    (status : Z) (kind : error_kind) :
  barcode_of data = Some b → b ≠ "" →
  load_current (mk_server c (sh_disk sh) ∅) = Fail status kind →
  search_thread_step sh (SStart c data) = (SDone (Fail status kind), sh).
Proof. intros Hb Hne Hl. cbn. by rewrite Hb, decide_False, Hl. Qed.

(** While [open(filepath, 'wb')] has truncated the data file, loading
    the session fails. *)
Lemma load_current_truncated (c : cookie) (files : gmap string blob) (sid : string) :
  ck_session_id c = Some sid → ck_has_data c = true →
  load_current (mk_server c (mk_disk (<[get_session_data_path sid := Corrupt]> files) true) ∅) =
    Fail 500 ErrLoadData.
Proof.
  intros Hs Hh. unfold load_current. cbn. rewrite Hs, Hh. cbn.
  unfold disk_load. cbn. by rewrite lookup_insert_eq.
Qed.

Ltac sched_step :=
  match goal with
  | |- context [foldl ?f ?a (?x :: ?l)] => change (foldl f a (x :: l)) with (foldl f (f a x) l)
  end.

(** C35: two searches of the same session that overlap (two tabs, or
    two scans fired before the first answer) both answer [found], each
    with its new rows, but the second write of the data file replaces
    the first: the rows only the first search found are not in the
    stored scanned list. *)
Theorem lost_scan_update (c : cookie) (data1 data2 : search_body) (b1 b2 sid : string)
    (d : session_data) (sh : shared) (m1 n1 m2 n2 s1 s2 : list nat) (t1 t2 : nat) :
  disk_writable (sh_disk sh) = true →
  load_current (mk_server c (sh_disk sh) ∅) = Ok (sid, d) →
  barcode_of data1 = Some b1 → b1 ≠ "" → barcode_of data2 = Some b2 → b2 ≠ "" →
  search_core (sd_df d) (sd_scanned d) b1 = (Found m1 n1 t1, s1) →
  search_core (sd_df d) (sd_scanned d) b2 = (Found m2 n2 t2, s2) →
  cf_threads (run_schedule secure_filename [0; 1; 0; 0; 1; 1]
                (mk_config sh [TSearch (SStart c data1); TSearch (SStart c data2)])) =
    [TSearch (SDone (Ok (Found m1 n1 t1))); TSearch (SDone (Ok (Found m2 n2 t2)))] ∧
  disk_load sid (sh_disk (cf_shared (run_schedule secure_filename [0; 1; 0; 0; 1; 1]
                (mk_config sh [TSearch (SStart c data1); TSearch (SStart c data2)])))) =
    Some (mk_session_data (sd_df d) s2 (sd_filename d)) ∧
  (∀ i, i ∈ n1 → i ∉ m2 → i ∉ s2).
Proof.
  intros Hw Hl Hb1 Hn1 Hb2 Hn2 Hs1 Hs2.
  assert (run_schedule secure_filename [0; 1; 0; 0; 1; 1]
            (mk_config sh [TSearch (SStart c data1); TSearch (SStart c data2)]) =
          mk_config
            (mk_shared (mk_disk (<[get_session_data_path sid :=
                                     Pickled (mk_session_data (sd_df d) s2 (sd_filename d))]>
                        (<[get_session_data_path sid := Corrupt]>
                        (<[get_session_data_path sid :=
                             Pickled (mk_session_data (sd_df d) s1 (sd_filename d))]>
                        (<[get_session_data_path sid := Corrupt]> (disk_files (sh_disk sh))))))
                                true)
                       (sh_uploads sh))
            [TSearch (SDone (Ok (Found m1 n1 t1))); TSearch (SDone (Ok (Found m2 n2 t2)))]) as ->.
  { unfold run_schedule.
    do 2 (sched_step; erewrite step_at_search;
          [|reflexivity|apply search_start_loaded; cbn; eauto]).
    sched_step; erewrite step_at_search; [|reflexivity|by apply search_loaded_found].
    sched_step; erewrite step_at_search; [|reflexivity|reflexivity].
    sched_step; erewrite step_at_search; [|reflexivity|by apply search_loaded_found].
    sched_step; erewrite step_at_search; [|reflexivity|reflexivity].
    reflexivity. }
  cbn [cf_threads cf_shared sh_disk].
  split_and!; [done|unfold disk_load; cbn [disk_files]; by rewrite lookup_insert_eq|].
  intros i Hi Hm. apply search_core_found_inv in Hs1 as (_ & _ & Hin1).
  apply search_core_found_inv in Hs2 as (-> & -> & Hin2).
  apply Hin1 in Hi as [_ Hi]. rewrite elem_of_app. intros [?|Hn]; [done|].
  by apply Hin2 in Hn as [? _].
Qed.

(** C37: a search that loads the session while another search of it is
    between [open(filepath, 'wb')] and [pickle.dump] reads a truncated
    file and answers 500 "Error al cargar los datos", although the data
    is there before and after. *)
Theorem torn_read_load_error (c : cookie) (data1 data2 : search_body) (b1 b2 sid : string)
    (d : session_data) (sh : shared) (m1 n1 s1 : list nat) (t1 : nat) :
  disk_writable (sh_disk sh) = true →
  load_current (mk_server c (sh_disk sh) ∅) = Ok (sid, d) →
  barcode_of data1 = Some b1 → b1 ≠ "" → barcode_of data2 = Some b2 → b2 ≠ "" →
  search_core (sd_df d) (sd_scanned d) b1 = (Found m1 n1 t1, s1) →
  cf_threads (run_schedule secure_filename [0; 0; 1; 0]
                (mk_config sh [TSearch (SStart c data1); TSearch (SStart c data2)])) =
    [TSearch (SDone (Ok (Found m1 n1 t1))); TSearch (SDone (Fail 500 ErrLoadData))] ∧
  disk_load sid (sh_disk (cf_shared (run_schedule secure_filename [0; 0; 1; 0]
                (mk_config sh [TSearch (SStart c data1); TSearch (SStart c data2)])))) =
    Some (mk_session_data (sd_df d) s1 (sd_filename d)).
Proof.
  intros Hw Hl Hb1 Hn1 Hb2 Hn2 Hs1.
  destruct (load_current_file c (sh_disk sh) sid d Hl) as (Hsid & Hhd & _).
  assert (run_schedule secure_filename [0; 0; 1; 0]
            (mk_config sh [TSearch (SStart c data1); TSearch (SStart c data2)]) =
          mk_config
            (mk_shared (mk_disk (<[get_session_data_path sid :=
                                     Pickled (mk_session_data (sd_df d) s1 (sd_filename d))]>
                        (<[get_session_data_path sid := Corrupt]> (disk_files (sh_disk sh))))
                                true)
                       (sh_uploads sh))
            [TSearch (SDone (Ok (Found m1 n1 t1))); TSearch (SDone (Fail 500 ErrLoadData))]) as ->.
  { unfold run_schedule.
    sched_step; erewrite step_at_search; [|reflexivity|by apply search_start_loaded].
    sched_step; erewrite step_at_search; [|reflexivity|by apply search_loaded_found].
    sched_step; erewrite step_at_search;
      [|reflexivity|apply (search_start_failed _ _ _ b2); [done|done|by apply load_current_truncated]].
    sched_step; erewrite step_at_search; [|reflexivity|reflexivity].
    reflexivity. }
  cbn [cf_threads cf_shared sh_disk].
  split; [done|]. unfold disk_load; cbn [disk_files]. by rewrite lookup_insert_eq.
Qed.

(** ** A search overlapping a reset *)

Lemma step_at_other (cf : config) (i : nat) (t t' : other_thread) (sh' : shared) :
  cf_threads cf !! i = Some (TOther t) → other_thread_step (cf_shared cf) t = (t', sh') →
  step_at secure_filename cf i = mk_config sh' (<[i := TOther t']> (cf_threads cf)).
Proof. intros Hi Ht. unfold step_at. rewrite Hi. cbn. by rewrite Ht. Qed.

(** C40: a search that loaded the session before a [/reset] of the same
    client removed the data file writes it back afterwards: the reset
    answers success and clears the cookie, yet
    [data/session_<id>.pkl] holds the session again, with the search's
    scans, and no cookie names it any more. *)
Theorem reset_resurrected (c : cookie) (data : search_body) (b sid : string) (d : session_data)
    (sh : shared) (m n s' : list nat) (t : nat) :
  disk_writable (sh_disk sh) = true →
  load_current (mk_server c (sh_disk sh) ∅) = Ok (sid, d) →
  barcode_of data = Some b → b ≠ "" →
  search_core (sd_df d) (sd_scanned d) b = (Found m n t, s') →
  cf_threads (run_schedule secure_filename [0; 1; 1; 0; 0]
                (mk_config sh [TSearch (SStart c data); TOther (OReset c)])) =
    [TSearch (SDone (Ok (Found m n t))); TOther (ODone (Ok RReset) empty_cookie)] ∧
  disk_load sid (sh_disk (cf_shared (run_schedule secure_filename [0; 1; 1; 0; 0]
                (mk_config sh [TSearch (SStart c data); TOther (OReset c)])))) =
    Some (mk_session_data (sd_df d) s' (sd_filename d)).
Proof.
  intros Hw Hl Hb Hn Hs.
  destruct (load_current_file c (sh_disk sh) sid d Hl) as (Hsid & _ & Hf).
  destruct sh as [[files w] ups]. cbn in Hw, Hf. subst w.
  assert (run_schedule secure_filename [0; 1; 1; 0; 0]
            (mk_config (mk_shared (mk_disk files true) ups)
                       [TSearch (SStart c data); TOther (OReset c)]) =
          mk_config
            (mk_shared (mk_disk (<[get_session_data_path sid :=
                                     Pickled (mk_session_data (sd_df d) s' (sd_filename d))]>
                        (<[get_session_data_path sid := Corrupt]>
                        (delete (get_session_data_path sid) files))) true) ups)
            [TSearch (SDone (Ok (Found m n t))); TOther (ODone (Ok RReset) empty_cookie)]) as ->.
  { unfold run_schedule.
    sched_step; erewrite step_at_search; [|reflexivity|by apply search_start_loaded].
    sched_step; erewrite step_at_other; [|reflexivity|cbn; by rewrite Hsid, Hf].
    sched_step; erewrite step_at_other; [|reflexivity|cbn; by rewrite Hf].
    sched_step; erewrite step_at_search; [|reflexivity|by apply search_loaded_found].
    sched_step; erewrite step_at_search; [|reflexivity|reflexivity].
    reflexivity. }
  cbn [cf_threads cf_shared sh_disk]. split; [done|].
  unfold disk_load; cbn [disk_files]. by rewrite lookup_insert_eq.
Qed.

(** ** Interleaved uploads *)

Lemma upload_start_saved (sh : shared) (fid : string) (c : cookie) (r : upload_request)
    (f : file_storage) :
  check_upload r = UploadAccepted f → secure_filename (fs_filename f) ≠ "" →
  upload_thread_step secure_filename sh (UStart fid c r) =
    (USaved fid c (secure_filename (fs_filename f)),
     mk_shared (sh_disk sh)
       (<[upload_path (secure_filename (fs_filename f)) := fs_content f]> (sh_uploads sh))).
Proof. intros Hc Hn. cbn. by rewrite Hc, decide_False. Qed.

Lemma upload_saved_read (sh : shared) (fid : string) (c : cookie) (fn : string) (df : frame) :
  sh_uploads sh !! upload_path fn = Some (Workbook df) →
  upload_thread_step secure_filename sh (USaved fid c fn) =
    (URead (mk_cookie (Some (default fid (ck_session_id c))) (ck_has_data c)
                      (ck_records_count c) (ck_filename c))
           (default fid (ck_session_id c)) df fn, sh).
Proof. intros Hu. cbn. by rewrite Hu. Qed.

Lemma upload_saved_missing (sh : shared) (fid : string) (c : cookie) (fn : string) :
  sh_uploads sh !! upload_path fn = None →
  upload_thread_step secure_filename sh (USaved fid c fn) = (UDone (Fail 500 ErrProcessFile) c, sh).
Proof. intros Hu. cbn. by rewrite Hu. Qed.

Lemma upload_read_open (sh : shared) (c : cookie) (sid : string) (df : frame) (fn : string) :
  disk_writable (sh_disk sh) = true →
  upload_thread_step secure_filename sh (URead c sid df fn) =
    (UWriting c sid df fn,
     mk_shared (mk_disk (<[get_session_data_path sid := Corrupt]> (disk_files (sh_disk sh))) true)
               (sh_uploads sh)).
Proof. intros Hw. cbn. unfold open_wb. by rewrite Hw. Qed.

Lemma upload_stored_removed (sh : shared) (c : cookie) (df : frame) (fn : string) :
  upload_path fn ∈ dom (sh_uploads sh) →
  upload_thread_step secure_filename sh (UStored c df fn) =
    (UDone (Ok (upload_reply_app df)) c,
     mk_shared (sh_disk sh) (delete (upload_path fn) (sh_uploads sh))).
Proof. intros Hu. cbn. by rewrite decide_True. Qed.

Lemma step_at_upload (cf : config) (i : nat) (t t' : upload_thread) (sh' : shared) :
  cf_threads cf !! i = Some (TUpload t) → upload_thread_step secure_filename (cf_shared cf) t = (t', sh') →
  step_at secure_filename cf i = mk_config sh' (<[i := TUpload t']> (cf_threads cf)).
Proof. intros Hi Ht. unfold step_at. rewrite Hi. cbn. by rewrite Ht. Qed.

(** C38: two overlapping uploads of files whose names [secure_filename]
    maps to the same name: the second [file.save] overwrites the first
    file before the first request reads it, so the first client's
    session holds the second client's sheet and its answer describes
    that sheet; its [os.remove] then deletes the file before the second
    request reads it, which fails with status 500. *)
Theorem upload_clobbered (fid0 fid1 : string) (c0 c1 : cookie) (r0 r1 : upload_request)
    (f0 f1 : file_storage) (df0 df1 : frame) (sh : shared) :
  disk_writable (sh_disk sh) = true →
  check_upload r0 = UploadAccepted f0 → check_upload r1 = UploadAccepted f1 →
  secure_filename (fs_filename f1) = secure_filename (fs_filename f0) →
  secure_filename (fs_filename f0) ≠ "" →
  fs_content f0 = Workbook df0 → fs_content f1 = Workbook df1 →
  cf_threads (run_schedule secure_filename [0; 1; 0; 0; 0; 0; 1]
    (mk_config sh [TUpload (UStart fid0 c0 r0); TUpload (UStart fid1 c1 r1)])) =
    [TUpload (UDone (Ok (upload_reply_app df1))
                    (mk_cookie (Some (default fid0 (ck_session_id c0))) true (Some (df_len df1))
                               (Some (secure_filename (fs_filename f0)))));
     TUpload (UDone (Fail 500 ErrProcessFile) c1)] ∧
  disk_load (default fid0 (ck_session_id c0))
    (sh_disk (cf_shared (run_schedule secure_filename [0; 1; 0; 0; 0; 0; 1]
      (mk_config sh [TUpload (UStart fid0 c0 r0); TUpload (UStart fid1 c1 r1)])))) =
    Some (mk_session_data df1 [] (secure_filename (fs_filename f0))).
Proof.
  intros Hw Hc0 Hc1 Hfn Hne Hf0 Hf1.
  set (fn := secure_filename (fs_filename f0)) in *.
  set (sid0 := default fid0 (ck_session_id c0)).
  assert (secure_filename (fs_filename f1) ≠ "") as Hne1 by congruence.
  unfold run_schedule.
  sched_step; erewrite step_at_upload; [|reflexivity|by apply upload_start_saved].
  sched_step; erewrite step_at_upload; [|reflexivity|by apply upload_start_saved].
  rewrite Hfn, Hf1.
  sched_step; erewrite step_at_upload;
    [|reflexivity|apply upload_saved_read; cbn; by rewrite lookup_insert_eq].
  sched_step; erewrite step_at_upload; [|reflexivity|by apply upload_read_open].
  sched_step; erewrite step_at_upload; [|reflexivity|reflexivity].
  sched_step; erewrite step_at_upload;
    [|reflexivity|apply upload_stored_removed; cbn; rewrite dom_insert_L; set_solver].
  sched_step; erewrite step_at_upload;
    [|reflexivity|apply upload_saved_missing; cbn; by rewrite lookup_delete_eq].
  cbn [foldl cf_threads cf_shared sh_disk]. split; [reflexivity|].
  unfold disk_load, write_pickle. cbn [disk_files]. by rewrite lookup_insert_eq.
Qed.

(** C33: a search that loaded the session before an upload of a new
    sheet by the same client writes the old sheet back: the upload
    answers success and its cookie names the new file and its number of
    records, but [data/session_<id>.pkl] holds the previous sheet with
    the search's scans, so the next requests work on a sheet the client
    replaced. *)
Theorem upload_reverted_by_search (c : cookie) (data : search_body) (b sid fid : string)
    (d : session_data) (sh : shared) (m n s' : list nat) (t : nat) (r : upload_request)
    (f : file_storage) (df : frame) :
  disk_writable (sh_disk sh) = true →
  load_current (mk_server c (sh_disk sh) ∅) = Ok (sid, d) →
  barcode_of data = Some b → b ≠ "" →
  search_core (sd_df d) (sd_scanned d) b = (Found m n t, s') →
  check_upload r = UploadAccepted f → secure_filename (fs_filename f) ≠ "" →
  fs_content f = Workbook df →
  cf_threads (run_schedule secure_filename [0; 1; 1; 1; 1; 1; 0; 0]
                (mk_config sh [TSearch (SStart c data); TUpload (UStart fid c r)])) =
    [TSearch (SDone (Ok (Found m n t)));
     TUpload (UDone (Ok (upload_reply_app df))
                    (mk_cookie (Some sid) true (Some (df_len df)) (Some (secure_filename (fs_filename f)))))] ∧
  disk_load sid (sh_disk (cf_shared (run_schedule secure_filename [0; 1; 1; 1; 1; 1; 0; 0]
                (mk_config sh [TSearch (SStart c data); TUpload (UStart fid c r)])))) =
    Some (mk_session_data (sd_df d) s' (sd_filename d)).
Proof.
  intros Hw Hl Hb Hn Hs Hc Hne Hf.
  destruct (load_current_file c (sh_disk sh) sid d Hl) as (Hsid & _ & _).
  unfold run_schedule.
  sched_step; erewrite step_at_search; [|reflexivity|by apply search_start_loaded].
  sched_step; erewrite step_at_upload; [|reflexivity|by apply upload_start_saved].
  rewrite Hf.
  sched_step; erewrite step_at_upload;
    [|reflexivity|apply upload_saved_read; cbn; by rewrite lookup_insert_eq].
  rewrite Hsid. cbn [default].
  sched_step; erewrite step_at_upload; [|reflexivity|by apply upload_read_open].
  sched_step; erewrite step_at_upload; [|reflexivity|reflexivity].
  sched_step; erewrite step_at_upload;
    [|reflexivity|apply upload_stored_removed; cbn; rewrite dom_insert_L; set_solver].
  sched_step; erewrite step_at_search; [|reflexivity|apply search_loaded_found; [done|by cbn]].
  sched_step; erewrite step_at_search; [|reflexivity|reflexivity].
  cbn [foldl cf_threads cf_shared sh_disk]. split; [reflexivity|].
  unfold disk_load, write_pickle. cbn [disk_files]. by rewrite lookup_insert_eq.
Qed.

End Interleaving.

(** ** What no interleaving breaks *)

(** Every data file that [pickle.load] can read holds a well-formed
    session, every sheet under [uploads/] is well formed, and so is
    every session or sheet a thread holds between its steps. *)
Definition blob_ok (b : blob) : Prop :=
  match b with Pickled d => session_ok d | Corrupt => True end.

Definition disk_ok (dk : disk) : Prop := map_Forall (λ _, blob_ok) (disk_files dk).

Definition upload_ok (o : excel_outcome) : Prop :=
  match o with Workbook df => frame_wf df | Unreadable => True end.

Definition uploads_ok (ups : gmap string excel_outcome) : Prop := map_Forall (λ _, upload_ok) ups.

Definition thread_ok (t : thread) : Prop :=
  match t with
  | TSearch (SLoaded _ d _) | TSearch (SWriting _ d _) => session_ok d
  | TUpload (UStart fid _ r) => request_ok (ReqUpload fid r)
  | TUpload (URead _ _ df _) | TUpload (UWriting _ _ df _) => frame_wf df
  | _ => True
  end.

Definition config_ok (cf : config) : Prop :=
  disk_ok (sh_disk (cf_shared cf)) ∧ uploads_ok (sh_uploads (cf_shared cf)) ∧
  Forall thread_ok (cf_threads cf).

#[export] Instance session_ok_dec (d : session_data) : Decision (session_ok d).
Proof. unfold session_ok. apply _. Defined.

#[export] Instance blob_ok_dec (b : blob) : Decision (blob_ok b).
Proof. destruct b; cbn; apply _. Defined.

#[export] Instance upload_ok_dec (o : excel_outcome) : Decision (upload_ok o).
Proof. destruct o; cbn; apply _. Defined.

#[export] Instance thread_ok_dec (t : thread) : Decision (thread_ok t).
Proof. destruct t as [[]|[]|[]]; cbn [thread_ok]; apply _. Defined.

#[export] Instance config_ok_dec (cf : config) : Decision (config_ok cf).
Proof. unfold config_ok, disk_ok, uploads_ok. apply _. Defined.

Section Safety.
Variable secure_filename : string → string.

Lemma disk_ok_insert (dk : disk) (p : string) (b : blob) (w : bool) :
  disk_ok dk → blob_ok b → disk_ok (mk_disk (<[p := b]> (disk_files dk)) w).
Proof. intros Hdk Hb. by apply map_Forall_insert_2. Qed.

Lemma load_current_ok (c : cookie) (dk : disk) (sid : string) (d : session_data) :
  disk_ok dk → load_current (mk_server c dk ∅) = Ok (sid, d) → session_ok d.
Proof.
  intros Hdk Hl. destruct (load_current_file c dk sid d Hl) as (_ & _ & Hf).
  exact (map_Forall_lookup_1 _ _ _ _ Hdk Hf).
Qed.

Lemma search_thread_step_uploads (sh : shared) (t : search_thread) :
  sh_uploads (search_thread_step sh t).2 = sh_uploads sh.
Proof.
  destruct t as [c data|sid d b|sid d' r|r]; cbn; try done.
  - destruct (barcode_of data); [|done]. case_decide; [done|].
    by destruct (load_current _) as [[]|].
  - destruct (search_core _ _ _) as [[]]; [|done]. unfold open_wb.
    by destruct (disk_writable (sh_disk sh)).
Qed.

Lemma search_thread_step_ok (sh : shared) (t : search_thread) :
  disk_ok (sh_disk sh) → thread_ok (TSearch t) →
  disk_ok (sh_disk (search_thread_step sh t).2) ∧ thread_ok (TSearch (search_thread_step sh t).1).
Proof.
  intros Hdk Ht. destruct t as [c data|sid d b|sid d' r|r]; cbn in Ht |- *.
  - destruct (barcode_of data); [|done]. case_decide; [done|].
    destruct (load_current _) as [[sid d]|] eqn:Hl; [|done].
    split; [done|]. by eapply load_current_ok.
  - destruct Ht as [Hwf Hs].
    pose proof (search_core_scanned_inv (sd_df d) (sd_scanned d) b Hwf Hs) as Hs'.
    destruct (search_core _ _ _) as [[m n t|b'] sc]; [|done]. unfold open_wb.
    destruct (disk_writable (sh_disk sh)); cbn; [|done]. split; [|by split].
    by apply disk_ok_insert.
  - split; [|done]. unfold write_pickle. by apply disk_ok_insert.
  - done.
Qed.

Lemma upload_thread_step_ok (sh : shared) (t : upload_thread) :
  disk_ok (sh_disk sh) → uploads_ok (sh_uploads sh) → thread_ok (TUpload t) →
  disk_ok (sh_disk (upload_thread_step secure_filename sh t).2) ∧
  uploads_ok (sh_uploads (upload_thread_step secure_filename sh t).2) ∧
  thread_ok (TUpload (upload_thread_step secure_filename sh t).1).
Proof.
  intros Hdk Hup Ht. destruct t as [fid c r|fid c fn|c sid df fn|c sid df fn|c df fn|r c];
    cbn in Ht |- *.
  - destruct (check_upload r) as [|f] eqn:Hc; [done|]. case_decide; [done|].
    rewrite (check_upload_file r f Hc) in Ht. split_and!; [done| |done].
    by apply map_Forall_insert_2.
  - destruct (sh_uploads sh !! upload_path fn) as [[df|]|] eqn:Hu; try done.
    split_and!; [done|done|]. exact (map_Forall_lookup_1 _ _ _ _ Hup Hu).
  - unfold open_wb. destruct (disk_writable (sh_disk sh)); cbn; [|done].
    split_and!; [|done|done]. by apply disk_ok_insert.
  - split_and!; [|done|done]. unfold write_pickle. apply disk_ok_insert; [done|].
    split; [done|]. split; constructor.
  - case_decide; [|done]. split_and!; [done| |done]. by apply map_Forall_delete.
  - done.
Qed.

Lemma other_thread_step_ok (sh : shared) (t : other_thread) :
  disk_ok (sh_disk sh) →
  disk_ok (sh_disk (other_thread_step sh t).2) ∧
  sh_uploads (other_thread_step sh t).2 = sh_uploads sh.
Proof.
  intros Hdk. destruct t as [c|c|c|sid|r c]; cbn; try done.
  - destruct (ck_session_id c); [|done]. by destruct (disk_files _ !! _).
  - destruct (disk_files _ !! _); [|done]. destruct (disk_writable _); [|done].
    split; [|done]. by apply map_Forall_delete.
Qed.

Lemma step_at_ok (cf : config) (i : nat) : config_ok cf → config_ok (step_at secure_filename cf i).
Proof.
  intros (Hdk & Hup & Hts). unfold step_at.
  destruct (cf_threads cf !! i) as [t|] eqn:Hi; [|done].
  pose proof (Forall_lookup_1 _ _ _ _ Hts Hi) as Ht.
  destruct t as [t|t|t]; cbn.
  - destruct (search_thread_step_ok (cf_shared cf) t Hdk Ht) as [Hdk' Ht'].
    pose proof (search_thread_step_uploads (cf_shared cf) t) as Hu.
    destruct (search_thread_step _ t) as [t' sh'] eqn:E. cbn in *.
    unfold config_ok. cbn [cf_shared cf_threads].
    split_and!; [done|by rewrite Hu|by apply Forall_insert].
  - destruct (upload_thread_step_ok (cf_shared cf) t Hdk Hup Ht) as (Hdk' & Hup' & Ht').
    destruct (upload_thread_step _ _ t) as [t' sh'] eqn:E. cbn in *.
    split_and!; [done|done|by apply Forall_insert].
  - destruct (other_thread_step_ok (cf_shared cf) t Hdk) as [Hdk' Hu].
    destruct (other_thread_step _ t) as [t' sh'] eqn:E. cbn in *.
    unfold config_ok. cbn [cf_shared cf_threads].
    split_and!; [done|by rewrite Hu|by apply Forall_insert].
Qed.

(** C16: whatever the interleaving of the five handlers, every data
    file that can be read holds a well-formed session (unique columns,
    distinct scanned row indices of its sheet): the races above lose
    scans or read the wrong sheet, but never store a malformed one. *)
Theorem schedule_keeps_sessions_ok (sched : list nat) (cf : config) (sid : string)
    (d : session_data) :
  config_ok cf →
  disk_load sid (sh_disk (cf_shared (run_schedule secure_filename sched cf))) = Some d →
  session_ok d.
Proof.
  intros Hok. assert (config_ok (run_schedule secure_filename sched cf)) as (Hdk & _ & _).
  { unfold run_schedule. revert cf Hok.
    induction sched as [|i sched IH]; intros cf Hok; [done|]. cbn. by apply IH, step_at_ok. }
  unfold disk_load. destruct (disk_files _ !! _) as [[d'|]|] eqn:E; [|done|done].
  intros [= <-]. exact (map_Forall_lookup_1 _ _ _ _ Hdk E).
Qed.

End Safety.

(** ** Witnesses *)

Definition cookie_s1 : cookie := mk_cookie (Some "s1") true (Some 4) (Some "inventario.xlsx").

Definition shared_s1 : shared :=
  mk_shared (mk_disk {[get_session_data_path "s1" := Pickled stored_session]} true) ∅.

Definition scan (code : string) : search_body := Some {["barcode" := JString code]}.

Lemma lost_scan_update_witness :
  cf_threads (run_schedule keep_name [0; 1; 0; 0; 1; 1]
                (mk_config shared_s1 [TSearch (SStart cookie_s1 (scan "A100"));
                                      TSearch (SStart cookie_s1 (scan "C400"))])) =
    [TSearch (SDone (Ok (Found [0; 1] [0; 1] 2))); TSearch (SDone (Ok (Found [3; 3] [3] 1)))] ∧
  disk_load "s1" (sh_disk (cf_shared (run_schedule keep_name [0; 1; 0; 0; 1; 1]
                (mk_config shared_s1 [TSearch (SStart cookie_s1 (scan "A100"));
                                      TSearch (SStart cookie_s1 (scan "C400"))])))) =
    Some (mk_session_data (sd_df stored_session) [3] (sd_filename stored_session)) ∧
  (∀ i, i ∈ [0; 1] → i ∉ [3; 3] → i ∉ [3]).
Proof.
  apply (lost_scan_update keep_name cookie_s1 (scan "A100") (scan "C400") "A100" "C400" "s1"
           stored_session shared_s1 [0; 1] [0; 1] [3; 3] [3] [0; 1] [3] 2 1);
    first [reflexivity|discriminate|vm_compute; reflexivity].
Defined.

Lemma torn_read_load_error_witness :
  cf_threads (run_schedule keep_name [0; 0; 1; 0]
                (mk_config shared_s1 [TSearch (SStart cookie_s1 (scan "A100"));
                                      TSearch (SStart cookie_s1 (scan "C400"))])) =
    [TSearch (SDone (Ok (Found [0; 1] [0; 1] 2))); TSearch (SDone (Fail 500 ErrLoadData))] ∧
  disk_load "s1" (sh_disk (cf_shared (run_schedule keep_name [0; 0; 1; 0]
                (mk_config shared_s1 [TSearch (SStart cookie_s1 (scan "A100"));
                                      TSearch (SStart cookie_s1 (scan "C400"))])))) =
    Some (mk_session_data (sd_df stored_session) [0; 1] (sd_filename stored_session)).
Proof.
  apply (torn_read_load_error keep_name cookie_s1 (scan "A100") (scan "C400") "A100" "C400" "s1"
           stored_session shared_s1 [0; 1] [0; 1] [0; 1] 2);
    first [reflexivity|discriminate|vm_compute; reflexivity].
Defined.

Lemma reset_resurrected_witness :
  cf_threads (run_schedule keep_name [0; 1; 1; 0; 0]
                (mk_config shared_s1 [TSearch (SStart cookie_s1 (scan "A100")); TOther (OReset cookie_s1)])) =
    [TSearch (SDone (Ok (Found [0; 1] [0; 1] 2))); TOther (ODone (Ok RReset) empty_cookie)] ∧
  disk_load "s1" (sh_disk (cf_shared (run_schedule keep_name [0; 1; 1; 0; 0]
                (mk_config shared_s1 [TSearch (SStart cookie_s1 (scan "A100")); TOther (OReset cookie_s1)])))) =
    Some (mk_session_data (sd_df stored_session) [0; 1] (sd_filename stored_session)).
Proof.
  apply (reset_resurrected keep_name cookie_s1 (scan "A100") "A100" "s1" stored_session shared_s1
           [0; 1] [0; 1] [0; 1] 2);
    first [reflexivity|discriminate|vm_compute; reflexivity].
Defined.

Definition other_sheet : frame := mk_frame ["Codigo"] [[CStr "Z9"]].

Definition upload_of (fn : string) (df : frame) : upload_request :=
  mk_upload_request (Some (mk_file fn (Workbook df))).

Lemma upload_clobbered_witness :
  cf_threads (run_schedule keep_name [0; 1; 0; 0; 0; 0; 1]
    (mk_config shared_s1 [TUpload (UStart "a" empty_cookie (upload_of "conteo.xlsx" inventory_sample));
                          TUpload (UStart "b" empty_cookie (upload_of "conteo.xlsx" other_sheet))])) =
    [TUpload (UDone (Ok (upload_reply_app other_sheet))
                    (mk_cookie (Some (default "a" (ck_session_id empty_cookie))) true
                               (Some (df_len other_sheet)) (Some (keep_name "conteo.xlsx"))));
     TUpload (UDone (Fail 500 ErrProcessFile) empty_cookie)] ∧
  disk_load (default "a" (ck_session_id empty_cookie))
    (sh_disk (cf_shared (run_schedule keep_name [0; 1; 0; 0; 0; 0; 1]
      (mk_config shared_s1 [TUpload (UStart "a" empty_cookie (upload_of "conteo.xlsx" inventory_sample));
                            TUpload (UStart "b" empty_cookie (upload_of "conteo.xlsx" other_sheet))])))) =
    Some (mk_session_data other_sheet [] (keep_name "conteo.xlsx")).
Proof.
  apply (upload_clobbered keep_name "a" "b" empty_cookie empty_cookie
           (upload_of "conteo.xlsx" inventory_sample) (upload_of "conteo.xlsx" other_sheet)
           (mk_file "conteo.xlsx" (Workbook inventory_sample))
           (mk_file "conteo.xlsx" (Workbook other_sheet)) inventory_sample other_sheet shared_s1);
    first [reflexivity|discriminate|vm_compute; reflexivity].
Defined.


(** A search that loaded the session before an upload of another sheet
    writes its scans after it: the data file goes back to the old sheet
    while the uploader's cookie names the new one, yet what is stored is
    still a well-formed session. *)
(** The client of [cookie_s1] scans [A100] and uploads [other_sheet]
    meanwhile. *)
Lemma upload_reverted_by_search_witness :
  cf_threads (run_schedule keep_name [0; 1; 1; 1; 1; 1; 0; 0]
                (mk_config shared_s1 [TSearch (SStart cookie_s1 (scan "A100"));
                                      TUpload (UStart "b" cookie_s1 (upload_of "conteo.xlsx" other_sheet))])) =
    [TSearch (SDone (Ok (Found [0; 1] [0; 1] 2)));
     TUpload (UDone (Ok (upload_reply_app other_sheet))
                    (mk_cookie (Some "s1") true (Some (df_len other_sheet))
                               (Some (keep_name (fs_filename (mk_file "conteo.xlsx" (Workbook other_sheet)))))))] ∧
  disk_load "s1" (sh_disk (cf_shared (run_schedule keep_name [0; 1; 1; 1; 1; 1; 0; 0]
                (mk_config shared_s1 [TSearch (SStart cookie_s1 (scan "A100"));
                                      TUpload (UStart "b" cookie_s1 (upload_of "conteo.xlsx" other_sheet))])))) =
    Some (mk_session_data (sd_df stored_session) [0; 1] (sd_filename stored_session)).
Proof.
  apply (upload_reverted_by_search keep_name cookie_s1 (scan "A100") "A100" "s1" "b" stored_session
           shared_s1 [0; 1] [0; 1] [0; 1] 2 (upload_of "conteo.xlsx" other_sheet)
           (mk_file "conteo.xlsx" (Workbook other_sheet)) other_sheet);
    first [reflexivity|discriminate|vm_compute; reflexivity].
Defined.

Lemma schedule_keeps_sessions_ok_witness :
  config_ok (mk_config shared_s1 [TSearch (SStart cookie_s1 (scan "A100"));
               TUpload (UStart "b" cookie_s1 (upload_of "conteo.xlsx" other_sheet))]) ∧
  disk_load "s1" (sh_disk (cf_shared (run_schedule keep_name [0; 1; 1; 1; 1; 1; 1; 0; 0]
    (mk_config shared_s1 [TSearch (SStart cookie_s1 (scan "A100"));
                          TUpload (UStart "b" cookie_s1 (upload_of "conteo.xlsx" other_sheet))])))) =
    Some (mk_session_data (sd_df stored_session) [0; 1] (sd_filename stored_session)) ∧
  session_ok (mk_session_data (sd_df stored_session) [0; 1] (sd_filename stored_session)).
Proof.
  assert (config_ok (mk_config shared_s1 [TSearch (SStart cookie_s1 (scan "A100"));
            TUpload (UStart "b" cookie_s1 (upload_of "conteo.xlsx" other_sheet))])) as Hok
    by (apply (@bool_decide_unpack _ (config_ok_dec _)); vm_compute; reflexivity).
  assert (disk_load "s1" (sh_disk (cf_shared (run_schedule keep_name [0; 1; 1; 1; 1; 1; 1; 0; 0]
    (mk_config shared_s1 [TSearch (SStart cookie_s1 (scan "A100"));
                          TUpload (UStart "b" cookie_s1 (upload_of "conteo.xlsx" other_sheet))])))) =
    Some (mk_session_data (sd_df stored_session) [0; 1] (sd_filename stored_session))) as Hl
    by (vm_compute; reflexivity).
  split_and!; [exact Hok|exact Hl|].
  exact (schedule_keeps_sessions_ok keep_name _ _ "s1" _ Hok Hl).
Defined.

End Concurrent.
