(* ===== verification/Liveness.v ===== *)
(** * Every interleaving of [App.py]'s threads ends, and every request is answered

    The threaded model of [Concurrent] cuts [search_barcode] into three
    steps, [upload_file] into five, [reset_session] into two and
    [get_stats] and [export_results] into one; no step loops or waits for
    another thread (the handlers take no lock).  Each thread therefore
    has a number of steps left, which every one of its steps lowers,
    and a configuration the sum of these numbers.  The theorems: a run
    that only steps live threads has at most that many steps, so no
    interleaving is infinite; and a scheduler that serves the threads
    in turn ([round_robin]) answers every request after five rounds.
    Both only count steps.  What such a schedule does for the program is
    [fair_schedule_completes_upload]: an upload under a name no other
    upload uses, of a readable sheet, on a writable data folder, answers
    success and removes its copy from [uploads/], whatever the other
    threads do; proved with the invariant [upload_inv], which follows
    the upload's state and [uploads/<name>] through every step of every
    thread. *)

From S2P Require Import Prelude PyStr Frame Matcher Progress Exporter Upload Records Session Store AppFile Concurrent.
From stdpp Require Import gmap relations.

Module Liveness.
#[local] Unset Default Proof Using.
Import Frame Upload Session Store AppFile Concurrent.Concurrent.

(** ** Steps left *)

Definition search_left (t : search_thread) : nat :=
  match t with SStart _ _ => 3 | SLoaded _ _ _ => 2 | SWriting _ _ _ => 1 | SDone _ => 0 end.

Definition upload_left (t : upload_thread) : nat :=
  match t with
  | UStart _ _ _ => 5 | USaved _ _ _ => 4 | URead _ _ _ _ => 3
  | UWriting _ _ _ _ => 2 | UStored _ _ _ => 1 | UDone _ _ => 0
  end.

Definition other_left (t : other_thread) : nat :=
  match t with OStats _ | OExport _ | ORemoving _ => 1 | OReset _ => 2 | ODone _ _ => 0 end.

Definition thread_left (t : thread) : nat :=
  match t with
  | TSearch t => search_left t | TUpload t => upload_left t | TOther t => other_left t
  end.

(** A thread whose handler has returned its response. *)
Definition thread_done (t : thread) : Prop :=
  match t with
  | TSearch (SDone _) | TUpload (UDone _ _) | TOther (ODone _ _) => True
  | _ => False
  end.

#[export] Instance thread_done_dec (t : thread) : Decision (thread_done t).
Proof. destruct t as [[]|[]|[]]; cbn; apply _. Defined.

Definition work (cf : config) : nat := sum_list_with thread_left (cf_threads cf).

(** Steps left of thread [j], [0] past the end of the list. *)
Definition left_at (cf : config) (j : nat) : nat := from_option thread_left 0 (cf_threads cf !! j).

(** [round_robin n]: five rounds over threads [0 .. n-1]. *)
Definition round_robin (n : nat) : list nat := mjoin (replicate 5 (seq 0 n)).

Section Steps.
Variable secure_filename : string → string.

(** One step of a live thread. *)
Inductive cstep (cf : config) : config → Prop :=
  | cstep_at (i : nat) (t : thread) :
      cf_threads cf !! i = Some t → ¬ thread_done t → cstep cf (step_at secure_filename cf i).

(** The secure file name an upload thread saves under, once its request
    passed the checks. *)
Definition upload_name (t : thread) : option string :=
  match t with
  | TUpload (UStart _ _ r) =>
      match check_upload r with
      | UploadAccepted f => Some (secure_filename (fs_filename f))
      | UploadRejected _ _ => None
      end
  | TUpload (USaved _ _ fn) | TUpload (URead _ _ _ fn) | TUpload (UWriting _ _ _ fn)
  | TUpload (UStored _ _ fn) => Some fn
  | _ => None
  end.

(** How far an upload of the readable sheet [df] under the name [n] has
    got, and what [uploads/<n>] holds at that point. *)
Definition upload_progress (n : string) (df : frame) (ups : gmap string excel_outcome) (t : thread)
    : Prop :=
  match t with
  | TUpload (UStart _ _ r) =>
      ∃ f, check_upload r = UploadAccepted f ∧ secure_filename (fs_filename f) = n ∧ n ≠ "" ∧
           fs_content f = Workbook df
  | TUpload (USaved _ _ fn) => fn = n ∧ ups !! upload_path n = Some (Workbook df)
  | TUpload (URead _ _ df' fn) | TUpload (UWriting _ _ df' fn) | TUpload (UStored _ df' fn) =>
      fn = n ∧ df' = df ∧ ups !! upload_path n = Some (Workbook df)
  | TUpload (UDone r _) => r = Ok (upload_reply_app df) ∧ ups !! upload_path n = None
  | _ => False
  end.

(** Thread [i] is that upload, no other thread uploads under [n], and
    the data folder accepts writes. *)
Definition upload_inv (i : nat) (n : string) (df : frame) (cf : config) : Prop :=
  disk_writable (sh_disk (cf_shared cf)) = true ∧
  (∃ t, cf_threads cf !! i = Some t ∧ upload_progress n df (sh_uploads (cf_shared cf)) t) ∧
  (∀ j t, j ≠ i → cf_threads cf !! j = Some t → upload_name t ≠ Some n).

(** ** Each step lowers the steps left *)

Lemma thread_left_done (t : thread) : thread_left t = 0 ↔ thread_done t.
Proof. destruct t as [[]|[]|[]]; cbn; naive_solver. Qed.

Lemma thread_left_le (t : thread) : thread_left t ≤ 5.
Proof. destruct t as [[]|[]|[]]; cbn; lia. Qed.

Lemma search_left_step (sh : shared) (t : search_thread) :
  search_left (search_thread_step sh t).1 ≤ search_left t - 1.
Proof. destruct t; cbn; repeat case_match; cbn; lia. Qed.

Lemma upload_left_step (sh : shared) (t : upload_thread) :
  upload_left (upload_thread_step secure_filename sh t).1 ≤ upload_left t - 1.
Proof. destruct t; cbn; repeat case_match; cbn; lia. Qed.

Lemma other_left_step (sh : shared) (t : other_thread) :
  other_left (other_thread_step sh t).1 ≤ other_left t - 1.
Proof. destruct t; cbn; repeat case_match; cbn; lia. Qed.

Lemma thread_left_step (sh : shared) (t : thread) :
  thread_left (thread_step secure_filename sh t).1 ≤ thread_left t - 1.
Proof.
  destruct t as [t|t|t]; cbn.
  - pose proof (search_left_step sh t). by destruct (search_thread_step sh t).
  - pose proof (upload_left_step sh t). by destruct (upload_thread_step _ sh t).
  - pose proof (other_left_step sh t). by destruct (other_thread_step sh t).
Qed.

(** Thread [i] steps: the others keep their state, the list its length. *)
Lemma step_at_threads (cf : config) (i : nat) (t : thread) :
  cf_threads cf !! i = Some t →
  cf_threads (step_at secure_filename cf i) =
    <[i := (thread_step secure_filename (cf_shared cf) t).1]> (cf_threads cf).
Proof. intros Hi. unfold step_at. rewrite Hi. by destruct (thread_step _ _ t). Qed.

Lemma step_at_none (cf : config) (i : nat) :
  cf_threads cf !! i = None → step_at secure_filename cf i = cf.
Proof. intros Hi. unfold step_at. by rewrite Hi. Qed.

Lemma length_step_at (cf : config) (i : nat) :
  length (cf_threads (step_at secure_filename cf i)) = length (cf_threads cf).
Proof.
  destruct (cf_threads cf !! i) as [t|] eqn:Hi; [|by rewrite step_at_none].
  rewrite (step_at_threads _ _ t Hi). apply length_insert.
Qed.

Lemma left_at_step (cf : config) (i j : nat) :
  left_at (step_at secure_filename cf i) j ≤ left_at cf j - (if decide (i = j) then 1 else 0).
Proof.
  unfold left_at. destruct (cf_threads cf !! i) as [t|] eqn:Hi.
  - rewrite (step_at_threads _ _ t Hi). destruct (decide (i = j)) as [<-|Hne].
    + rewrite list_lookup_insert_eq by (by eapply lookup_lt_Some). rewrite Hi.
      apply thread_left_step.
    + rewrite list_lookup_insert_ne by done. lia.
  - rewrite step_at_none by done. case_decide; [subst; rewrite Hi; cbn|]; lia.
Qed.

(** ** Termination *)

Lemma work_cstep (cf cf' : config) : cstep cf cf' → work cf' < work cf.
Proof.
  intros [i t Hi Hlive]. unfold work. rewrite (step_at_threads _ _ t Hi).
  pose proof (sum_list_with_insert thread_left _ _ _
                (thread_step secure_filename (cf_shared cf) t).1 Hi).
  pose proof (thread_left_step (cf_shared cf) t).
  assert (thread_left t ≠ 0) by by rewrite thread_left_done. lia.
Qed.

Lemma cstep_wf : well_founded (λ cf' cf, cstep cf cf').
Proof. apply (wf_projected (<) work); [intros; by apply work_cstep|apply lt_wf]. Qed.

(** A configuration with a live thread can step. *)
Lemma cstep_progress (cf : config) :
  ¬ Forall thread_done (cf_threads cf) → ∃ cf', cstep cf cf'.
Proof.
  intros Hn. apply not_Forall_Exists in Hn; [|apply _].
  apply Exists_exists in Hn as (t & Ht%list_elem_of_lookup & Hlive).
  destruct Ht as [i Hi]. eexists. by econstructor.
Qed.

(** ** Round robin *)

Lemma left_at_run (sched : list nat) (cf : config) (j : nat) :
  left_at (run_schedule secure_filename sched cf) j ≤
    left_at cf j - length (filter (λ i, i = j) sched).
Proof.
  unfold run_schedule. revert cf. induction sched as [|i sched IH]; intros cf; cbn [foldl]; [cbn; lia|].
  pose proof (left_at_step cf i j). specialize (IH (step_at secure_filename cf i)).
  rewrite filter_cons. repeat case_decide; cbn [length] in *; try lia; congruence.
Qed.

Lemma length_run_schedule (sched : list nat) (cf : config) :
  length (cf_threads (run_schedule secure_filename sched cf)) = length (cf_threads cf).
Proof.
  unfold run_schedule. revert cf.
  induction sched as [|i sched IH]; intros cf; cbn; [done|]. by rewrite IH, length_step_at.
Qed.

Lemma nsteps_work (n : nat) (cf cf' : config) : nsteps cstep n cf cf' → n + work cf' ≤ work cf.
Proof. induction 1 as [|n cf1 cf2 cf3 Hs _ IH]; [lia|]. pose proof (work_cstep _ _ Hs). lia. Qed.

Lemma work_le (cf : config) : work cf ≤ 5 * length (cf_threads cf).
Proof.
  unfold work. induction (cf_threads cf) as [|t ts IH]; cbn; [lia|].
  pose proof (thread_left_le t). lia.
Qed.

(** Whether each index of a schedule names a thread that has not
    answered yet when its turn comes. *)
Definition live_at (cf : config) (i : nat) : bool :=
  match cf_threads cf !! i with Some t => bool_decide (¬ thread_done t) | None => false end.

Fixpoint live_schedule (sched : list nat) (cf : config) : bool :=
  match sched with
  | [] => true
  | i :: sched' => live_at cf i && live_schedule sched' (step_at secure_filename cf i)
  end.

Lemma live_schedule_nsteps (sched : list nat) (cf : config) :
  live_schedule sched cf = true →
  nsteps cstep (length sched) cf (run_schedule secure_filename sched cf).
Proof.
  unfold run_schedule. revert cf. induction sched as [|i sched IH]; intros cf; cbn; [constructor|].
  intros [Hi Hs]%andb_prop. unfold live_at in Hi.
  destruct (cf_threads cf !! i) as [t|] eqn:Ht; [|done]. apply bool_decide_eq_true in Hi.
  econstructor; [by econstructor|]. by apply IH.
Qed.

(** termination.  An interleaving of the running requests in
    which every step moves a thread that has not answered yet is
    finite: it has at most as many steps as the requests have left
    (three for a search, five for an upload, two for a reset, one for
    stats or an export), so at most five per
    request.  No schedule can keep the server busy forever. *)
Theorem interleavings_terminate (n : nat) (cf cf' : config) :
  nsteps cstep n cf cf' → n ≤ work cf ∧ work cf ≤ 5 * length (cf_threads cf).
Proof. intros Hn. pose proof (nsteps_work n cf cf' Hn). pose proof (work_le cf). lia. Qed.

(** liveness.  A schedule that gives every thread at least five
    turns (round robin for five rounds, say) leaves every request
    answered, whatever the order of the turns. *)
Theorem fair_schedule_answers (sched : list nat) (cf : config) :
  (∀ j, j < length (cf_threads cf) → 5 ≤ length (filter (λ i, i = j) sched)) →
  Forall thread_done (cf_threads (run_schedule secure_filename sched cf)).
Proof.
  intros Hfair. apply Forall_lookup. intros j t Ht.
  pose proof (lookup_lt_Some _ _ _ Ht) as Hj. rewrite length_run_schedule in Hj.
  pose proof (left_at_run sched cf j) as Hl. specialize (Hfair j Hj).
  unfold left_at in Hl. rewrite Ht in Hl. cbn in Hl. apply thread_left_done.
  destruct (cf_threads cf !! j) as [t0|]; cbn in Hl; [pose proof (thread_left_le t0)|]; lia.
Qed.

(** ** An upload under a name no other request uses completes *)

Lemma upload_path_inj (a b : string) : upload_path a = upload_path b → a = b.
Proof.
  unfold upload_path. intros H%(f_equal PyStr.chars). rewrite !PyStr.chars_app in H.
  apply app_inv_head in H. apply app_inv_head in H. by apply PyStr.chars_inj.
Qed.

Lemma upload_path_ne (a b : string) : Some a ≠ Some b → upload_path a ≠ upload_path b.
Proof. intros Hne Heq. apply Hne. f_equal. by apply upload_path_inj. Qed.

(** No step makes the data folder refuse writes. *)
Lemma thread_step_writable (sh : shared) (t : thread) :
  disk_writable (sh_disk sh) = true →
  disk_writable (sh_disk (thread_step secure_filename sh t).2) = true.
Proof.
  intros Hw. destruct t as [[]|[]|[]]; cbn; unfold open_wb, write_pickle;
    repeat (case_match; simplify_eq/=); rewrite ?Hw in *; done.
Qed.

(** A thread that does not upload under [n] leaves [uploads/<n>] alone
    and never starts to. *)
Lemma thread_step_other (sh : shared) (t : thread) (n : string) :
  upload_name t ≠ Some n →
  sh_uploads (thread_step secure_filename sh t).2 !! upload_path n = sh_uploads sh !! upload_path n ∧
  upload_name (thread_step secure_filename sh t).1 ≠ Some n.
Proof.
  intros Hn. destruct t as [[]|[]|[]]; cbn in *; unfold open_wb, write_pickle;
    repeat (case_match; simplify_eq/=); try done;
    first [rewrite lookup_insert_ne by (by apply upload_path_ne)
          |rewrite lookup_delete_ne by (by apply upload_path_ne)]; done.
Qed.

Lemma upload_progress_ext (n : string) (df : frame) (ups1 ups2 : gmap string excel_outcome) (t : thread) :
  ups1 !! upload_path n = ups2 !! upload_path n →
  upload_progress n df ups1 t → upload_progress n df ups2 t.
Proof. intros Heq. destruct t as [|[]|]; cbn; by rewrite ?Heq. Qed.

(** The upload itself: save, read, open, dump, remove, on a folder
    that accepts writes. *)
Lemma upload_progress_step (sh : shared) (t : thread) (n : string) (df : frame) :
  disk_writable (sh_disk sh) = true → upload_progress n df (sh_uploads sh) t →
  upload_progress n df (sh_uploads (thread_step secure_filename sh t).2) (thread_step secure_filename sh t).1.
Proof.
  intros Hw Hp.
  destruct t as [|[fid c r|fid c fn|c sid df' fn|c sid df' fn|c df' fn|rr c]|]; cbn in Hp |- *; try done.
  - destruct Hp as (f & Hc & <- & Hne & Hf). rewrite Hc, decide_False by done. cbn.
    split; [done|]. by rewrite lookup_insert_eq, Hf.
  - destruct Hp as [-> Hl]. rewrite Hl. done.
  - destruct Hp as (-> & -> & Hl). unfold open_wb. rewrite Hw. done.
  - destruct Hp as (-> & -> & Hl). rewrite decide_True by (apply elem_of_dom; by eexists).
    split; [done|]. apply lookup_delete_eq.
Qed.

Lemma step_at_upload_inv (i : nat) (n : string) (df : frame) (cf : config) (j : nat) :
  upload_inv i n df cf → upload_inv i n df (step_at secure_filename cf j).
Proof.
  intros (Hw & (ti & Hi & Hp) & Hoth). unfold upload_inv, step_at.
  destruct (cf_threads cf !! j) as [t|] eqn:Hj; [|by split_and!; eauto].
  pose proof (thread_step_writable _ t Hw) as Hw'.
  destruct (decide (j = i)) as [->|Hji].
  - rewrite Hi in Hj. injection Hj as <-.
    pose proof (upload_progress_step _ ti n df Hw Hp) as Hp'.
    destruct (thread_step secure_filename (cf_shared cf) ti) as [t' sh']. cbn in *.
    split_and!; [done|exists t'; split; [by rewrite list_lookup_insert_eq by (by eapply lookup_lt_Some)|done]|].
    intros k tk Hki Hk. cbn in Hk. rewrite list_lookup_insert_ne in Hk by done. by apply (Hoth k).
  - destruct (thread_step_other (cf_shared cf) t n (Hoth j t Hji Hj)) as [Hl Hn'].
    destruct (thread_step secure_filename (cf_shared cf) t) as [t' sh']. cbn in *.
    split_and!; [done|exists ti; split; [by rewrite list_lookup_insert_ne|]|].
    + by apply (upload_progress_ext _ _ (sh_uploads (cf_shared cf))).
    + intros k tk Hki Hk. cbn in Hk. destruct (decide (k = j)) as [->|Hkj].
      * rewrite list_lookup_insert_eq in Hk by (by eapply lookup_lt_Some). by injection Hk as <-.
      * rewrite list_lookup_insert_ne in Hk by done. by apply (Hoth k).
Qed.

Lemma run_upload_inv (i : nat) (n : string) (df : frame) (sched : list nat) (cf : config) :
  upload_inv i n df cf → upload_inv i n df (run_schedule secure_filename sched cf).
Proof.
  unfold run_schedule. revert cf. induction sched as [|j sched IH]; intros cf Hinv; [done|].
  cbn [foldl]. by apply IH, step_at_upload_inv.
Qed.

(** C15: liveness of an upload.  Under any schedule that gives every
    thread five turns, in any order and whatever the other requests
    (searches, stats, exports, resets, other uploads) do, an upload of a
    readable sheet whose secure name no other upload uses, on a data
    folder that accepts writes, ends answered with success and the
    sheet's reply, and its copy in [uploads/] has been removed. *)
Theorem fair_schedule_completes_upload (sched : list nat) (cf : config) (i : nat) (fid : string)
    (c : cookie) (r : upload_request) (f : file_storage) (df : frame) :
  cf_threads cf !! i = Some (TUpload (UStart fid c r)) →
  check_upload r = UploadAccepted f → fs_content f = Workbook df →
  secure_filename (fs_filename f) ≠ "" →
  (∀ j t, j ≠ i → cf_threads cf !! j = Some t → upload_name t ≠ Some (secure_filename (fs_filename f))) →
  disk_writable (sh_disk (cf_shared cf)) = true →
  (∀ j, j < length (cf_threads cf) → 5 ≤ length (filter (λ k, k = j) sched)) →
  ∃ c', cf_threads (run_schedule secure_filename sched cf) !! i =
          Some (TUpload (UDone (Ok (upload_reply_app df)) c')) ∧
        sh_uploads (cf_shared (run_schedule secure_filename sched cf)) !!
          upload_path (secure_filename (fs_filename f)) = None.
Proof.
  intros Hi Hc Hf Hne Hoth Hw Hfair.
  destruct (run_upload_inv i (secure_filename (fs_filename f)) df sched cf) as (_ & (t & Ht & Hp) & _).
  { split_and!; [done| |done]. exists (TUpload (UStart fid c r)). split; [done|]. cbn. by exists f. }
  pose proof (fair_schedule_answers sched cf Hfair) as Hdone.
  eapply Forall_lookup_1 in Hdone; [|exact Ht].
  destruct t as [|[]|]; cbn in Hp, Hdone; try done.
  destruct Hp as [-> Hl]. eauto.
Qed.

End Steps.

(** ** Witnesses *)

(** A search and an upload of one session, as in
    [Concurrent.schedule_keeps_sessions_ok_witness]. *)
Definition search_and_upload : config :=
  mk_config shared_s1 [TSearch (SStart cookie_s1 (scan "A100"));
                       TUpload (UStart "b" cookie_s1 (upload_of "conteo.xlsx" other_sheet))].

Lemma interleavings_terminate_witness :
  nsteps (cstep keep_name) 8 search_and_upload
    (run_schedule keep_name [0; 1; 1; 1; 1; 1; 0; 0] search_and_upload) ∧
  8 ≤ work search_and_upload ∧ work search_and_upload ≤ 5 * 2.
Proof.
  assert (nsteps (cstep keep_name) 8 search_and_upload
            (run_schedule keep_name [0; 1; 1; 1; 1; 1; 0; 0] search_and_upload)) as Hn
    by (apply (live_schedule_nsteps keep_name [0; 1; 1; 1; 1; 1; 0; 0]); vm_compute; reflexivity).
  split; [exact Hn|]. exact (interleavings_terminate keep_name 8 _ _ Hn).
Defined.

Lemma fair_schedule_answers_witness :
  cf_threads (run_schedule keep_name (round_robin 2) search_and_upload) =
    [TSearch (SDone (Ok (Matcher.Found [0; 1] [0; 1] 2)));
     TUpload (UDone (Ok (upload_reply_app other_sheet))
                    (mk_cookie (Some "s1") true (Some 1) (Some "conteo.xlsx")))] ∧
  Forall thread_done (cf_threads (run_schedule keep_name (round_robin 2) search_and_upload)).
Proof.
  split; [vm_compute; reflexivity|].
  apply (fair_schedule_answers keep_name (round_robin 2) search_and_upload).
  intros j Hj. cbn in Hj. destruct j as [|[|j]]; [vm_compute; lia|vm_compute; lia|lia].
Defined.

(** The upload of [search_and_upload], served in turn with the search. *)
Lemma fair_schedule_completes_upload_witness :
  ∃ c', cf_threads (run_schedule keep_name (round_robin 2) search_and_upload) !! 1 =
          Some (TUpload (UDone (Ok (upload_reply_app other_sheet)) c')) ∧
        sh_uploads (cf_shared (run_schedule keep_name (round_robin 2) search_and_upload)) !!
          upload_path (keep_name (fs_filename (mk_file "conteo.xlsx" (Workbook other_sheet)))) = None.
Proof.
  apply (fair_schedule_completes_upload keep_name (round_robin 2) search_and_upload 1 "b" cookie_s1
           (upload_of "conteo.xlsx" other_sheet) (mk_file "conteo.xlsx" (Workbook other_sheet)) other_sheet);
    [reflexivity|reflexivity|reflexivity|discriminate| |reflexivity|].
  - intros j t Hj Ht. destruct j as [|[|j]]; [|done|done]. cbn in Ht. by injection Ht as <-.
  - intros j Hj. cbn in Hj. destruct j as [|[|j]]; [vm_compute; lia|vm_compute; lia|lia].
Defined.

End Liveness.
