(* ===== verification/CookieConcurrent.v ===== *)
(** * Overlapping requests of [inventory_flask_app.py]

    The cookie variant keeps the whole session in the browser: Flask
    loads it from the cookie the request carries and, when the handler
    has assigned to [session], sends the new session back in a
    [Set-Cookie] header; the browser then keeps the last cookie it
    receives.  Flask only sends the cookie when [session.modified] is
    set ([SecureCookieSessionInterface.should_set_cookie], the session
    not being permanent), which happens in exactly three places of the
    source: the four assignments of [upload_file] (lines 45-48),
    [session['scanned_items'] = scanned_items] in [search_barcode]
    (line 100), and [session.clear()] in [reset_session] (line 172).

    Each request is handled as [AppCookie.handle] on the cookie it was
    sent with; what interleaves is the sending of requests and the
    arrival of their answers.  A browser that waits for each answer
    sees exactly the sequential handlers ([one_at_a_time]); two
    requests in flight at once, as the page's scanning field sends them
    when codes are scanned quickly, lose the first one's changes
    ([last_answer_wins] for any handlers, [cookie_lost_scan_update] for
    two scans, unfolding [search_barcode]). *)

From S2P Require Import Prelude PyStr Frame Matcher Progress Exporter Upload Records Session Store AppFile AppCookie.
From stdpp Require Import gmap.

Module CookieConcurrent.
#[local] Unset Default Proof Using.
Import Frame Matcher Upload Session AppCookie.AppCookie.

(** ** Which handlers send a cookie *)

Section Client.
Variable secure_filename : string → string.

(** Whether the handler assigns to [session] on request [rq]: an upload
    that reaches line 45, a search that finds the code (line 100), and
    every reset (line 172). *)
Definition session_modified (rq : request) (s : cserver) : bool :=
  match rq with
  | ReqUpload _ r =>
      match check_upload r with
      | UploadRejected _ _ => false
      | UploadAccepted f =>
          bool_decide (secure_filename (fs_filename f) ≠ "") &&
          match fs_content f with Workbook _ => true | Unreadable => false end
      end
  | ReqSearch data =>
      match barcode_of data, ss_df_data (cs_session s) with
      | Some b, Some recs =>
          bool_decide (b ≠ "") && bool_decide (found_indices (from_records recs) b ≠ [])
      | _, _ => false
      end
  | ReqStats | ReqExport => false
  | ReqReset => true
  end.

(** The browser: the cookie it holds and sends, the server's [uploads/]
    folder, the answers still in flight (each with the cookie it sets,
    if any; [None] once received), and the answers received, in the
    order they arrived. *)
Record client := mk_client {
  cl_cookie : session;
  cl_uploads : gset string;
  cl_inflight : list (option (response reply * option session));
  cl_received : list (response reply)
}.

Inductive event :=
  | Send (rq : request)
  | Recv (i : nat).

Definition server_of (c : client) : cserver := mk_cserver (cl_cookie c) (cl_uploads c).

(** The answer to [rq] sent with the browser's cookie, and the cookie
    it carries back. *)
Definition answer (rq : request) (s : cserver) : response reply * option session :=
  ((handle secure_filename rq s).1,
   if session_modified rq s then Some (cs_session (handle secure_filename rq s).2) else None).

Definition client_step (c : client) (e : event) : client :=
  match e with
  | Send rq =>
      mk_client (cl_cookie c) (cs_uploads (handle secure_filename rq (server_of c)).2)
                (cl_inflight c ++ [Some (answer rq (server_of c))]) (cl_received c)
  | Recv i =>
      match mjoin (cl_inflight c !! i) with
      | Some (r, ck) =>
          mk_client (default (cl_cookie c) ck) (cl_uploads c)
                    (<[i := None]> (cl_inflight c)) (cl_received c ++ [r])
      | None => c
      end
  end.

Definition client_run (es : list event) (c : client) : client := foldl client_step c es.

(** A browser that waits for each answer before it sends the next
    request; [n] is the number of requests sent before. *)
Fixpoint one_by_one (n : nat) (rqs : list request) : list event :=
  match rqs with
  | [] => []
  | rq :: rqs' => Send rq :: Recv n :: one_by_one (S n) rqs'
  end.

(** ** Lemmas *)

(** When the handler does not assign to [session], the session is the
    one the request carried. *)
Lemma session_unmodified (rq : request) (s : cserver) :
  session_modified rq s = false → cs_session (handle secure_filename rq s).2 = cs_session s.
Proof.
  destruct rq as [fid r|data| | |]; cbn [session_modified]; [| |done|done|done].
  - unfold handle, upload_file. destruct (check_upload r) as [|f]; [done|].
    case_decide; [done|]. rewrite bool_decide_eq_true_2 by done. by destruct (fs_content f).
  - unfold handle, search_barcode. cbv zeta. destruct (barcode_of data) as [b|]; [|done].
    case_decide; [done|]. rewrite (bool_decide_eq_true_2 (b ≠ "")) by done.
    destruct (ss_df_data (cs_session s)) as [recs|]; [|done]. unfold search_core.
    destruct (found_indices (from_records recs) b) eqn:E; [done|].
    by rewrite bool_decide_eq_true_2.
Qed.

(** Sending [rq] and receiving its answer is the handler. *)
Lemma send_recv (rq : request) (c : client) :
  client_run [Send rq; Recv (length (cl_inflight c))] c =
    mk_client (cs_session (handle secure_filename rq (server_of c)).2)
              (cs_uploads (handle secure_filename rq (server_of c)).2)
              (cl_inflight c ++ [None])
              (cl_received c ++ [(handle secure_filename rq (server_of c)).1]).
Proof.
  unfold client_run. cbn [foldl client_step cl_inflight cl_cookie cl_uploads cl_received].
  rewrite lookup_app_r, Nat.sub_diag by lia. cbn.
  rewrite insert_app_r_alt, Nat.sub_diag by lia. cbn. f_equal.
  unfold answer. destruct (session_modified rq (server_of c)) eqn:E; [done|].
  cbn. rewrite session_unmodified by done. done.
Qed.

Lemma client_run_app (es1 es2 : list event) (c : client) :
  client_run (es1 ++ es2) c = client_run es2 (client_run es1 c).
Proof. apply foldl_app. Qed.

(** Two answers in flight: the first at position [length L], the
    second right after it. *)
Lemma inflight_two {A} (L : list (option A)) (x y : A) (i : nat) :
  i = length L ∨ i = S (length L) →
  mjoin (((L ++ [Some x]) ++ [Some y]) !! i) = Some (if decide (i = length L) then x else y) ∧
  (∀ j, j ≠ i → j = length L ∨ j = S (length L) →
   mjoin (<[i := None]> ((L ++ [Some x]) ++ [Some y]) !! j) =
     Some (if decide (j = length L) then x else y)).
Proof.
  assert (∀ j, j = length L ∨ j = S (length L) →
          ((L ++ [Some x]) ++ [Some y]) !! j = Some (Some (if decide (j = length L) then x else y)))
    as Hl.
  { intros j [->| ->]; rewrite <-app_assoc; cbn;
      rewrite lookup_app_r, ?Nat.sub_diag, ?Nat.sub_succ_l, ?Nat.sub_diag by lia;
      case_decide; cbn; done || lia. }
  intros Hi. split; [by rewrite Hl|]. intros j Hji Hj.
  rewrite list_lookup_insert_ne by done. by rewrite Hl.
Qed.

(** Two requests in flight, answered in the order they were sent: the
    cookie is the first answer's and then the second's, and both
    answers are received. *)
Lemma two_in_flight (rq1 rq2 : request) (c : client) :
  let s2 := mk_cserver (cl_cookie c) (cs_uploads (handle secure_filename rq1 (server_of c)).2) in
  cl_cookie (client_run [Send rq1; Send rq2; Recv (length (cl_inflight c)); Recv (S (length (cl_inflight c)))] c) =
    default (default (cl_cookie c) (answer rq1 (server_of c)).2) (answer rq2 s2).2 ∧
  cl_received (client_run [Send rq1; Send rq2; Recv (length (cl_inflight c)); Recv (S (length (cl_inflight c)))] c) =
    cl_received c ++ [(answer rq1 (server_of c)).1; (answer rq2 s2).1].
Proof.
  intros s2. unfold client_run, s2.
  cbn [foldl client_step cl_inflight cl_cookie cl_uploads cl_received].
  unfold server_of. cbn [cl_inflight cl_cookie cl_uploads cl_received].
  remember (answer rq1 (mk_cserver (cl_cookie c) (cl_uploads c))) as a1 eqn:E1.
  remember (answer rq2 (mk_cserver (cl_cookie c) (cs_uploads (handle secure_filename rq1
              (mk_cserver (cl_cookie c) (cl_uploads c))).2))) as a2 eqn:E2.
  rewrite (proj1 (inflight_two _ _ _ _ (or_introl eq_refl))), decide_True by done.
  destruct a1 as [r1 ck1]. cbn [cl_inflight cl_cookie cl_received].
  rewrite (proj2 (inflight_two _ _ _ _ (or_introl eq_refl))), decide_False by lia.
  destruct a2 as [r2 ck2]. cbn. by rewrite <-app_assoc.
Qed.

(** A search of the cookie variant that finds the code: the answer
    reports the matched rows and the new ones, and the cookie it sends
    holds the scanned list grown by them. *)
Lemma cookie_search_found (data : search_body) (b : string) (recs : list record) (s : cserver) :
  barcode_of data = Some b → b ≠ "" → ss_df_data (cs_session s) = Some recs →
  frame_wf (from_records recs) → found_indices (from_records recs) b ≠ [] →
  let sc := default [] (ss_scanned_items (cs_session s)) in
  ∃ added,
    answer (ReqSearch data) s =
      (Ok (RSearch (Found (found_indices (from_records recs) b) added (length (sc ++ added)))),
       Some (flask_save (mk_session (Some recs) (ss_df_columns (cs_session s)) (Some (sc ++ added))
                                    (ss_filename (cs_session s))))) ∧
    (∀ i, i ∈ added ↔ row_matches (from_records recs) b i ∧ i ∉ sc).
Proof.
  intros Hb Hne Hr Hwf Hf sc.
  destruct (search_core_found_added (from_records recs) sc b Hwf Hf) as (added & Hs & Hin & _).
  exists added. split; [|done].
  unfold answer, session_modified, handle, search_barcode. cbv zeta.
  rewrite Hb, Hr, decide_False by done. fold sc. rewrite Hs.
  rewrite !bool_decide_eq_true_2 by done. cbn. by rewrite <-Hr.
Qed.

(** ** Theorems *)

(** a browser that waits for each answer before sending the next
    request receives exactly the answers of the sequential handlers
    [AppCookie.run], from the session its cookie holds. *)
Theorem one_at_a_time (rqs : list request) (c : client) :
  cl_received (client_run (one_by_one (length (cl_inflight c)) rqs) c) =
    cl_received c ++ run secure_filename rqs (server_of c).
Proof.
  revert c. induction rqs as [|rq rqs IH]; intros c; cbn [one_by_one run]; [by rewrite app_nil_r|].
  change (Send rq :: Recv (length (cl_inflight c)) :: one_by_one (S (length (cl_inflight c))) rqs)
    with ([Send rq; Recv (length (cl_inflight c))] ++ one_by_one (S (length (cl_inflight c))) rqs).
  rewrite client_run_app, send_recv.
  set (c' := mk_client _ _ (cl_inflight c ++ [None]) _).
  replace (S (length (cl_inflight c))) with (length (cl_inflight c'))
    by (cbn; rewrite length_app; cbn; lia).
  rewrite IH. subst c'. cbn [cl_received]. rewrite <-app_assoc. cbn. do 3 f_equal.
  unfold server_of. cbn. by destruct (handle _ rq _).2.
Qed.

(** two requests sent before either answer arrives (codes scanned
    in quick succession) are both handled on the cookie the browser
    held.  When both answers set the cookie, the one that arrives last
    decides the browser's session, computed without the other request:
    whatever the other one changed (its scans, or a new sheet) is lost,
    although its answer reported the change. *)
Theorem last_answer_wins (rq1 rq2 : request) (c : client) :
  session_modified rq1 (server_of c) = true →
  session_modified rq2 (mk_cserver (cl_cookie c) (cs_uploads (handle secure_filename rq1 (server_of c)).2)) = true →
  cl_cookie (client_run [Send rq1; Send rq2; Recv (length (cl_inflight c)); Recv (S (length (cl_inflight c)))] c) =
    cs_session (handle secure_filename rq2
                  (mk_cserver (cl_cookie c) (cs_uploads (handle secure_filename rq1 (server_of c)).2))).2 ∧
  cl_cookie (client_run [Send rq1; Send rq2; Recv (S (length (cl_inflight c))); Recv (length (cl_inflight c))] c) =
    cs_session (handle secure_filename rq1 (server_of c)).2.
Proof.
  intros H1 H2. unfold client_run. cbn [foldl client_step cl_inflight cl_cookie cl_uploads cl_received].
  unfold server_of in *. cbn [cl_cookie cl_uploads cl_inflight] in *.
  split.
  - rewrite (proj1 (inflight_two _ _ _ _ (or_introl eq_refl))), decide_True by done.
    cbn [answer cl_inflight cl_cookie]. rewrite (proj2 (inflight_two _ _ _ _ (or_introl eq_refl))) by lia.
    rewrite decide_False by lia. cbn [answer cl_cookie]. by rewrite H2.
  - rewrite (proj1 (inflight_two _ _ _ _ (or_intror eq_refl))), decide_False by lia.
    cbn [answer cl_inflight cl_cookie]. rewrite (proj2 (inflight_two _ _ _ _ (or_intror eq_refl))) by lia.
    rewrite decide_True by done. cbn [answer cl_cookie]. by rewrite H1.
Qed.

(** C36: two scans of the cookie variant sent before either answer
    arrives (codes scanned in quick succession), each finding its code.
    Both answers report success with their own new rows, computed from
    the scanned list the cookie held, and the browser ends with the
    second answer's cookie: the scanned list grown by the second scan's
    rows only.  A row only the first code matched is reported as newly
    scanned and is then missing from the session. *)
Theorem cookie_lost_scan_update (data1 data2 : search_body) (b1 b2 : string) (recs : list record)
    (c : client) :
  barcode_of data1 = Some b1 → barcode_of data2 = Some b2 → b1 ≠ "" → b2 ≠ "" →
  ss_df_data (cl_cookie c) = Some recs → frame_wf (from_records recs) →
  found_indices (from_records recs) b1 ≠ [] → found_indices (from_records recs) b2 ≠ [] →
  let sc := default [] (ss_scanned_items (cl_cookie c)) in
  let c' := client_run [Send (ReqSearch data1); Send (ReqSearch data2);
                        Recv (length (cl_inflight c)); Recv (S (length (cl_inflight c)))] c in
  ∃ added1 added2,
    cl_received c' = cl_received c ++
      [Ok (RSearch (Found (found_indices (from_records recs) b1) added1 (length (sc ++ added1))));
       Ok (RSearch (Found (found_indices (from_records recs) b2) added2 (length (sc ++ added2))))] ∧
    ss_scanned_items (cl_cookie c') = Some (sc ++ added2) ∧
    (∀ i, i ∈ added1 ↔ row_matches (from_records recs) b1 i ∧ i ∉ sc) ∧
    (∀ i, i ∈ added2 ↔ row_matches (from_records recs) b2 i ∧ i ∉ sc) ∧
    (∀ i, i ∈ added1 → ¬ row_matches (from_records recs) b2 i →
          i ∉ default [] (ss_scanned_items (cl_cookie c'))).
Proof.
  intros Hb1 Hb2 Hn1 Hn2 Hr Hwf Hf1 Hf2 sc c'.
  destruct (cookie_search_found data1 b1 recs (server_of c) Hb1 Hn1 Hr Hwf Hf1) as (a1 & Ha1 & Hin1).
  destruct (cookie_search_found data2 b2 recs
              (mk_cserver (cl_cookie c) (cs_uploads (handle secure_filename (ReqSearch data1) (server_of c)).2))
              Hb2 Hn2 Hr Hwf Hf2) as (a2 & Ha2 & Hin2).
  unfold c'. rewrite (proj1 (two_in_flight (ReqSearch data1) (ReqSearch data2) c)),
    (proj2 (two_in_flight (ReqSearch data1) (ReqSearch data2) c)), Ha1, Ha2.
  exists a1, a2. cbn. split_and!; [done|done|done|done|].
  intros i Hi Hnm Hin. apply elem_of_app in Hin as [Hin|Hin].
  - apply Hin1 in Hi as [_ Hi]. done.
  - apply Hin2 in Hin as [? _]. done.
Qed.

End Client.


(** ** Witnesses *)

(** A browser holding the cookie of an upload of [inventory_sample]. *)
Definition uploaded_client : client :=
  mk_client (cs_session (handle AppFile.keep_name (ReqUpload "s1" AppFile.sample_upload) init_cserver).2)
            ∅ [] [].

Definition scan_code (code : string) : request := ReqSearch (Some {["barcode" := JString code]}).

(** Scanning [A100] and then [C400] before the first answer arrives:
    both answers report their new rows, and the cookie the browser
    keeps holds only the second one's. *)
Lemma last_answer_wins_witness :
  cl_received (client_run AppFile.keep_name
                 [Send (scan_code "A100"); Send (scan_code "C400"); Recv 0; Recv 1] uploaded_client) =
    [Ok (RSearch (Found [0; 1] [0; 1] 2)); Ok (RSearch (Found [3; 3] [3] 1))] ∧
  ss_scanned_items (cl_cookie (client_run AppFile.keep_name
                 [Send (scan_code "A100"); Send (scan_code "C400"); Recv 0; Recv 1] uploaded_client)) =
    Some [3] ∧
  cl_cookie (client_run AppFile.keep_name
                 [Send (scan_code "A100"); Send (scan_code "C400"); Recv 0; Recv 1] uploaded_client) =
    cs_session (handle AppFile.keep_name (scan_code "C400")
                  (mk_cserver (cl_cookie uploaded_client)
                     (cs_uploads (handle AppFile.keep_name (scan_code "A100")
                                    (server_of uploaded_client)).2))).2.
Proof.
  split_and!; [vm_compute; reflexivity|vm_compute; reflexivity|].
  apply (last_answer_wins AppFile.keep_name (scan_code "A100") (scan_code "C400") uploaded_client);
    vm_compute; reflexivity.
Defined.

(** Scanning [A100] (rows 0 and 1) and then [C400] (row 3) before the
    first answer arrives. *)
Lemma cookie_lost_scan_update_witness :
  ∃ added1 added2,
    cl_received (client_run AppFile.keep_name
                   [Send (scan_code "A100"); Send (scan_code "C400"); Recv 0; Recv 1] uploaded_client) =
      [] ++ [Ok (RSearch (Found (found_indices (from_records (default [] (ss_df_data (cl_cookie uploaded_client)))) "A100")
                                 added1 (length ([] ++ added1))));
             Ok (RSearch (Found (found_indices (from_records (default [] (ss_df_data (cl_cookie uploaded_client)))) "C400")
                                 added2 (length ([] ++ added2))))] ∧
    ss_scanned_items (cl_cookie (client_run AppFile.keep_name
                   [Send (scan_code "A100"); Send (scan_code "C400"); Recv 0; Recv 1] uploaded_client)) =
      Some ([] ++ added2) ∧
    (∀ i, i ∈ added1 ↔ row_matches (from_records (default [] (ss_df_data (cl_cookie uploaded_client)))) "A100" i ∧ i ∉ []) ∧
    (∀ i, i ∈ added2 ↔ row_matches (from_records (default [] (ss_df_data (cl_cookie uploaded_client)))) "C400" i ∧ i ∉ []) ∧
    (∀ i, i ∈ added1 → ¬ row_matches (from_records (default [] (ss_df_data (cl_cookie uploaded_client)))) "C400" i →
          i ∉ default [] (ss_scanned_items (cl_cookie (client_run AppFile.keep_name
                   [Send (scan_code "A100"); Send (scan_code "C400"); Recv 0; Recv 1] uploaded_client)))).
Proof.
  apply (cookie_lost_scan_update AppFile.keep_name (Some {["barcode" := JString "A100"]})
           (Some {["barcode" := JString "C400"]}) "A100" "C400"
           (default [] (ss_df_data (cl_cookie uploaded_client))) uploaded_client);
    first [reflexivity|discriminate|decide_by_eval|vm_compute; discriminate].
Defined.

End CookieConcurrent.
