(* ===== verification/CookieUpload.v ===== *)
(** * The cookie variant's [upload_file] as steps on the shared [uploads/] folder

    [inventory_flask_app.py]'s [upload_file] (lines 25-64) touches the
    [uploads/] folder, which every client shares, three times:
    [file.save(filepath)] (line 39), [pd.read_excel(filepath)] (line
    42) and [os.remove(filepath)] (line 51).  Between the read and the
    remove it assigns the four session keys (lines 45-48), so when
    [os.remove] raises the handler answers 500 from its [except]
    (line 64) with the session already modified, and Flask still sends
    the new cookie.  A thread here is one upload cut at these three
    points; the other handlers of this variant do not touch the file
    system and are atomic ([CookieConcurrent]).  Run alone, a thread is
    [AppCookie.upload_file] ([cupload_alone]); two uploads of files
    with the same name read each other's sheet, and the second answers
    500 while its cookie carries the new session ([cupload_clobbered]). *)

From S2P Require Import Prelude PyStr Frame Matcher Progress Exporter Upload Records Session Store AppFile AppCookie.
From stdpp Require Import gmap.

Module CookieUpload.
#[local] Unset Default Proof Using.
Import Frame Upload Records AppCookie.AppCookie.

(** [os.path.join(app.config['UPLOAD_FOLDER'], filename)] *)
Definition cupload_path (filename : string) : string := AppFile.UPLOAD_FOLDER +:+ "/" +:+ filename.

(** The session lines 45-48 write, as the cookie carries it. *)
Definition uploaded_session (df : frame) (filename : string) : session :=
  flask_save (mk_session (Some (to_records df)) (Some (columns df)) (Some []) (Some filename)).

(** An upload between its steps; a finished one has its answer and the
    cookie Flask sends with it, if the session was modified. *)
Inductive cupload :=
  | CUStart (r : upload_request)
  | CUSaved (filename : string)
  | CURead (df : frame) (filename : string)
  | CUDone (resp : response upload_reply) (set_cookie : option session).

Section Steps.
Variable secure_filename : string → string.

Definition cupload_step (ups : gmap string excel_outcome) (t : cupload)
    : cupload * gmap string excel_outcome :=
  match t with
  | CUStart r =>
      match check_upload r with
      | UploadRejected status kind => (CUDone (Fail status kind) None, ups)
      | UploadAccepted f =>
          let filename := secure_filename (fs_filename f) in
          if decide (filename = "") then (CUDone (Fail 500 ErrProcessFile) None, ups)
          else (CUSaved filename, <[cupload_path filename := fs_content f]> ups)
      end
  | CUSaved filename =>
      match ups !! cupload_path filename with
      | Some (Workbook df) => (CURead df filename, ups)
      | _ => (CUDone (Fail 500 ErrProcessFile) None, ups)
      end
  | CURead df filename =>
      if decide (cupload_path filename ∈ dom ups) then
        (CUDone (Ok (upload_reply_cookie df)) (Some (uploaded_session df filename)),
         delete (cupload_path filename) ups)
      else (CUDone (Fail 500 ErrProcessFile) (Some (uploaded_session df filename)), ups)
  | CUDone resp ck => (CUDone resp ck, ups)
  end.

(** Uploads in flight over the shared folder, and a schedule. *)
Record cconfig := mk_cconfig {
  cc_uploads : gmap string excel_outcome;
  cc_threads : list cupload
}.

Definition cstep_at (cf : cconfig) (i : nat) : cconfig :=
  match cc_threads cf !! i with
  | Some t =>
      let '(t', ups') := cupload_step (cc_uploads cf) t in mk_cconfig ups' (<[i := t']> (cc_threads cf))
  | None => cf
  end.

Definition crun (sched : list nat) (cf : cconfig) : cconfig := foldl cstep_at cf sched.

(** ** Lemmas *)

Lemma cstep_at_lookup (cf : cconfig) (i : nat) (t t' : cupload) (ups' : gmap string excel_outcome) :
  cc_threads cf !! i = Some t → cupload_step (cc_uploads cf) t = (t', ups') →
  cstep_at cf i = mk_cconfig ups' (<[i := t']> (cc_threads cf)).
Proof. intros Hi Ht. unfold cstep_at. rewrite Hi. by rewrite Ht. Qed.

Lemma cupload_start_saved (ups : gmap string excel_outcome) (r : upload_request) (f : file_storage) :
  check_upload r = UploadAccepted f → secure_filename (fs_filename f) ≠ "" →
  cupload_step ups (CUStart r) =
    (CUSaved (secure_filename (fs_filename f)),
     <[cupload_path (secure_filename (fs_filename f)) := fs_content f]> ups).
Proof. intros Hc Hn. cbn. by rewrite Hc, decide_False. Qed.

Lemma cupload_saved_read (ups : gmap string excel_outcome) (fn : string) (df : frame) :
  ups !! cupload_path fn = Some (Workbook df) → cupload_step ups (CUSaved fn) = (CURead df fn, ups).
Proof. intros Hu. cbn. by rewrite Hu. Qed.

(** Run alone, an upload thread answers, sets the cookie and leaves
    [uploads/] as the atomic [AppCookie.upload_file] does, on every
    branch; the cookie is sent exactly when the handler wrote the
    session. *)
Lemma cupload_alone (r : upload_request) (c : session) (ups : gmap string excel_outcome) :
  ∃ ck ups',
    crun [0; 0; 0] (mk_cconfig ups [CUStart r]) =
      mk_cconfig ups' [CUDone (upload_file secure_filename r (mk_cserver c (dom ups))).1 ck] ∧
    default c ck = cs_session (upload_file secure_filename r (mk_cserver c (dom ups))).2 ∧
    dom ups' = cs_uploads (upload_file secure_filename r (mk_cserver c (dom ups))).2.
Proof.
  unfold crun, upload_file. cbn -[check_upload].
  destruct (check_upload r) as [status kind|f]; cbn; [by eexists _, _|].
  case_decide; cbn; [by eexists _, _|].
  rewrite lookup_insert_eq. unfold cupload_path.
  destruct (fs_content f) as [df|]; cbn.
  - rewrite decide_True by (rewrite dom_insert_L; set_solver).
    eexists _, _. split_and!; [reflexivity|reflexivity|].
    rewrite dom_delete_L, dom_insert_L. set_solver.
  - eexists _, _. split_and!; [reflexivity|reflexivity|]. by rewrite dom_insert_L.
Qed.

Ltac csched_step :=
  match goal with
  | |- context [foldl ?f ?a (?x :: ?l)] => change (foldl f a (x :: l)) with (foldl f (f a x) l)
  end.

(** two uploads of files whose names [secure_filename] maps to the
    same name, interleaved as save, save, read, read, remove, remove:
    the first request reads the second one's sheet and answers with it,
    and the second request's [os.remove] raises, so it answers 500
    "Error al procesar archivo" while the cookie it sends holds the new
    sheet: an error answer that changes the session. *)
Theorem cupload_clobbered (r1 r2 : upload_request) (f1 f2 : file_storage) (df1 df2 : frame)
    (ups : gmap string excel_outcome) :
  check_upload r1 = UploadAccepted f1 → check_upload r2 = UploadAccepted f2 →
  secure_filename (fs_filename f1) = secure_filename (fs_filename f2) →
  secure_filename (fs_filename f2) ≠ "" →
  fs_content f1 = Workbook df1 → fs_content f2 = Workbook df2 →
  cc_threads (crun [0; 1; 0; 1; 0; 1] (mk_cconfig ups [CUStart r1; CUStart r2])) =
    [CUDone (Ok (upload_reply_cookie df2))
            (Some (uploaded_session df2 (secure_filename (fs_filename f2))));
     CUDone (Fail 500 ErrProcessFile)
            (Some (uploaded_session df2 (secure_filename (fs_filename f2))))].
Proof.
  intros Hc1 Hc2 Hfn Hne Hf1 Hf2.
  set (fn := secure_filename (fs_filename f2)) in *.
  set (p := cupload_path fn).
  unfold crun.
  csched_step; erewrite cstep_at_lookup; [|reflexivity|apply cupload_start_saved; [done|by rewrite Hfn]].
  csched_step; erewrite cstep_at_lookup; [|reflexivity|by apply cupload_start_saved].
  rewrite Hfn, Hf1, Hf2. fold p.
  csched_step; erewrite cstep_at_lookup;
    [|reflexivity|apply cupload_saved_read; cbn; by rewrite lookup_insert_eq].
  csched_step; erewrite cstep_at_lookup;
    [|reflexivity|apply cupload_saved_read; cbn; by rewrite lookup_insert_eq].
  csched_step; erewrite cstep_at_lookup; [|reflexivity|cbn;
    rewrite decide_True by (rewrite dom_insert_L; set_solver); reflexivity].
  csched_step; erewrite cstep_at_lookup; [|reflexivity|cbn;
    rewrite decide_False by (rewrite dom_delete_L, dom_insert_L; set_solver); reflexivity].
  reflexivity.
Qed.

End Steps.

(** ** Witnesses *)

Definition other_sheet : frame := mk_frame ["Codigo"] [[CStr "Z9"]].

Definition upload_of (fn : string) (df : frame) : upload_request :=
  mk_upload_request (Some (mk_file fn (Workbook df))).

Lemma cupload_clobbered_witness :
  cc_threads (crun AppFile.keep_name [0; 1; 0; 1; 0; 1]
    (mk_cconfig ∅ [CUStart (upload_of "conteo.xlsx" Matcher.inventory_sample);
                   CUStart (upload_of "conteo.xlsx" other_sheet)])) =
    [CUDone (Ok (upload_reply_cookie other_sheet)) (Some (uploaded_session other_sheet "conteo.xlsx"));
     CUDone (Fail 500 ErrProcessFile) (Some (uploaded_session other_sheet "conteo.xlsx"))].
Proof.
  apply (cupload_clobbered AppFile.keep_name _ _
           (mk_file "conteo.xlsx" (Workbook Matcher.inventory_sample))
           (mk_file "conteo.xlsx" (Workbook other_sheet)) Matcher.inventory_sample other_sheet);
    first [reflexivity|discriminate].
Defined.

End CookieUpload.
