(* ===== verification/CookieBrowser.v ===== *)
(** * One browser of [inventory_flask_app.py], its uploads cut into steps

    This file joins the two cookie-variant models: the browser of
    [CookieConcurrent] (requests in flight, each answered on the cookie
    it was sent with, the browser keeping the last cookie received) and
    the upload threads of [CookieUpload] ([upload_file] cut at
    [file.save], [pd.read_excel] and [os.remove] on the shared
    [uploads/] folder).  An upload the browser sends becomes a thread
    that the server advances one step at a time ([BWork]); every other
    request is answered at once, as [CookieConcurrent.answer] computes,
    since those handlers touch no file.  An answer is received when its
    handler has finished.

    A browser that waits for each answer, the server running each upload
    to its end, receives the sequential handlers' answers
    ([browser_one_at_a_time]); two uploads of the same name sent before
    either answer arrives get one answer with the other's sheet and one
    500 answer, and that error answer alone replaces the browser's
    session with the new sheet ([browser_upload_clobbered]); a scan sent
    while an upload is being answered puts the old sheet back
    ([scan_during_upload_keeps_old_sheet]).  Whatever
    the interleaving, the cookie keeps the shape of a session an upload
    writes or the empty one ([browser_session_typed]). *)

From S2P Require Import Prelude PyStr Frame Matcher Progress Exporter Upload Records Session Store AppFile AppCookie CookieConcurrent CookieUpload.
From stdpp Require Import gmap.

Module CookieBrowser.
#[local] Unset Default Proof Using.
Import Frame Matcher Records Upload Session AppCookie.AppCookie CookieConcurrent.CookieConcurrent CookieUpload.CookieUpload.

(** A request in flight: the answer of a handler that ran at once (with
    the cookie it sets, if any), an upload between its steps, or an
    answer already received. *)
Inductive pending :=
  | PAnswer (r : response reply) (set_cookie : option session)
  | PUpload (t : cupload)
  | PReceived.

(** The answer a pending request has for the browser, once its handler
    has returned. *)
Definition ready (p : pending) : option (response reply * option session) :=
  match p with
  | PAnswer r ck => Some (r, ck)
  | PUpload (CUDone resp ck) => Some (map_response RUpload resp, ck)
  | _ => None
  end.

(** The browser's cookie, the server's [uploads/] folder with the files
    in it, the requests in flight and the answers received in order. *)
Record bstate := mk_bstate {
  bs_cookie : session;
  bs_uploads : gmap string excel_outcome;
  bs_pending : list pending;
  bs_received : list (response reply)
}.

Inductive bevent :=
  | BSend (rq : request)
  | BWork (i : nat)
  | BRecv (i : nat).

Section Browser.
Variable secure_filename : string → string.

Definition bserver (b : bstate) : cserver := mk_cserver (bs_cookie b) (dom (bs_uploads b)).

Definition bstep (b : bstate) (e : bevent) : bstate :=
  match e with
  | BSend (ReqUpload _ r) =>
      mk_bstate (bs_cookie b) (bs_uploads b) (bs_pending b ++ [PUpload (CUStart r)]) (bs_received b)
  | BSend rq =>
      mk_bstate (bs_cookie b) (bs_uploads b)
                (bs_pending b ++ [let '(r, ck) := answer secure_filename rq (bserver b) in PAnswer r ck])
                (bs_received b)
  | BWork i =>
      match bs_pending b !! i with
      | Some (PUpload t) =>
          let '(t', ups') := cupload_step secure_filename (bs_uploads b) t in
          mk_bstate (bs_cookie b) ups' (<[i := PUpload t']> (bs_pending b)) (bs_received b)
      | _ => b
      end
  | BRecv i =>
      match bs_pending b !! i ≫= ready with
      | Some (r, ck) =>
          mk_bstate (default (bs_cookie b) ck) (bs_uploads b)
                    (<[i := PReceived]> (bs_pending b)) (bs_received b ++ [r])
      | None => b
      end
  end.

Definition brun (es : list bevent) (b : bstate) : bstate := foldl bstep b es.

(** A request sent, handled to its end and received before the next
    one is sent; [n] is the number of requests sent before. *)
Definition serve (n : nat) (rq : request) : list bevent :=
  match rq with
  | ReqUpload _ _ => [BSend rq; BWork n; BWork n; BWork n; BRecv n]
  | _ => [BSend rq; BRecv n]
  end.

Fixpoint serial (n : nat) (rqs : list request) : list bevent :=
  match rqs with
  | [] => []
  | rq :: rqs' => serve n rq ++ serial (S n) rqs'
  end.

(** ** What the browser and the folder hold *)

(** A file in [uploads/] that [pd.read_excel] reads gives a well-formed
    frame (pandas' frames have unique columns and full rows). *)
Definition outcome_ok (o : excel_outcome) : Prop :=
  match o with Workbook df => frame_wf df | Unreadable => True end.

Definition cookie_ok (ck : option session) : Prop :=
  match ck with Some c => session_typed c | None => True end.

Definition cupload_ok (t : cupload) : Prop :=
  match t with
  | CUStart r => request_ok (ReqUpload "" r)
  | CUSaved _ => True
  | CURead df _ => frame_wf df
  | CUDone _ ck => cookie_ok ck
  end.

Definition pending_ok (p : pending) : Prop :=
  match p with
  | PAnswer _ ck => cookie_ok ck
  | PUpload t => cupload_ok t
  | PReceived => True
  end.

(** The cookie held, every cookie in flight and every file of the
    folder are well formed. *)
Definition bstate_ok (b : bstate) : Prop :=
  session_typed (bs_cookie b) ∧ map_Forall (λ _, outcome_ok) (bs_uploads b) ∧
  Forall pending_ok (bs_pending b).

(** The browser sends requests pandas and werkzeug could produce. *)
Definition event_ok (e : bevent) : Prop :=
  match e with BSend rq => request_ok rq | _ => True end.

#[export] Instance event_ok_dec (e : bevent) : Decision (event_ok e).
Proof. destruct e; cbn; apply _. Defined.

(** ** Lemmas *)

(** The handlers other than [upload_file] leave [uploads/] alone. *)
Lemma handle_keeps_uploads (rq : request) (s : cserver) :
  (∀ fid r, rq ≠ ReqUpload fid r) → cs_uploads (handle secure_filename rq s).2 = cs_uploads s.
Proof.
  intros Hrq. destruct rq as [fid r|data| | |]; [by destruct (Hrq fid r)| |done|done|done].
  unfold handle, search_barcode. repeat case_match; simplify_eq/=; done.
Qed.

Lemma brun_app (es1 es2 : list bevent) (b : bstate) :
  brun (es1 ++ es2) b = brun es2 (brun es1 b).
Proof. apply foldl_app. Qed.

(** The server advancing the uploads that sit after the first
    [length P] requests is [CookieUpload.crun] on those threads. *)
Lemma bstep_work (ck : session) (ups : gmap string excel_outcome) (P : list pending)
    (ts : list cupload) (R : list (response reply)) (j : nat) :
  bstep (mk_bstate ck ups (P ++ (PUpload <$> ts)) R) (BWork (length P + j)) =
    mk_bstate ck (cc_uploads (cstep_at secure_filename (mk_cconfig ups ts) j))
              (P ++ (PUpload <$> cc_threads (cstep_at secure_filename (mk_cconfig ups ts) j))) R.
Proof.
  unfold bstep, cstep_at. cbn [bs_pending bs_uploads bs_cookie bs_received cc_threads cc_uploads].
  rewrite lookup_app_add, list_lookup_fmap.
  destruct (ts !! j) as [t|]; cbn; [|done].
  destruct (cupload_step secure_filename ups t) as [t' ups']; cbn.
  by rewrite insert_app_r, list_fmap_insert.
Qed.

Lemma brun_work (sched : list nat) (ck : session) (ups : gmap string excel_outcome)
    (P : list pending) (ts : list cupload) (R : list (response reply)) :
  brun ((λ j, BWork (length P + j)) <$> sched) (mk_bstate ck ups (P ++ (PUpload <$> ts)) R) =
    mk_bstate ck (cc_uploads (crun secure_filename sched (mk_cconfig ups ts)))
              (P ++ (PUpload <$> cc_threads (crun secure_filename sched (mk_cconfig ups ts)))) R.
Proof.
  revert ups ts. induction sched as [|j sched IH]; intros ups ts; [done|].
  cbn [fmap list_fmap]. unfold brun, crun. cbn [foldl]. rewrite bstep_work.
  destruct (cstep_at secure_filename _ j) as [ups' ts']. apply IH.
Qed.

(** A request served alone: the browser ends with the cookie the
    handler leaves, [uploads/] holds the files the handler leaves, and
    the answer is the handler's. *)
Lemma brun_serve (rq : request) (ck : session) (ups : gmap string excel_outcome)
    (P : list pending) (R : list (response reply)) :
  ∃ ups',
    brun (serve (length P) rq) (mk_bstate ck ups P R) =
      mk_bstate (cs_session (handle secure_filename rq (mk_cserver ck (dom ups))).2) ups'
                (P ++ [PReceived]) (R ++ [(handle secure_filename rq (mk_cserver ck (dom ups))).1]) ∧
    dom ups' = cs_uploads (handle secure_filename rq (mk_cserver ck (dom ups))).2.
Proof.
  destruct rq as [fid r|data| | |].
  { destruct (cupload_alone secure_filename r ck ups) as (ck' & ups' & Hrun & Hck & Hdom).
    exists ups'.
    replace (serve (length P) (ReqUpload fid r))
      with ([BSend (ReqUpload fid r)] ++ ((λ j, BWork (length P + j)) <$> [0; 0; 0]) ++ [BRecv (length P)])
      by (cbn; by rewrite Nat.add_0_r).
    rewrite !brun_app.
    change (brun [BSend (ReqUpload fid r)] (mk_bstate ck ups P R))
      with (mk_bstate ck ups (P ++ (PUpload <$> [CUStart r])) R).
    rewrite brun_work. unfold crun in Hrun. unfold crun. rewrite Hrun.
    unfold brun. cbn [foldl bstep bs_pending bs_cookie bs_uploads bs_received cc_threads cc_uploads].
    rewrite <-(Nat.add_0_r (length P)), lookup_app_add, insert_app_r. cbn. unfold handle.
    destruct (upload_file secure_filename r (mk_cserver ck (dom ups))) as [resp s'] eqn:E.
    cbn in Hck, Hdom |- *. by rewrite Hck, Hdom. }
  all: exists ups; split; [|by rewrite handle_keeps_uploads].
  all: unfold serve, brun; cbn [foldl bstep bs_pending bs_cookie bs_uploads bs_received].
  all: unfold bserver; cbn [bs_cookie bs_uploads].
  all: match goal with
    | |- context [answer secure_filename ?rq ?s] => destruct (answer secure_filename rq s) as [a ack] eqn:Ha
    end.
  all: rewrite <-(Nat.add_0_r (length P)), lookup_app_add, insert_app_r; cbn -[handle].
  all: unfold answer in Ha; destruct (session_modified _ _ _) eqn:Hm; simplify_eq.
  all: first [done | cbn [default]; by rewrite session_unmodified].
Qed.

(** Receiving the answer of the request [k] places after the first
    [length P]. *)
Lemma bstep_recv (ck : session) (ups : gmap string excel_outcome) (P L : list pending)
    (R : list (response reply)) (i k : nat) (p : pending) (r : response reply) (ck' : option session) :
  i = length P + k → L !! k = Some p → ready p = Some (r, ck') →
  bstep (mk_bstate ck ups (P ++ L) R) (BRecv i) =
    mk_bstate (default ck ck') ups (P ++ <[k := PReceived]> L) (R ++ [r]).
Proof.
  intros -> Hk Hp. cbn [bstep bs_pending bs_cookie bs_uploads bs_received].
  rewrite lookup_app_add, Hk. cbn. rewrite Hp. by rewrite insert_app_r.
Qed.

(** ** The session's shape under any interleaving *)

Lemma cupload_step_ok (ups : gmap string excel_outcome) (t : cupload) :
  map_Forall (λ _, outcome_ok) ups → cupload_ok t →
  map_Forall (λ _, outcome_ok) (cupload_step secure_filename ups t).2 ∧
  cupload_ok (cupload_step secure_filename ups t).1.
Proof.
  intros Hups Ht. destruct t as [r|fn|df fn|resp ck]; cbn.
  - destruct (check_upload r) as [|f] eqn:Hc; [done|].
    cbn in Ht. rewrite (check_upload_file r f Hc) in Ht.
    case_decide; [done|]. split; [|done]. by apply map_Forall_insert_2.
  - destruct (ups !! cupload_path fn) as [[df|]|] eqn:Hl; [|done|done].
    split; [done|]. exact (map_Forall_lookup_1 _ _ _ _ Hups Hl).
  - assert (session_typed (uploaded_session df fn)).
    { apply flask_save_typed; [done| |split; constructor].
      apply Forall_Forall2_diag, Forall_forall. done. }
    case_decide; split; try done. by apply map_Forall_delete.
  - done.
Qed.

Lemma ready_ok (p : pending) (r : response reply) (ck : option session) :
  pending_ok p → ready p = Some (r, ck) → cookie_ok ck.
Proof. destruct p as [r' ck'|[| | |resp ck']|]; cbn; intros ? [=]; by subst. Qed.

Lemma bstep_ok (b : bstate) (e : bevent) :
  bstate_ok b → event_ok e → bstate_ok (bstep b e).
Proof.
  intros (Hck & Hups & Hps) He. destruct e as [rq|i|i].
  - assert (cookie_ok (answer secure_filename rq (bserver b)).2) as Hans.
    { unfold answer. destruct (session_modified _ _ _); [|done]. by apply handle_typed. }
    destruct rq as [fid r| | | |]; cbn; split_and!; try done; apply Forall_app; split; try done;
      apply Forall_singleton; [done|..]; first [done|exact Hans].
  - cbn. destruct (bs_pending b !! i) as [[|t|]|] eqn:Hi; try done.
    pose proof (Forall_lookup_1 _ _ _ _ Hps Hi) as Ht.
    destruct (cupload_step_ok (bs_uploads b) t Hups Ht) as [Hups' Ht'].
    destruct (cupload_step _ _ t) as [t' ups']. split_and!; [done|done|].
    by apply Forall_insert.
  - cbn. destruct (bs_pending b !! i) as [p|] eqn:Hi; [|done]. cbn.
    destruct (ready p) as [[r ck]|] eqn:Hp; [|done].
    pose proof (ready_ok p r ck (Forall_lookup_1 _ _ _ _ Hps Hi) Hp) as Hok.
    split_and!; [by destruct ck|done|]. by apply Forall_insert.
Qed.

Lemma brun_ok (es : list bevent) (b : bstate) :
  bstate_ok b → Forall event_ok es → bstate_ok (brun es b).
Proof.
  revert b. induction es as [|e es IH]; intros b Hb Hes; [done|].
  apply Forall_cons in Hes as [He Hes]. apply IH; [by apply bstep_ok|done].
Qed.

(** An accepted upload of a readable sheet run alone: success, and the
    cookie with the new session. *)
Lemma crun_upload_ok (ups : gmap string excel_outcome) (r : upload_request) (f : file_storage)
    (df : frame) :
  check_upload r = UploadAccepted f → fs_content f = Workbook df → secure_filename (fs_filename f) ≠ "" →
  ∃ ups', crun secure_filename [0; 0; 0] (mk_cconfig ups [CUStart r]) =
    mk_cconfig ups' [CUDone (Ok (upload_reply_cookie df))
                            (Some (uploaded_session df (secure_filename (fs_filename f))))].
Proof.
  intros Hc Hf Hn. unfold crun, cstep_at. cbn -[check_upload].
  rewrite Hc, decide_False by done. cbn. rewrite lookup_insert_eq, Hf. cbn.
  rewrite decide_True by (rewrite dom_insert_L; set_solver). by eexists.
Qed.

(** Receive one of the first two answers after [P]. *)
Local Ltac recv_step :=
  first [erewrite (bstep_recv _ _ _ _ _ _ 0); [|lia|reflexivity|reflexivity]
        |erewrite (bstep_recv _ _ _ _ _ _ 1); [|lia|reflexivity|reflexivity]].

(** ** Theorems *)

(** a browser that waits for each answer before sending the next
    request, the server running each upload through [file.save],
    [pd.read_excel] and [os.remove] before the answer is sent, receives
    exactly the answers of the sequential handlers [AppCookie.run] from
    the session its cookie holds and the files in [uploads/]. *)
Theorem browser_one_at_a_time (rqs : list request) (b : bstate) :
  bs_received (brun (serial (length (bs_pending b)) rqs) b) =
    bs_received b ++ run secure_filename rqs (bserver b).
Proof.
  revert b. induction rqs as [|rq rqs IH]; intros [ck ups P R]; cbn [serial run bs_pending bs_received].
  { by rewrite app_nil_r. }
  rewrite brun_app. destruct (brun_serve rq ck ups P R) as (ups' & -> & Hdom).
  replace (S (length P)) with (length (P ++ [PReceived])) by (rewrite length_app; cbn; lia).
  etrans; [apply (IH (mk_bstate _ ups' (P ++ [PReceived]) _))|]. cbn [bs_received]. rewrite <-app_assoc. cbn. do 3 f_equal.
  unfold bserver. cbn [bs_cookie bs_uploads]. rewrite Hdom. by destruct (handle _ rq _).2.
Qed.

(** C34: the browser uploads a new sheet and, before the upload's
    answer arrives, scans a code of the sheet the page still shows.  The
    server runs the whole upload; the scan is answered on the cookie the
    browser held, i.e. on the old sheet.  Both answers report success,
    the upload's with the new sheet, but the scan's answer arrives last
    and its cookie puts the old sheet back: the browser's session holds
    the previous records, file name and scans, and the new sheet is
    gone although its upload succeeded. *)
Theorem scan_during_upload_keeps_old_sheet (fid : string) (r : upload_request) (f : file_storage)
    (df : frame) (data : search_body) (b : string) (recs : list record) (b0 : bstate) :
  check_upload r = UploadAccepted f → fs_content f = Workbook df →
  secure_filename (fs_filename f) ≠ "" →
  barcode_of data = Some b → b ≠ "" → ss_df_data (bs_cookie b0) = Some recs →
  frame_wf (from_records recs) → found_indices (from_records recs) b ≠ [] →
  let n := length (bs_pending b0) in
  let sc := default [] (ss_scanned_items (bs_cookie b0)) in
  let b1 := brun [BSend (ReqUpload fid r); BWork n; BWork n; BWork n; BSend (ReqSearch data);
                  BRecv n; BRecv (n + 1)] b0 in
  ∃ added,
    bs_received b1 = bs_received b0 ++
      [Ok (RUpload (upload_reply_cookie df));
       Ok (RSearch (Found (found_indices (from_records recs) b) added (length (sc ++ added))))] ∧
    ss_df_data (bs_cookie b1) = Some (session_json recs) ∧
    ss_filename (bs_cookie b1) = ss_filename (bs_cookie b0) ∧
    ss_scanned_items (bs_cookie b1) = Some (sc ++ added).
Proof.
  intros Hc Hf Hne Hb Hbn Hr Hwf Hfound n sc b1.
  destruct b0 as [ck ups P R]. subst n sc b1. cbn [bs_pending bs_cookie bs_received] in *.
  destruct (crun_upload_ok ups r f df Hc Hf Hne) as (ups' & Hrun).
  replace [BSend (ReqUpload fid r); BWork (length P); BWork (length P); BWork (length P);
           BSend (ReqSearch data); BRecv (length P); BRecv (length P + 1)]
    with ([BSend (ReqUpload fid r)] ++ ((λ j, BWork (length P + j)) <$> [0; 0; 0]) ++
          [BSend (ReqSearch data); BRecv (length P); BRecv (length P + 1)])
    by (cbn; by rewrite Nat.add_0_r).
  rewrite !brun_app.
  change (brun [BSend (ReqUpload fid r)] (mk_bstate ck ups P R))
    with (mk_bstate ck ups (P ++ (PUpload <$> [CUStart r])) R).
  rewrite brun_work, Hrun. cbn [cc_uploads cc_threads].
  destruct (cookie_search_found secure_filename data b recs (mk_cserver ck (dom ups')) Hb Hbn Hr Hwf Hfound)
    as (added & Hans & _).
  exists added. unfold brun. cbn [foldl].
  assert (bstep (mk_bstate ck ups' (P ++ (PUpload <$> [CUDone (Ok (upload_reply_cookie df))
            (Some (uploaded_session df (secure_filename (fs_filename f))))])) R) (BSend (ReqSearch data)) =
          mk_bstate ck ups' (P ++ [PUpload (CUDone (Ok (upload_reply_cookie df))
            (Some (uploaded_session df (secure_filename (fs_filename f)))));
            PAnswer (answer secure_filename (ReqSearch data) (mk_cserver ck (dom ups'))).1
                    (answer secure_filename (ReqSearch data) (mk_cserver ck (dom ups'))).2]) R) as ->.
  { cbn. unfold bserver. cbn. rewrite <-app_assoc. by destruct (answer _ _ _). }
  rewrite Hans. do 2 recv_step. cbn. split_and!; [by rewrite <-app_assoc|done|done|done].
Qed.

(** C39: two uploads of files whose names [secure_filename] maps to the
    same name, sent before either answer arrives, the server
    interleaving them as save, save, read, read, remove, remove.  The
    first answers with the second one's sheet and the second answers 500
    "Error al procesar archivo", in whichever order they arrive; the
    error answer alone already replaces the browser's session with the
    second sheet (scans reset), and the cookie ends holding it in either
    order. *)
Theorem browser_upload_clobbered (fid1 fid2 : string) (r1 r2 : upload_request)
    (f1 f2 : file_storage) (df1 df2 : frame) (b : bstate) :
  check_upload r1 = UploadAccepted f1 → check_upload r2 = UploadAccepted f2 →
  secure_filename (fs_filename f1) = secure_filename (fs_filename f2) →
  secure_filename (fs_filename f2) ≠ "" →
  fs_content f1 = Workbook df1 → fs_content f2 = Workbook df2 →
  let n := length (bs_pending b) in
  let sent := brun ([BSend (ReqUpload fid1 r1); BSend (ReqUpload fid2 r2)] ++
                    ((λ j, BWork (n + j)) <$> [0; 1; 0; 1; 0; 1])) b in
  bs_received (brun [BRecv n; BRecv (n + 1)] sent) =
    bs_received b ++ [Ok (RUpload (upload_reply_cookie df2)); Fail 500 ErrProcessFile] ∧
  bs_received (brun [BRecv (n + 1); BRecv n] sent) =
    bs_received b ++ [Fail 500 ErrProcessFile; Ok (RUpload (upload_reply_cookie df2))] ∧
  bs_cookie (brun [BRecv (n + 1)] sent) = uploaded_session df2 (secure_filename (fs_filename f2)) ∧
  bs_cookie (brun [BRecv n; BRecv (n + 1)] sent) = uploaded_session df2 (secure_filename (fs_filename f2)) ∧
  bs_cookie (brun [BRecv (n + 1); BRecv n] sent) = uploaded_session df2 (secure_filename (fs_filename f2)).
Proof.
  intros Hc1 Hc2 Hfn Hne Hf1 Hf2 n sent.
  destruct b as [ck ups P R]. subst n sent. cbn [bs_pending bs_received].
  rewrite brun_app.
  change (brun [BSend (ReqUpload fid1 r1); BSend (ReqUpload fid2 r2)] (mk_bstate ck ups P R))
    with (mk_bstate ck ups ((P ++ [PUpload (CUStart r1)]) ++ [PUpload (CUStart r2)]) R).
  rewrite <-app_assoc.
  change ([PUpload (CUStart r1)] ++ [PUpload (CUStart r2)]) with (PUpload <$> [CUStart r1; CUStart r2]).
  rewrite brun_work, (cupload_clobbered secure_filename r1 r2 f1 f2 df1 df2 ups) by done.
  unfold brun. cbn [foldl].
  split_and!; repeat recv_step; cbn [bs_received bs_cookie default]; by rewrite <-?app_assoc.
Qed.

(** C19: however the requests of one browser interleave with the steps
    of its uploads and whatever order the answers arrive in, the cookie
    the browser holds is empty or has all four keys an upload writes,
    with the records of a well-formed sheet, [df_columns] its columns,
    sorted record keys and distinct in-range scanned indices: no race of
    the cookie variant leaves a half-written session. *)
Theorem browser_session_typed (es : list bevent) :
  Forall event_ok es → session_typed (bs_cookie (brun es (mk_bstate empty_session ∅ [] []))).
Proof.
  intros Hes. refine (proj1 (brun_ok es _ _ Hes)).
  split_and!; [by left|apply map_Forall_empty|constructor].
Qed.

End Browser.

(** ** Witnesses *)

Definition two_uploads : list bevent :=
  [BSend (ReqUpload "s1" (upload_of "conteo.xlsx" Matcher.inventory_sample));
   BSend (ReqUpload "s1" (upload_of "conteo.xlsx" other_sheet))] ++
  ((λ j, BWork (0 + j)) <$> [0; 1; 0; 1; 0; 1]).

(** A fresh browser uploads [inventory_sample] and then another sheet
    under the same name [conteo.xlsx]. *)
Lemma browser_upload_clobbered_witness :
  bs_received (brun AppFile.keep_name [BRecv 0; BRecv (0 + 1)]
                 (brun AppFile.keep_name two_uploads (mk_bstate empty_session ∅ [] []))) =
    [] ++ [Ok (RUpload (upload_reply_cookie other_sheet)); Fail 500 ErrProcessFile] ∧
  bs_received (brun AppFile.keep_name [BRecv (0 + 1); BRecv 0]
                 (brun AppFile.keep_name two_uploads (mk_bstate empty_session ∅ [] []))) =
    [] ++ [Fail 500 ErrProcessFile; Ok (RUpload (upload_reply_cookie other_sheet))] ∧
  bs_cookie (brun AppFile.keep_name [BRecv (0 + 1)]
               (brun AppFile.keep_name two_uploads (mk_bstate empty_session ∅ [] []))) =
    uploaded_session other_sheet (AppFile.keep_name (fs_filename (mk_file "conteo.xlsx" (Workbook other_sheet)))) ∧
  bs_cookie (brun AppFile.keep_name [BRecv 0; BRecv (0 + 1)]
               (brun AppFile.keep_name two_uploads (mk_bstate empty_session ∅ [] []))) =
    uploaded_session other_sheet (AppFile.keep_name (fs_filename (mk_file "conteo.xlsx" (Workbook other_sheet)))) ∧
  bs_cookie (brun AppFile.keep_name [BRecv (0 + 1); BRecv 0]
               (brun AppFile.keep_name two_uploads (mk_bstate empty_session ∅ [] []))) =
    uploaded_session other_sheet (AppFile.keep_name (fs_filename (mk_file "conteo.xlsx" (Workbook other_sheet)))).
Proof.
  exact (browser_upload_clobbered AppFile.keep_name "s1" "s1"
           (upload_of "conteo.xlsx" Matcher.inventory_sample) (upload_of "conteo.xlsx" other_sheet)
           (mk_file "conteo.xlsx" (Workbook Matcher.inventory_sample))
           (mk_file "conteo.xlsx" (Workbook other_sheet)) Matcher.inventory_sample other_sheet
           (mk_bstate empty_session ∅ [] []) eq_refl eq_refl eq_refl ltac:(discriminate) eq_refl eq_refl).
Defined.

(** The two clashing uploads, answers in the order 1 then 0, with a scan
    sent in between. *)
Lemma browser_session_typed_witness :
  Forall event_ok (two_uploads ++ [BRecv 1; BSend (scan_code "A100"); BRecv 0; BRecv 2]) ∧
  session_typed (bs_cookie (brun AppFile.keep_name
                  (two_uploads ++ [BRecv 1; BSend (scan_code "A100"); BRecv 0; BRecv 2])
                  (mk_bstate empty_session ∅ [] []))).
Proof.
  assert (Forall event_ok (two_uploads ++ [BRecv 1; BSend (scan_code "A100"); BRecv 0; BRecv 2])) as H
    by decide_by_eval.
  split; [exact H|]. exact (browser_session_typed AppFile.keep_name _ H).
Defined.

(** A browser holding the sample sheet uploads [other_sheet] and scans
    [A100] before the upload's answer arrives. *)
Definition sample_browser : bstate := mk_bstate (cl_cookie uploaded_client) ∅ [] [].

Lemma scan_during_upload_keeps_old_sheet_witness :
  let n := length (bs_pending sample_browser) in
  let sc := default [] (ss_scanned_items (bs_cookie sample_browser)) in
  let b1 := brun AppFile.keep_name
              [BSend (ReqUpload "u2" (upload_of "conteo.xlsx" other_sheet)); BWork n; BWork n; BWork n;
               BSend (ReqSearch (Some {["barcode" := JString "A100"]})); BRecv n; BRecv (n + 1)] sample_browser in
  ∃ added,
    bs_received b1 = bs_received sample_browser ++
      [Ok (RUpload (upload_reply_cookie other_sheet));
       Ok (RSearch (Found (found_indices (from_records (default [] (ss_df_data (bs_cookie sample_browser)))) "A100")
                          added (length (sc ++ added))))] ∧
    ss_df_data (bs_cookie b1) = Some (session_json (default [] (ss_df_data (bs_cookie sample_browser)))) ∧
    ss_filename (bs_cookie b1) = ss_filename (bs_cookie sample_browser) ∧
    ss_scanned_items (bs_cookie b1) = Some (sc ++ added).
Proof.
  exact (scan_during_upload_keeps_old_sheet AppFile.keep_name "u2" (upload_of "conteo.xlsx" other_sheet)
           (mk_file "conteo.xlsx" (Workbook other_sheet)) other_sheet (Some {["barcode" := JString "A100"]}) "A100"
           (default [] (ss_df_data (bs_cookie sample_browser))) sample_browser
           eq_refl eq_refl ltac:(discriminate) eq_refl ltac:(discriminate) eq_refl
           ltac:(decide_by_eval) ltac:(vm_compute; discriminate)).
Defined.

End CookieBrowser.
